(** * I/O emulation and cross-core notification of the ACRN hypervisor

    A shallow embedding of [hypervisor/arch/x86/io.c] and of the claiming
    step of [hypervisor/arch/x86/notify.c].

    Conventions.
    - A C unsigned integer of width w is a [Z] in [0, 2^w); every place where
      the C code truncates or wraps is written out with [u16], [u32], [u64].
    - A NULL-terminated singly linked list is a Rocq [list], head first; a
      pointer that may be NULL is an [option].
    - Calls that leave the two source files (device callbacks, resume_vcpu,
      the EPT code, ...) are recorded, in order, in the [calls] of the
      [world]; messages given to the pr_xxx macros are recorded in [logs]. *)

From Stdlib Require Import ZArith Lia Bool String.
From stdpp Require Import base list.

Local Open Scope Z_scope.

(** ** Machine integers *)

Definition u16 (z : Z) : Z := z mod 65536.
Definition u32 (z : Z) : Z := z mod 4294967296.
Definition u64 (z : Z) : Z := z mod 18446744073709551616.

(** [~x] on a [uint32_t] and on a [uint64_t]. *)
Definition not32 (x : Z) : Z := Z.lxor 4294967295 x.
Definition not64 (x : Z) : Z := Z.lxor 18446744073709551615 x.

(** ** Port access bitmaps: [allow_guest_io_access], [deny_guest_io_access] *)

(** [vm->arch_vm.iobitmap[0]] and [iobitmap[1]]: two pages, each read and
    written as an array of 1024 [uint32_t]. *)
Record iobitmaps := {
  iobitmap0 : list Z;
  iobitmap1 : list Z
}.

Definition IOBITMAP_WORDS : nat := 1024%nat.

Definition wf_iobitmaps (bm : iobitmaps) : Prop :=
  length (iobitmap0 bm) = IOBITMAP_WORDS /\
  length (iobitmap1 bm) = IOBITMAP_WORDS.

(** The local pointer [b] of both loops points to one of the two pages:
    [false] is [iobitmap[0]], [true] is [iobitmap[1]]. *)
Definition bitmap_page (sel : bool) (bm : iobitmaps) : list Z :=
  if sel then iobitmap1 bm else iobitmap0 bm.

(** [b[idx] = f (b[idx])]. The index is [a >> 5] with [a <= 0x7fff], so it
    is always below 1024; [alter] leaves a shorter list as it is. *)
Definition bitmap_update (sel : bool) (idx : Z) (f : Z -> Z)
    (bm : iobitmaps) : iobitmaps :=
  if sel
  then {| iobitmap0 := iobitmap0 bm;
          iobitmap1 := alter f (Z.to_nat idx) (iobitmap1 bm) |}
  else {| iobitmap0 := alter f (Z.to_nat idx) (iobitmap0 bm);
          iobitmap1 := iobitmap1 bm |}.

(** [w &= ~(1U << (a & 0x1fU))] and [w |= (1U << (a & 0x1fU))]. *)
Definition clear_bit32 (a w : Z) : Z :=
  Z.land w (not32 (Z.shiftl 1 (Z.land a 31))).
Definition set_bit32 (a w : Z) : Z :=
  Z.lor w (Z.shiftl 1 (Z.land a 31)).

(** The body shared by the two loops, run [n] more times. [sel] is the page
    [b] points to on entry of the iteration: once it has moved to
    [iobitmap[1]] it is never moved back. *)
Fixpoint io_access_loop (op : Z -> Z -> Z) (n : nat) (sel : bool)
    (address : Z) (bm : iobitmaps) : iobitmaps :=
  match n with
  | O => bm
  | S n' =>
      let sel' := if Z.land address 32768 =? 0 then sel else true in
      let a := Z.land address 32767 in
      let bm' := bitmap_update sel' (Z.shiftr a 5) (op a) bm in
      io_access_loop op n' sel' (u32 (address + 1)) bm'
  end.

Definition allow_guest_io_access (bm : iobitmaps) (address_arg nbytes : Z)
    : iobitmaps :=
  io_access_loop clear_bit32 (Z.to_nat nbytes) false address_arg bm.

Definition deny_guest_io_access (bm : iobitmaps) (address_arg nbytes : Z)
    : iobitmaps :=
  io_access_loop set_bit32 (Z.to_nat nbytes) false address_arg bm.

(** The trap bit the hardware consults for [port]: page by bit 15, word
    [(port & 0x7fff) >> 5], bit [port & 0x1f]. *)
Definition trap_bit (bm : iobitmaps) (port : Z) : bool :=
  match bitmap_page (negb (Z.land port 32768 =? 0)) bm
          !! Z.to_nat (Z.shiftr (Z.land port 32767) 5) with
  | Some w => Z.testbit w (Z.land port 31)
  | None => false
  end.

(** One iteration of either loop for the port [q], with the page chosen by
    bit 15 of [q]. *)
Definition port_update (op : Z -> Z -> Z) (q : Z) (bm : iobitmaps)
    : iobitmaps :=
  bitmap_update (negb (Z.land q 32768 =? 0))
    (Z.shiftr (Z.land q 32767) 5) (op (Z.land q 32767)) bm.

(** What the proofs need of the word operation: it leaves the other bits of
    the word alone and forces its own bit to [v]. *)
Definition bit_frame (op : Z -> Z -> Z) : Prop :=
  forall a w i, 0 <= i < 32 -> i <> Z.land a 31 ->
    Z.testbit (op a w) i = Z.testbit w i.

Definition bit_forced (op : Z -> Z -> Z) (v : bool) : Prop :=
  forall a w, Z.testbit (op a w) (Z.land a 31) = v.

(** Both pages filled with one word: what the memset calls of
    setup_io_bitmap leave, with 0 for the service machine (nothing
    trapped) and 0xFFFFFFFF for the others (everything trapped). *)
Definition iobitmaps_all (w : Z) : iobitmaps :=
  {| iobitmap0 := replicate IOBITMAP_WORDS w;
     iobitmap1 := replicate IOBITMAP_WORDS w |}.

(** ** Requests, slots, virtual cores *)

(** Error numbers and the "delivered to VHM" code, from the C library
    and ioreq headers. *)
Definition EIO : Z := 5.
Definition ENODEV : Z := 19.
Definition EINVAL : Z := 22.
Definition IOREQ_PENDING : Z := 1.

Inductive req_type := REQ_PORTIO | REQ_MMIO | REQ_PCICFG | REQ_WP.
Inductive req_direction := REQUEST_READ | REQUEST_WRITE.
Inductive req_state :=
  REQ_STATE_PENDING | REQ_STATE_COMPLETE | REQ_STATE_PROCESSING | REQ_STATE_FREE.
Inductive vcpu_state_t :=
  VCPU_INIT | VCPU_RUNNING | VCPU_PAUSED | VCPU_ZOMBIE | VCPU_UNKNOWN_STATE.

Definition req_state_eqb (a b : req_state) : bool :=
  match a, b with
  | REQ_STATE_PENDING, REQ_STATE_PENDING
  | REQ_STATE_COMPLETE, REQ_STATE_COMPLETE
  | REQ_STATE_PROCESSING, REQ_STATE_PROCESSING
  | REQ_STATE_FREE, REQ_STATE_FREE => true
  | _, _ => false
  end.

Definition is_zombie (s : vcpu_state_t) : bool :=
  match s with VCPU_ZOMBIE => true | _ => false end.

(** [struct io_request]. The union [reqs] is kept as its four common
    fields; [ior_value] is the 8 bytes read as [reqs.mmio.value], of which
    [reqs.pio.value] is the low 4 (the first 28 bytes of the two layouts
    coincide, as the comment in [emulate_io_post] says). *)
Record io_request := {
  ior_type : req_type;
  ior_processed : req_state;
  ior_direction : req_direction;
  ior_address : Z;
  ior_size : Z;
  ior_value : Z
}.

(** Reading and writing [reqs.pio.value]. *)
Definition pio_value (r : io_request) : Z := u32 (ior_value r).

Definition set_pio_value (r : io_request) (v : Z) : io_request :=
  {| ior_type := ior_type r; ior_processed := ior_processed r;
     ior_direction := ior_direction r; ior_address := ior_address r;
     ior_size := ior_size r;
     ior_value := ior_value r / 4294967296 * 4294967296 + u32 v |}.

Definition set_processed (r : io_request) (s : req_state) : io_request :=
  {| ior_type := ior_type r; ior_processed := s;
     ior_direction := ior_direction r; ior_address := ior_address r;
     ior_size := ior_size r; ior_value := ior_value r |}.

(** [struct vhm_request], one slot of the page shared with the device
    model: the value of its payload, [valid] and [processed]. *)
Record vhm_request := {
  vhm_value : Z;
  vhm_valid : Z;
  vhm_processed : req_state
}.

Definition complete_ioreq (vhm_req : vhm_request) : vhm_request :=
  {| vhm_value := vhm_value vhm_req;
     vhm_valid := 0;
     vhm_processed := REQ_STATE_FREE |}.

Inductive cpu_reg :=
  | CPU_REG_RAX | CPU_REG_RCX | CPU_REG_RDX | CPU_REG_RBX
  | CPU_REG_RSP | CPU_REG_RBP | CPU_REG_RSI | CPU_REG_RDI
  | CPU_REG_R8 | CPU_REG_R9 | CPU_REG_R10 | CPU_REG_R11
  | CPU_REG_R12 | CPU_REG_R13 | CPU_REG_R14 | CPU_REG_R15.

Definition cpu_reg_eqb (a b : cpu_reg) : bool :=
  match a, b with
  | CPU_REG_RAX, CPU_REG_RAX | CPU_REG_RCX, CPU_REG_RCX
  | CPU_REG_RDX, CPU_REG_RDX | CPU_REG_RBX, CPU_REG_RBX
  | CPU_REG_RSP, CPU_REG_RSP | CPU_REG_RBP, CPU_REG_RBP
  | CPU_REG_RSI, CPU_REG_RSI | CPU_REG_RDI, CPU_REG_RDI
  | CPU_REG_R8, CPU_REG_R8 | CPU_REG_R9, CPU_REG_R9
  | CPU_REG_R10, CPU_REG_R10 | CPU_REG_R11, CPU_REG_R11
  | CPU_REG_R12, CPU_REG_R12 | CPU_REG_R13, CPU_REG_R13
  | CPU_REG_R14, CPU_REG_R14 | CPU_REG_R15, CPU_REG_R15 => true
  | _, _ => false
  end.

(** [struct vcpu]: what the two files read and write of it. *)
Record vcpu := {
  vcpu_id : Z;
  vcpu_state : vcpu_state_t;
  launched : bool;
  exit_qualification : Z;
  cur_context : Z;
  req : io_request;
  gpregs : cpu_reg -> Z
}.

Definition set_req (v : vcpu) (r : io_request) : vcpu :=
  {| vcpu_id := vcpu_id v; vcpu_state := vcpu_state v;
     launched := launched v; exit_qualification := exit_qualification v;
     cur_context := cur_context v; req := r; gpregs := gpregs v |}.

(** Modelled from the spec: vcpu_get_gpreg and vcpu_set_gpreg, the register
    accessors, which are outside the two source files; the spec treats them
    as plain access to the guest's general-purpose registers. *)
Definition vcpu_get_gpreg (v : vcpu) (r : cpu_reg) : Z := gpregs v r.

Definition vcpu_set_gpreg (v : vcpu) (r : cpu_reg) (val : Z) : vcpu :=
  {| vcpu_id := vcpu_id v; vcpu_state := vcpu_state v;
     launched := launched v; exit_qualification := exit_qualification v;
     cur_context := cur_context v; req := req v;
     gpregs := fun r' => if cpu_reg_eqb r r' then val else gpregs v r' |}.

(** ** Handlers, the machine and the outside world *)

Inductive log_level := LOG_FATAL | LOG_ERR | LOG_DBG | LOG_ASSERT | LOG_TRACE.

Inductive log_arg := ArgZ (z : Z) | ArgS (s : string).

Record log_entry := {
  log_lvl : log_level;
  log_fmt : string;
  log_args : list log_arg
}.

(** The result of a function that may store through a NULL pointer: the C
    behaviour is then undefined and the model stops. *)
Inductive outcome (A : Type) :=
  | Done (a : A)
  | NullDeref.
Arguments Done {A} a.
Arguments NullDeref {A}.

Section Machine.

(** The state of everything the callbacks can reach that the two files do
    not name: the emulated devices and the device model. *)
Context {dev : Type}.

(** [struct vm_io_handler]; the [next] link is the list it sits in. The
    callbacks get the port and the size (and, for a write, the value). *)
Record vm_io_handler := {
  desc_addr : Z;
  desc_len : Z;
  desc_io_read : dev -> Z -> Z -> Z * dev;
  desc_io_write : dev -> Z -> Z -> Z -> dev
}.

(** [struct mem_io_node]. The callback gets the request and the private
    data, and gives back its status and the request as it leaves it. *)
Record mem_io_node := {
  read_write : dev -> io_request -> Z -> Z * io_request * dev;
  handler_private_data : Z;
  range_start : Z;
  range_end : Z
}.

(** Calls that leave the two files, in the order they are made. *)
Inductive call :=
  | CallIoRead (handler : vm_io_handler) (port size : Z)
  | CallIoWrite (handler : vm_io_handler) (port size val : Z)
  | CallMmioReadWrite (node : mem_io_node) (io_req : io_request)
  | CallInsertRequestWait (id : Z) (io_req : io_request)
  | CallRequestVcpuPreWork (id : Z) (pre_work_id : Z)
  | CallResumeVcpu (id : Z)
  | CallEptMrDel (start size : Z).

Record world := {
  devs : dev;
  calls : list call;
  logs : list log_entry
}.

Definition do_call (c : call) (w : world) : world :=
  {| devs := devs w; calls := calls w ++ [c]; logs := logs w |}.

Definition do_log (l : log_level) (fmt : string) (args : list log_arg)
    (w : world)
    : world :=
  {| devs := devs w; calls := calls w;
     logs := logs w ++ [{| log_lvl := l; log_fmt := fmt; log_args := args |}] |}.

Definition set_devs (d : dev) (w : world) : world :=
  {| devs := d; calls := calls w; logs := logs w |}.

(** [struct vm]: the fields of [arch_vm], [hw] and [sw] that are used.
    [vm_id] stands for what is_vm0 tests; [io_shared_page] is the shared
    page read as [req_queue]. *)
Record vm := {
  vm_id : Z;
  io_handler : list vm_io_handler;
  iobitmap : iobitmaps;
  mmio_list : list mem_io_node;
  created_vcpus : Z;
  vcpu_array : list vcpu;
  io_shared_page : list vhm_request
}.

Definition is_vm0 (m : vm) : bool := vm_id m =? 0.

Definition set_io_handler (m : vm) (l : list vm_io_handler) : vm :=
  {| vm_id := vm_id m; io_handler := l; iobitmap := iobitmap m;
     mmio_list := mmio_list m; created_vcpus := created_vcpus m;
     vcpu_array := vcpu_array m; io_shared_page := io_shared_page m |}.

Definition set_iobitmap (m : vm) (bm : iobitmaps) : vm :=
  {| vm_id := vm_id m; io_handler := io_handler m; iobitmap := bm;
     mmio_list := mmio_list m; created_vcpus := created_vcpus m;
     vcpu_array := vcpu_array m; io_shared_page := io_shared_page m |}.

Definition set_mmio_list (m : vm) (l : list mem_io_node) : vm :=
  {| vm_id := vm_id m; io_handler := io_handler m; iobitmap := iobitmap m;
     mmio_list := l; created_vcpus := created_vcpus m;
     vcpu_array := vcpu_array m; io_shared_page := io_shared_page m |}.

Definition set_io_shared_page (m : vm) (p : list vhm_request) : vm :=
  {| vm_id := vm_id m; io_handler := io_handler m; iobitmap := iobitmap m;
     mmio_list := mmio_list m; created_vcpus := created_vcpus m;
     vcpu_array := vcpu_array m; io_shared_page := p |}.

(** [req_buf->req_queue[vcpu->vcpu_id] = s]. *)
Definition set_slot (m : vm) (id : Z) (s : vhm_request) : vm :=
  set_io_shared_page m (<[Z.to_nat id := s]> (io_shared_page m)).

(** ** Post-processing of a completed request *)

(** [0xFFFFFFFFUL >> (32UL - 8UL * size)] in 64-bit arithmetic. The C shift is
    defined for a count below 64, which holds for the sizes 1 to 4 of a
    port access (counts 24, 16, 8, 0). *)
Definition pio_post_mask (size : Z) : Z :=
  Z.shiftr 4294967295 (u64 (32 - u64 (8 * size))).

Definition emulate_pio_post (v : vcpu) (io_req : io_request) : vcpu :=
  let mask := pio_post_mask (ior_size io_req) in
  match ior_direction io_req with
  | REQUEST_READ =>
      let value := pio_value io_req in
      let rax := vcpu_get_gpreg v CPU_REG_RAX in
      let rax := Z.lor (Z.land rax (not64 mask)) (Z.land value mask) in
      vcpu_set_gpreg v CPU_REG_RAX rax
  | REQUEST_WRITE => v
  end.

(** The result is [None] when [vcpu_id] indexes outside the shared page,
    where the C code would read and write foreign memory. In
    [dm_emulate_pio_post] the request handed on is [&vcpu->req], after the
    value has been copied into it. *)
Definition dm_emulate_pio_post (v : vcpu) (m : vm) : option (vcpu * vm) :=
  vhm_req ← io_shared_page m !! Z.to_nat (vcpu_id v);
  let io_req := set_pio_value (req v) (u32 (vhm_value vhm_req)) in
  let m := set_slot m (vcpu_id v) (complete_ioreq vhm_req) in
  let v := set_req v io_req in
  Some (emulate_pio_post v (req v), m).

(** [io_instr_dest_handler], compiled under CONFIG_PARTITION_MODE. *)
Definition io_instr_dest_handler (io_req : io_request) : io_request :=
  let io_req :=
    match ior_direction io_req with
    | REQUEST_READ => set_pio_value io_req 4294967295
    | REQUEST_WRITE => io_req
    end in
  set_processed io_req REQ_STATE_COMPLETE.

(** The pre-work identifier given to request_vcpu_pre_work. *)
Definition ACRN_VCPU_MMIO_COMPLETE : Z := 0.

(** The calls that hand a request over to the device model. *)
Definition is_handoff (c : call) : bool :=
  match c with
  | CallInsertRequestWait _ _ => true
  | _ => false
  end.

Definition handoffs (w : world) : list call :=
  List.filter is_handoff (calls w).

Definition emulate_io_post (v : vcpu) (m : vm) (w : world)
    : option (vcpu * vm * world) :=
  vhm_req ← io_shared_page m !! Z.to_nat (vcpu_id v);
  if (vhm_valid vhm_req =? 0)
     || negb (req_state_eqb (vhm_processed vhm_req) REQ_STATE_COMPLETE)
  then Some (v, m, w)
  else if is_zombie (vcpu_state v)
  then Some (v, set_slot m (vcpu_id v) (complete_ioreq vhm_req), w)
  else
    '(v1, m1, w1) ←
      match ior_type (req v) with
      | REQ_MMIO =>
          Some (v, m, do_call (CallRequestVcpuPreWork (vcpu_id v)
                                 ACRN_VCPU_MMIO_COMPLETE) w)
      | REQ_PORTIO | REQ_PCICFG =>
          '(v1, m1) ← dm_emulate_pio_post v m; Some (v1, m1, w)
      | REQ_WP =>
          Some (v, set_slot m (vcpu_id v) (complete_ioreq vhm_req), w)
      end;
    Some (v1, m1, do_call (CallResumeVcpu (vcpu_id v1)) w1).

(** ** Dispatch *)

(** [0xFFFFFFFFU >> (32U - 8U * size)] in 32-bit arithmetic; the C shift is
    defined for a count below 32, that is for the sizes 1 to 4. *)
Definition pio_mask (size : Z) : Z :=
  Z.shiftr 4294967295 (u32 (32 - u32 (8 * size))).

(** The 16-bit bounds [base] and [end] that the loop computes for a
    handler. *)
Definition handler_base (handler : vm_io_handler) : Z :=
  u16 (desc_addr handler).
Definition handler_end (handler : vm_io_handler) : Z :=
  u16 (handler_base handler + u16 (desc_len handler)).

(** The [for] loop of [hv_emulate_pio] over the handlers still to visit.
    [port + size] is an [int] sum and does not wrap. *)
Fixpoint hv_emulate_pio_loop (handlers : list vm_io_handler)
    (port size mask : Z) (io_req : io_request) (w : world)
    : Z * io_request * world :=
  match handlers with
  | [] => (- ENODEV, io_req, w)
  | handler :: next =>
      let base := handler_base handler in
      let end_ := handler_end handler in
      if (port >=? end_) || (port + size <=? base)
      then hv_emulate_pio_loop next port size mask io_req w
      else if negb ((port >=? base) && (port + size <=? end_))
      then (- EIO, io_req,
            do_log LOG_FATAL "Err:IO, port 0x%04x, size=%hu spans devices"
              [ArgZ port; ArgZ size] w)
      else
        match ior_direction io_req with
        | REQUEST_WRITE =>
            let val := Z.land (pio_value io_req) mask in
            let d := desc_io_write handler (devs w) port size val in
            let w := do_call (CallIoWrite handler port size val)
                       (set_devs d w) in
            (0, io_req,
             do_log LOG_DBG "IO write on port %04x, data %08x"
               [ArgZ port; ArgZ val] w)
        | REQUEST_READ =>
            let '(val, d) := desc_io_read handler (devs w) port size in
            let w := do_call (CallIoRead handler port size) (set_devs d w) in
            let io_req := set_pio_value io_req val in
            (0, io_req,
             do_log LOG_DBG "IO read on port %04x, data %08x"
               [ArgZ port; ArgZ (pio_value io_req)] w)
        end
  end.

Definition hv_emulate_pio (m : vm) (io_req : io_request) (w : world)
    : Z * io_request * world :=
  let port := u16 (ior_address io_req) in
  let size := u16 (ior_size io_req) in
  let mask := pio_mask size in
  hv_emulate_pio_loop (io_handler m) port size mask io_req w.

(** The [list_for_each] loop of [hv_emulate_mmio]; [address + size] is a
    64-bit sum. *)
Fixpoint hv_emulate_mmio_loop (nodes : list mem_io_node)
    (address size : Z) (io_req : io_request) (w : world)
    : Z * io_request * world :=
  match nodes with
  | [] => (- ENODEV, io_req, w)
  | mmio_handler :: next =>
      let base := range_start mmio_handler in
      let end_ := range_end mmio_handler in
      if (u64 (address + size) <=? base) || (address >=? end_)
      then hv_emulate_mmio_loop next address size io_req w
      else if negb ((address >=? base) && (u64 (address + size) <=? end_))
      then (- EIO, io_req,
            do_log LOG_FATAL "Err MMIO, address:0x%llx, size:%x"
              [ArgZ address; ArgZ size] w)
      else
        let '(status, io_req', d) :=
          read_write mmio_handler (devs w) io_req
            (handler_private_data mmio_handler) in
        (status, io_req',
         do_call (CallMmioReadWrite mmio_handler io_req) (set_devs d w))
  end.

Definition hv_emulate_mmio (m : vm) (io_req : io_request) (w : world)
    : Z * io_request * world :=
  hv_emulate_mmio_loop (mmio_list m) (ior_address io_req) (ior_size io_req)
    io_req w.

(** [acrn_insert_request_wait] belongs to the VHM request code, outside the
    two files: it is a parameter, and each call of it is recorded. *)
Context (acrn_insert_request_wait :
           vcpu -> io_request -> vm -> dev -> Z * vm * dev).

(** The [switch] at the head of [emulate_io]: the routing by request kind
    that the specification calls dispatch. *)
Definition emulate_io_switch (m : vm) (io_req : io_request) (w : world)
    : Z * io_request * world :=
  match ior_type io_req with
  | REQ_PORTIO => hv_emulate_pio m io_req w
  | REQ_MMIO | REQ_WP => hv_emulate_mmio m io_req w
  | REQ_PCICFG => (- EINVAL, io_req, w)
  end.

(** [CONFIG_PARTITION_MODE] chooses at build time between the two bodies
    of the not-found branch. *)
Definition emulate_io (CONFIG_PARTITION_MODE : bool)
    (v : vcpu) (m : vm) (io_req : io_request) (w : world)
    : Z * io_request * vm * world :=
  let '(status, io_req, w) := emulate_io_switch m io_req w in
  if status =? - ENODEV
  then
    if CONFIG_PARTITION_MODE
    then (0, io_instr_dest_handler io_req, m, w)
    else
      let w := do_call (CallInsertRequestWait (vcpu_id v) io_req) w in
      let '(status, m, d) := acrn_insert_request_wait v io_req m (devs w) in
      let w := set_devs d w in
      if negb (status =? 0)
      then (status, io_req, m,
            do_log LOG_FATAL "Err:IO %s access to port 0x%04lx, size=%lu"
              [ArgS match ior_direction io_req with
                    | REQUEST_READ => "write" | REQUEST_WRITE => "read" end;
               ArgZ (ior_address io_req); ArgZ (ior_size io_req)] w)
      else (IOREQ_PENDING, io_req, m, w)
  else (status, io_req, m, w).

(** Modelled from the spec: the exit-qualification macros of the VMX header
    (VM_EXIT_IO_INSTRUCTION_SIZE, _ACCESS_DIRECTION, _PORT_NUMBER), which
    are outside the two files: size field in the low 3 bits, direction in
    bit 3, port number in bits 16 to 31. *)
Definition VM_EXIT_IO_INSTRUCTION_SIZE (q : Z) : Z := Z.land q 7.
Definition VM_EXIT_IO_INSTRUCTION_ACCESS_DIRECTION (q : Z) : Z :=
  Z.land (Z.shiftr q 3) 1.
Definition VM_EXIT_IO_INSTRUCTION_PORT_NUMBER (q : Z) : Z :=
  Z.land (Z.shiftr q 16) 65535.

Definition pio_instr_vmexit_handler (CONFIG_PARTITION_MODE : bool)
    (v : vcpu) (m : vm) (w : world) : Z * vcpu * vm * world :=
  let exit_qual := exit_qualification v in
  let io_req := req v in
  let io_req :=
    {| ior_type := REQ_PORTIO;
       ior_processed := ior_processed io_req;
       ior_direction :=
         if VM_EXIT_IO_INSTRUCTION_ACCESS_DIRECTION exit_qual =? 0
         then REQUEST_WRITE else REQUEST_READ;
       ior_address := VM_EXIT_IO_INSTRUCTION_PORT_NUMBER exit_qual;
       ior_size := VM_EXIT_IO_INSTRUCTION_SIZE exit_qual + 1;
       ior_value := ior_value io_req |} in
  let io_req :=
    match ior_direction io_req with
    | REQUEST_WRITE =>
        set_pio_value io_req (u32 (vcpu_get_gpreg v CPU_REG_RAX))
    | REQUEST_READ => io_req
    end in
  let w := do_log LOG_TRACE "TRACE_VMEXIT_IO_INSTRUCTION"
             [ArgZ (u32 (ior_address io_req));
              ArgZ match ior_direction io_req with
                   | REQUEST_READ => 0 | REQUEST_WRITE => 1 end;
              ArgZ (u32 (ior_size io_req)); ArgZ (u32 (cur_context v))] w in
  let '(status, io_req, m, w) :=
    emulate_io CONFIG_PARTITION_MODE (set_req v io_req) m io_req w in
  let v := set_req v io_req in
  if status =? 0
  then (status, emulate_pio_post v io_req, m, w)
  else if status =? IOREQ_PENDING
  then (0, v, m, w)
  else (status, v, m, w).

(** ** Registration of handlers *)

(** [hdlr] is [None] for a NULL pointer; a node fresh from calloc has a NULL
    [next], so that the head of an empty list becomes the one-node list. *)
Definition register_io_handler (m : vm) (hdlr : option vm_io_handler)
    : outcome vm :=
  match io_handler m, hdlr with
  | _ :: _, None => NullDeref
  | [], None => Done (set_io_handler m [])
  | l, Some h => Done (set_io_handler m (h :: l))
  end.

(** [calloc_ok] tells whether the allocation in the function succeeds. *)
Definition create_io_handler (calloc_ok : bool) (port len : Z)
    (io_read_fn_ptr : dev -> Z -> Z -> Z * dev)
    (io_write_fn_ptr : dev -> Z -> Z -> Z -> dev) (w : world)
    : option vm_io_handler * world :=
  if calloc_ok
  then (Some {| desc_addr := port; desc_len := len;
                desc_io_read := io_read_fn_ptr;
                desc_io_write := io_write_fn_ptr |}, w)
  else (None, do_log LOG_ERR "Error: out of memory" [] w).

(** The two pages are taken as allocated (the ASSERT of the source). *)
Definition setup_io_bitmap (m : vm) : vm :=
  set_iobitmap m
    (if is_vm0 m then iobitmaps_all 0 else iobitmaps_all 4294967295).

(** [struct vm_io_range]. *)
Record vm_io_range := {
  range_base : Z;
  range_len : Z
}.

Definition register_io_emulation_handler (calloc_ok : bool) (m : vm)
    (range : vm_io_range)
    (io_read_fn_ptr : option (dev -> Z -> Z -> Z * dev))
    (io_write_fn_ptr : option (dev -> Z -> Z -> Z -> dev)) (w : world)
    : outcome vm * world :=
  match io_read_fn_ptr, io_write_fn_ptr with
  | Some rd, Some wr =>
      let m :=
        if is_vm0 m
        then set_iobitmap m
               (deny_guest_io_access (iobitmap m) (range_base range)
                  (range_len range))
        else m in
      let '(handler, w) :=
        create_io_handler calloc_ok (range_base range) (range_len range)
          rd wr w in
      (register_io_handler m handler, w)
  | _, _ => (Done m, do_log LOG_ERR "Invalid IO handler." [] w)
  end.

(** [list_add] belongs to the list library, outside the two files: it is a
    parameter. *)
Context (list_add : mem_io_node -> list mem_io_node -> list mem_io_node).

(** A failed ASSERT is recorded and the function goes on to its return, as
    in a build without assertions. [vcpu_array[0]] is read only when
    [created_vcpus > 0]. *)
Definition register_mmio_emulation_handler (calloc_ok : bool) (m : vm)
    (read_write_fn : option (dev -> io_request -> Z -> Z * io_request * dev))
    (start end_ : Z) (private_data : Z) (w : world)
    : outcome (Z * vm * world) :=
  let status := - EINVAL in
  let launched0 :=
    if created_vcpus m >? 0
    then match vcpu_array m !! 0%nat with
         | Some v0 => Done (launched v0)
         | None => NullDeref
         end
    else Done false in
  match launched0 with
  | NullDeref => NullDeref
  | Done true =>
      Done (status, m,
            do_log LOG_ASSERT "register mmio handler after vm launched" [] w)
  | Done false =>
      match read_write_fn with
      | Some rw =>
          if end_ >? start
          then
            if calloc_ok
            then
              let mmio_node :=
                {| read_write := rw; handler_private_data := private_data;
                   range_start := start; range_end := end_ |} in
              let m := set_mmio_list m (list_add mmio_node (mmio_list m)) in
              let w :=
                if is_vm0 m
                then do_call (CallEptMrDel start (u64 (end_ - start))) w
                else w in
              Done (0, m, w)
            else Done (status, m, w)
          else Done (status, m, w)
      | None => Done (status, m, w)
      end
  end.

End Machine.

Arguments vm_io_handler : clear implicits.
Arguments mem_io_node : clear implicits.
Arguments call : clear implicits.
Arguments world : clear implicits.
Arguments vm : clear implicits.

(** Modelled from the spec: list_add of the list library, as the
    specification describes registration: the node is appended to the
    machine's range list. *)
Definition list_add_spec {dev} (node : mem_io_node dev)
    (l : list (mem_io_node dev)) : list (mem_io_node dev) :=
  l ++ [node].

(** ** Cross-core notification: claiming the remote call *)

Module Notify.

(** [atomic_cmpxchg64(ptr, old, new)] on the content [cell] of [*ptr]: the
    value found, and the content left behind. *)
Definition atomic_cmpxchg64 (cell old new : Z) : Z * Z :=
  (cell, if cell =? old then new else cell).

Section Claim.

(** [INVALID_BIT_INDEX] comes from the bit-operation header, outside the two
    files: it is a parameter. It is also what [ffs64] returns for an empty
    mask, compared against a [uint16_t] in the same function. *)
Context (INVALID_BIT_INDEX : Z).

(** One evaluation of the condition of the first [while] of
    [smp_call_function], with [smp_call_mask] holding [cell]: whether the
    loop goes round again, and the new content of [smp_call_mask]. *)
Definition claim_attempt (cell mask : Z) : bool * Z :=
  let '(found, cell') :=
    atomic_cmpxchg64 cell 0 (Z.land mask INVALID_BIT_INDEX) in
  (negb (found =? 0), cell').

(** The first [while] loop. The other cores change [smp_call_mask] between
    two attempts: [seen] lists what each attempt finds there. The result is
    the content of [smp_call_mask] when the loop is left, [None] while it is
    still spinning at the end of [seen]. *)
Fixpoint claim_loop (seen : list Z) (mask : Z) : option Z :=
  match seen with
  | [] => None
  | cell :: later =>
      let '(again, cell') := claim_attempt cell mask in
      if again then claim_loop later mask else Some cell'
  end.

End Claim.

End Notify.

(** ** The three cases of dispatch, in the words of the specification *)

(** A request range [a, b) against a registered range [lo, hi), both
    half-open, over unbounded integers. *)
Definition ranges_disjoint (lo hi a b : Z) : bool :=
  (b <=? lo) || (hi <=? a).
Definition range_contains (lo hi a b : Z) : bool :=
  (lo <=? a) && (b <=? hi).
Definition range_partial (lo hi a b : Z) : bool :=
  negb (ranges_disjoint lo hi a b) && negb (range_contains lo hi a b).

(** A port handler whose range [desc_addr, desc_addr + desc_len) has both
    bounds representable in 16 bits. *)
Definition handler_nowrap {dev} (h : vm_io_handler dev) : Prop :=
  0 <= desc_addr h /\ 0 <= desc_len h /\ desc_addr h + desc_len h <= 65535.

(** The test at the head of register_mmio_emulation_handler, and its
    negation on a machine whose [vcpu_array[0]] is there when read. *)
Definition first_vcpu_launched {dev} (m : vm dev) : Prop :=
  created_vcpus m > 0 /\
  exists v0, vcpu_array m !! 0%nat = Some v0 /\ launched v0 = true.

Definition first_vcpu_not_launched {dev} (m : vm dev) : Prop :=
  created_vcpus m <= 0 \/
  exists v0, vcpu_array m !! 0%nat = Some v0 /\ launched v0 = false.

(** ** Sample machines *)

(** A device that answers every read with 0xAB and remembers the values
    written to it. *)
Definition sample_io_read (d : list Z) (port size : Z) : Z * list Z :=
  (171, d).
Definition sample_io_write (d : list Z) (port size val : Z) : list Z :=
  d ++ [val].
Definition sample_handler (base len : Z) : vm_io_handler (list Z) :=
  {| desc_addr := base; desc_len := len;
     desc_io_read := sample_io_read; desc_io_write := sample_io_write |}.

Definition sample_read_write (d : list Z) (io_req : io_request) (priv : Z)
    : Z * io_request * list Z :=
  (0, io_req, d ++ [priv]).
Definition sample_node (start end_ : Z) : mem_io_node (list Z) :=
  {| read_write := sample_read_write; handler_private_data := 7;
     range_start := start; range_end := end_ |}.

Definition sample_regs (r : cpu_reg) : Z :=
  match r with
  | CPU_REG_RAX => 1234605616436508552   (* 0x1122334455667788 *)
  | _ => 0
  end.

Definition sample_request (t : req_type) (d : req_direction)
    (address size value : Z) : io_request :=
  {| ior_type := t; ior_processed := REQ_STATE_PENDING; ior_direction := d;
     ior_address := address; ior_size := size; ior_value := value |}.

Definition sample_vcpu (id : Z) (s : vcpu_state_t) (io_req : io_request)
    : vcpu :=
  {| vcpu_id := id; vcpu_state := s; launched := false;
     exit_qualification := 0; cur_context := 0;
     req := io_req; gpregs := sample_regs |}.

Definition sample_vm (id : Z) (handlers : list (vm_io_handler (list Z)))
    (nodes : list (mem_io_node (list Z))) (vcpus : list vcpu)
    (page : list vhm_request) : vm (list Z) :=
  {| vm_id := id; io_handler := handlers;
     iobitmap := iobitmaps_all (if id =? 0 then 0 else 4294967295);
     mmio_list := nodes; created_vcpus := Z.of_nat (length vcpus);
     vcpu_array := vcpus; io_shared_page := page |}.

Definition sample_world : world (list Z) :=
  {| devs := []; calls := []; logs := [] |}.

(** A hand-off that always succeeds and leaves everything as it is. *)
Definition sample_insert (v : vcpu) (io_req : io_request)
    (m : vm (list Z)) (d : list Z) : Z * vm (list Z) * list Z :=
  (0, m, d).

Definition sample_slot (value valid : Z) (s : req_state) : vhm_request :=
  {| vhm_value := value; vhm_valid := valid; vhm_processed := s |}.

(** ** More of io.c: MMIO completion and unregistration *)

Section MachineMore.

Context {dev : Type}.

(** Writing [reqs.mmio.value], all 8 bytes. *)
Definition set_mmio_value (r : io_request) (v : Z) : io_request :=
  {| ior_type := ior_type r; ior_processed := ior_processed r;
     ior_direction := ior_direction r; ior_address := ior_address r;
     ior_size := ior_size r; ior_value := v |}.

(** [emulate_instruction] belongs to the instruction emulator, outside the
    two files: it is a parameter, acting on the virtual core and on the
    outside state; its return value is not used by [emulate_mmio_post]. *)
Context (emulate_instruction : vcpu -> dev -> vcpu * dev).

Definition emulate_mmio_post (v : vcpu) (io_req : io_request)
    (w : world dev) : vcpu * world dev :=
  match ior_direction io_req with
  | REQUEST_READ =>
      let '(v, d) := emulate_instruction v (devs w) in
      (v, set_devs d w)
  | REQUEST_WRITE => (v, w)
  end.

(** As in [dm_emulate_pio_post], [None] stands for a [vcpu_id] outside the
    shared page. *)
Definition dm_emulate_mmio_post (v : vcpu) (m : vm dev) (w : world dev)
    : option (vcpu * vm dev * world dev) :=
  vhm_req ← io_shared_page m !! Z.to_nat (vcpu_id v);
  let io_req := set_mmio_value (req v) (vhm_value vhm_req) in
  let m := set_slot m (vcpu_id v) (complete_ioreq vhm_req) in
  let v := set_req v io_req in
  let '(v, w) := emulate_mmio_post v (req v) w in
  Some (v, m, w).

(** The [list_for_each_safe] loop of [unregister_mmio_emulation_handler]:
    the first node with exactly this range is unlinked and freed, and the
    loop is left. *)
Fixpoint unregister_mmio_loop (nodes : list (mem_io_node dev))
    (start end_ : Z) : list (mem_io_node dev) :=
  match nodes with
  | [] => []
  | mmio_node :: next =>
      if (range_start mmio_node =? start) && (range_end mmio_node =? end_)
      then next
      else mmio_node :: unregister_mmio_loop next start end_
  end.

Definition unregister_mmio_emulation_handler (m : vm dev) (start end_ : Z)
    : vm dev :=
  set_mmio_list m (unregister_mmio_loop (mmio_list m) start end_).

End MachineMore.

(** A list_add that puts the new node somewhere into the list and keeps the
    nodes that were there, in their order. *)
Definition list_add_inserts {dev}
    (list_add : mem_io_node dev -> list (mem_io_node dev)
                -> list (mem_io_node dev)) : Prop :=
  forall node l, exists before after,
    l = before ++ after /\ list_add node l = before ++ node :: after.

(** The range of a node is exactly [start, end_). *)
Definition same_range {dev} (start end_ : Z) (n : mem_io_node dev) : bool :=
  (range_start n =? start) && (range_end n =? end_).

(** What an I/O exit leaves of the exit qualification in the request. *)
Definition exit_port (v : vcpu) : Z :=
  VM_EXIT_IO_INSTRUCTION_PORT_NUMBER (exit_qualification v).
Definition exit_size (v : vcpu) : Z :=
  VM_EXIT_IO_INSTRUCTION_SIZE (exit_qualification v) + 1.
Definition exit_is_in (v : vcpu) : bool :=
  negb (VM_EXIT_IO_INSTRUCTION_ACCESS_DIRECTION (exit_qualification v) =? 0).

(** The request that [pio_instr_vmexit_handler] builds in [vcpu->req] from
    the exit qualification before it calls [emulate_io]: for OUT the value
    is the low 32 bits of RAX, for IN it is what the field held before. *)
Definition exit_request (v : vcpu) : io_request :=
  let io_req :=
    {| ior_type := REQ_PORTIO;
       ior_processed := ior_processed (req v);
       ior_direction := if exit_is_in v then REQUEST_READ else REQUEST_WRITE;
       ior_address := exit_port v;
       ior_size := exit_size v;
       ior_value := ior_value (req v) |} in
  if exit_is_in v then io_req
  else set_pio_value io_req (u32 (vcpu_get_gpreg v CPU_REG_RAX)).

(** A port handler whose base is a 16-bit port number and whose length is
    not negative; its range [desc_addr, desc_addr + desc_len) may reach
    beyond 0xFFFF. *)
Definition handler_in_port_space {dev} (h : vm_io_handler dev) : Prop :=
  0 <= desc_addr h < 65536 /\ 0 <= desc_len h.

(** Two requests describe the same access: kind, direction, address and
    size agree. *)
Definition same_access (r r' : io_request) : Prop :=
  ior_type r' = ior_type r /\ ior_direction r' = ior_direction r /\
  ior_address r' = ior_address r /\ ior_size r' = ior_size r.

(** ** More of notify.c: the remote call and the notification interrupt *)

Module SmpCall.

(** Modelled from the spec: bitmap_test and bitmap_clear_nolock of the
    bit-operation header, outside the two files: the test and the clearing
    of the bit of one core in a 64-bit mask. *)
Definition bitmap_test (nr mask : Z) : bool := Z.testbit mask nr.
Definition bitmap_clear_nolock (nr mask : Z) : Z := Z.clearbit mask nr.

(** [struct smp_call_info_data]; a function pointer is its address, 0 for
    NULL. *)
Record smp_call_info_data := {
  func : Z;
  data : Z
}.

(** The globals of notify.c and of the per-core data that it uses, and
    what leaves the file: the functions called on a core (core, function,
    argument), the cores reported as not active, and the destination masks
    of the interrupts sent. The body of a called function is outside the
    model. *)
Record state := {
  smp_call_mask : Z;
  smp_call_info : Z -> smp_call_info_data;
  pcpu_active_bitmap : Z;
  invoked : list (Z * Z * Z);
  not_active : list Z;
  ipis : list Z
}.

Definition set_smp_call_mask (st : state) (mask : Z) : state :=
  {| smp_call_mask := mask; smp_call_info := smp_call_info st;
     pcpu_active_bitmap := pcpu_active_bitmap st; invoked := invoked st;
     not_active := not_active st; ipis := ipis st |}.

Definition set_smp_call_info (st : state) (pcpu_id : Z)
    (i : smp_call_info_data) : state :=
  {| smp_call_mask := smp_call_mask st;
     smp_call_info := fun c => if c =? pcpu_id then i else smp_call_info st c;
     pcpu_active_bitmap := pcpu_active_bitmap st; invoked := invoked st;
     not_active := not_active st; ipis := ipis st |}.

Definition do_invoke (st : state) (pcpu_id f d : Z) : state :=
  {| smp_call_mask := smp_call_mask st; smp_call_info := smp_call_info st;
     pcpu_active_bitmap := pcpu_active_bitmap st;
     invoked := invoked st ++ [(pcpu_id, f, d)];
     not_active := not_active st; ipis := ipis st |}.

Definition do_pr_err (st : state) (pcpu_id : Z) : state :=
  {| smp_call_mask := smp_call_mask st; smp_call_info := smp_call_info st;
     pcpu_active_bitmap := pcpu_active_bitmap st; invoked := invoked st;
     not_active := not_active st ++ [pcpu_id]; ipis := ipis st |}.

Definition do_send_ipi (st : state) (dest : Z) : state :=
  {| smp_call_mask := smp_call_mask st; smp_call_info := smp_call_info st;
     pcpu_active_bitmap := pcpu_active_bitmap st; invoked := invoked st;
     not_active := not_active st; ipis := ipis st ++ [dest] |}.

(** [kick_notification] on the core [pcpu_id] (what get_cpu_id returns
    there), run from start to end with no other core writing
    [smp_call_mask] meanwhile. *)
Definition kick_notification (pcpu_id : Z) (st : state) : Z * state :=
  if bitmap_test pcpu_id (smp_call_mask st)
  then
    let smp_call := smp_call_info st pcpu_id in
    let st :=
      if negb (func smp_call =? 0)
      then do_invoke st pcpu_id (func smp_call) (data smp_call)
      else st in
    (0, set_smp_call_mask st (bitmap_clear_nolock pcpu_id (smp_call_mask st)))
  else (0, st).

Section Call.

(** [INVALID_BIT_INDEX] and [ffs64] come from the bit-operation header:
    they are parameters. *)
Context (INVALID_BIT_INDEX : Z) (ffs64 : Z -> Z).

(** The second [while] loop of [smp_call_function], which goes through the
    bits of the local [mask]. [fuel] bounds the number of iterations; the
    result is [None] if the loop has not ended by then. *)
Fixpoint target_loop (fuel : nat) (mask f d : Z) (st : state)
    : option state :=
  let pcpu_id := u16 (ffs64 mask) in
  if pcpu_id =? INVALID_BIT_INDEX then Some st
  else
    match fuel with
    | O => None
    | S fuel' =>
        let mask := bitmap_clear_nolock pcpu_id mask in
        let st :=
          if bitmap_test pcpu_id (pcpu_active_bitmap st)
          then set_smp_call_info st pcpu_id {| func := f; data := d |}
          else
            set_smp_call_mask (do_pr_err st pcpu_id)
              (bitmap_clear_nolock pcpu_id (smp_call_mask st)) in
        target_loop fuel' mask f d st
    end.

(** [smp_call_function]. [seen] is what the attempts of the first loop find
    in [smp_call_mask]; [kicks] lists the cores that take the notification
    interrupt, one after the other, while the caller waits in
    wait_sync_change. The result is [None] while the caller is still in one
    of its loops at the end of [seen], of [fuel] or of [kicks]. *)
Definition smp_call_function_within (fuel : nat) (seen kicks : list Z)
    (mask f d : Z) (st : state) : option state :=
  cell ← Notify.claim_loop INVALID_BIT_INDEX seen mask;
  st ← target_loop fuel mask f d (set_smp_call_mask st cell);
  let st := do_send_ipi st (smp_call_mask st) in
  let st := fold_left (fun st c => (kick_notification c st).2) kicks st in
  if smp_call_mask st =? 0 then Some st else None.

(** A 64-bit mask has at most 64 bits to go through. *)
Definition smp_call_function (seen kicks : list Z) (mask f d : Z)
    (st : state) : option state :=
  smp_call_function_within 64 seen kicks mask f d st.

(** What the loop needs of [ffs64] and of the constant: on an empty mask
    the constant is returned, which is no bit index of a 64-bit mask and
    fits the 16-bit [pcpu_id]; on any other mask the index of a set bit. *)
Definition ffs64_contract : Prop :=
  ffs64 0 = INVALID_BIT_INDEX /\
  64 <= INVALID_BIT_INDEX < 65536 /\
  forall mask, 0 < mask < 18446744073709551616 ->
    0 <= ffs64 mask < 64 /\ Z.testbit mask (ffs64 mask) = true.

End Call.

(** The index of the lowest set bit, 0xFFFF for an empty mask: one function
    that keeps [ffs64_contract]. *)
Fixpoint lowest_bit (p : positive) : Z :=
  match p with
  | xO p' => 1 + lowest_bit p'
  | _ => 0
  end.

Definition ffs64_lowest (mask : Z) : Z :=
  match mask with
  | Zpos p => lowest_bit p
  | _ => 65535
  end.

(** The number of cores, of the 64 a mask can name, whose bit is set. *)
Definition pending_count (mask : Z) : nat :=
  length (List.filter (fun i => Z.testbit mask (Z.of_nat i)) (seq 0 64)).

(** *** The notification interrupt *)

Definition EBUSY : Z := 16.

Section Irq.

(** [IRQ_INVALID] and [NOTIFY_IRQ] come from the interrupt headers: they are
    parameters. [request_irq_retval] is what request_irq returns when it is
    called. *)
Context (IRQ_INVALID NOTIFY_IRQ : Z).

(** [notification_irq], with the calls of request_irq and free_irq made so
    far (the interrupt number asked for or freed) and the messages
    logged. *)
Record irq_state := {
  notification_irq : Z;
  irq_requests : list Z;
  irq_frees : list Z;
  irq_logs : list string
}.

Definition irq_log (msg : string) (s : irq_state) : irq_state :=
  {| notification_irq := notification_irq s;
     irq_requests := irq_requests s; irq_frees := irq_frees s;
     irq_logs := irq_logs s ++ [msg] |}.

Definition set_notification_irq (irq : Z) (s : irq_state) : irq_state :=
  {| notification_irq := irq;
     irq_requests := irq_requests s; irq_frees := irq_frees s;
     irq_logs := irq_logs s |}.

Definition request_notification_irq (request_irq_retval : Z)
    (s : irq_state) : Z * irq_state :=
  if negb (notification_irq s =? IRQ_INVALID)
  then (- EBUSY,
        irq_log "%s, Notification vector already allocated on this CPU" s)
  else
    let s := {| notification_irq := notification_irq s;
                irq_requests := irq_requests s ++ [NOTIFY_IRQ];
                irq_frees := irq_frees s; irq_logs := irq_logs s |} in
    if request_irq_retval <? 0
    then (- ENODEV, irq_log "Failed to add notify isr" s)
    else (0, set_notification_irq (u32 request_irq_retval) s).

(** [cpu] is what get_cpu_id returns. *)
Definition setup_notification (cpu : Z) (request_irq_retval : Z)
    (s : irq_state) : irq_state :=
  if u16 cpu >? 0 then s
  else
    let '(retval, s) := request_notification_irq request_irq_retval s in
    if retval <? 0
    then irq_log "Failed to setup notification" s
    else irq_log "NOTIFY: irq[%d] setup vector %x" s.

Definition cleanup_notification (s : irq_state) : irq_state :=
  let s :=
    if negb (notification_irq s =? IRQ_INVALID)
    then {| notification_irq := notification_irq s;
            irq_requests := irq_requests s;
            irq_frees := irq_frees s ++ [notification_irq s];
            irq_logs := irq_logs s |}
    else s in
  set_notification_irq IRQ_INVALID s.

End Irq.

End SmpCall.

(** What the loop over the targets leaves, for the caller's [mask] and the
    state [st] it starts from. *)
Definition targets_done (mask f d : Z) (st st' : SmpCall.state) : Prop :=
  (forall i, Z.testbit (SmpCall.smp_call_mask st') i
             = Z.testbit (SmpCall.smp_call_mask st) i
               && (negb (Z.testbit mask i)
                   || Z.testbit (SmpCall.pcpu_active_bitmap st) i)) /\
  (forall c, SmpCall.smp_call_info st' c
             = if Z.testbit mask c
                  && Z.testbit (SmpCall.pcpu_active_bitmap st) c
               then {| SmpCall.func := f; SmpCall.data := d |}
               else SmpCall.smp_call_info st c) /\
  (forall c, In c (SmpCall.not_active st') <->
             In c (SmpCall.not_active st) \/
             (Z.testbit mask c = true /\
              Z.testbit (SmpCall.pcpu_active_bitmap st) c = false)) /\
  SmpCall.pcpu_active_bitmap st' = SmpCall.pcpu_active_bitmap st /\
  SmpCall.invoked st' = SmpCall.invoked st /\
  SmpCall.ipis st' = SmpCall.ipis st.

(** ** More sample data *)

(** A virtual core that has just left the guest on an I/O instruction with
    the exit qualification [q]. *)
Definition sample_exit_vcpu (q : Z) : vcpu :=
  {| vcpu_id := 0; vcpu_state := VCPU_RUNNING; launched := true;
     exit_qualification := q; cur_context := 0;
     req := sample_request REQ_MMIO REQUEST_READ 0 0 0;
     gpregs := sample_regs |}.

(** An instruction emulator that loads RCX with the value of the request. *)
Definition sample_emulate_instruction (v : vcpu) (d : list Z)
    : vcpu * list Z :=
  (vcpu_set_gpreg v CPU_REG_RCX (ior_value (req v)), d).

(** No call pending, no slot loaded, the cores of [active] running. *)
Definition sample_smp_state (active : Z) : SmpCall.state :=
  {| SmpCall.smp_call_mask := 0;
     SmpCall.smp_call_info :=
       fun _ => {| SmpCall.func := 0; SmpCall.data := 0 |};
     SmpCall.pcpu_active_bitmap := active;
     SmpCall.invoked := []; SmpCall.not_active := []; SmpCall.ipis := [] |}.

Definition sample_irq_state (irq : Z) : SmpCall.irq_state :=
  {| SmpCall.notification_irq := irq; SmpCall.irq_requests := [];
     SmpCall.irq_frees := []; SmpCall.irq_logs := [] |}.

(** *** Proofs about the bitmaps *)

Lemma land_32767 p : 0 <= p -> Z.land p 32767 = p mod 32768.
Proof. intros _. change 32767 with (Z.ones 15). apply Z.land_ones. lia. Qed.

Lemma land_31 p : Z.land p 31 = p mod 32.
Proof. change 31 with (Z.ones 5). apply Z.land_ones. lia. Qed.

Lemma land_32768_zero p :
  0 <= p < 65536 -> (Z.land p 32768 =? 0) = (p <? 32768).
Proof.
  intros Hp.
  assert (Hbit : Z.land p 32768 = if Z.testbit p 15 then 32768 else 0).
  { apply Z.bits_inj'. intros i Hi. rewrite Z.land_spec.
    change 32768 with (2 ^ 15). rewrite Z.pow2_bits_eqb by lia.
    destruct (Z.eqb_spec 15 i) as [<-|Hne].
    - destruct (Z.testbit p 15); rewrite ?andb_true_r.
      + symmetry. rewrite Z.pow2_bits_eqb by lia. reflexivity.
      + reflexivity.
    - rewrite andb_false_r. destruct (Z.testbit p 15).
      + rewrite Z.pow2_bits_eqb by lia. symmetry. apply Z.eqb_neq. exact Hne.
      + symmetry. apply Z.bits_0. }
  rewrite Hbit, Z.testbit_eqb by lia.
  change (2 ^ 15) with 32768.
  destruct (Z.ltb_spec p 32768) as [Hlt|Hge].
  - rewrite Z.div_small by lia. reflexivity.
  - replace (p / 32768) with 1 by (Z.div_mod_to_equations; lia). reflexivity.
Qed.

Lemma land_31_range a : 0 <= Z.land a 31 < 32.
Proof. rewrite land_31. apply Z.mod_pos_bound. lia. Qed.

Lemma set_bit32_frame : bit_frame set_bit32.
Proof.
  intros a w i Hi Hne. unfold set_bit32.
  pose proof (land_31_range a) as Hk.
  rewrite Z.lor_spec, Z.shiftl_1_l, Z.pow2_bits_eqb by lia.
  replace (Z.land a 31 =? i) with false by (symmetry; apply Z.eqb_neq; lia).
  apply orb_false_r.
Qed.

Lemma set_bit32_forced : bit_forced set_bit32 true.
Proof.
  intros a w. unfold set_bit32.
  pose proof (land_31_range a) as Hk.
  rewrite Z.lor_spec, Z.shiftl_1_l, Z.pow2_bits_eqb, Z.eqb_refl by lia.
  apply orb_true_r.
Qed.

Lemma testbit_ones32 i : 0 <= i < 32 -> Z.testbit 4294967295 i = true.
Proof.
  intros Hi. change 4294967295 with (Z.ones 32).
  apply Z.ones_spec_low. lia.
Qed.

Lemma clear_bit32_frame : bit_frame clear_bit32.
Proof.
  intros a w i Hi Hne. unfold clear_bit32, not32.
  pose proof (land_31_range a) as Hk.
  rewrite Z.land_spec, Z.lxor_spec, Z.shiftl_1_l, Z.pow2_bits_eqb by lia.
  rewrite testbit_ones32 by lia.
  replace (Z.land a 31 =? i) with false by (symmetry; apply Z.eqb_neq; lia).
  apply andb_true_r.
Qed.

Lemma clear_bit32_forced : bit_forced clear_bit32 false.
Proof.
  intros a w. unfold clear_bit32, not32.
  pose proof (land_31_range a) as Hk.
  rewrite Z.land_spec, Z.lxor_spec, Z.shiftl_1_l, Z.pow2_bits_eqb by lia.
  rewrite testbit_ones32, Z.eqb_refl by lia.
  apply andb_false_r.
Qed.

Lemma bitmap_update_wf sel idx f bm :
  wf_iobitmaps bm -> wf_iobitmaps (bitmap_update sel idx f bm).
Proof.
  intros [H0 H1]. unfold bitmap_update, wf_iobitmaps.
  destruct sel; simpl; rewrite length_alter; auto.
Qed.

(** Page, word and bit of a port, in arithmetic form. *)
Lemma port_word_index p :
  0 <= p < 65536 ->
  Z.shiftr (Z.land p 32767) 5 = (p mod 32768) / 32 /\
  0 <= (p mod 32768) / 32 < 1024.
Proof.
  intros Hp. rewrite land_32767 by lia.
  rewrite Z.shiftr_div_pow2 by lia. change (2 ^ 5) with 32.
  split; [reflexivity|]. Z.div_mod_to_equations. lia.
Qed.

Lemma port_bit_index q : 0 <= q -> Z.land (Z.land q 32767) 31 = q mod 32.
Proof.
  intros Hq. rewrite land_31, land_32767 by lia.
  Z.div_mod_to_equations. lia.
Qed.

Lemma trap_bit_port_update_same op v q bm :
  bit_forced op v -> wf_iobitmaps bm -> 0 <= q < 65536 ->
  trap_bit (port_update op q bm) q = v.
Proof.
  intros Hv [H0 H1] Hq. unfold trap_bit, port_update, bitmap_update, bitmap_page.
  destruct (port_word_index q Hq) as [Hidx Hrange].
  assert (Hlt : (Z.to_nat (Z.shiftr (Z.land q 32767) 5) < 1024)%nat)
    by (rewrite Hidx; lia).
  replace (Z.land q 31) with (Z.land (Z.land q 32767) 31)
    by (rewrite port_bit_index, land_31 by lia; reflexivity).
  destruct (Z.land q 32768 =? 0); simpl;
    rewrite list_lookup_alter_eq.
  - destruct (lookup_lt_is_Some_2 (iobitmap0 bm)
                (Z.to_nat (Z.shiftr (Z.land q 32767) 5))) as [w Hw];
      [unfold IOBITMAP_WORDS in H0; lia|].
    rewrite Hw. simpl. apply Hv.
  - destruct (lookup_lt_is_Some_2 (iobitmap1 bm)
                (Z.to_nat (Z.shiftr (Z.land q 32767) 5))) as [w Hw];
      [unfold IOBITMAP_WORDS in H1; lia|].
    rewrite Hw. simpl. apply Hv.
Qed.

(** Decides goals made of comparisons under [if], by cases. *)
Ltac solve_range :=
  repeat match goal with
  | |- context [Z.leb ?a ?b] => destruct (Z.leb_spec a b)
  | |- context [Z.ltb ?a ?b] => destruct (Z.ltb_spec a b)
  end; simpl; try reflexivity; try lia.

Lemma trap_bit_port_update_other op q p bm :
  bit_frame op -> 0 <= q < 65536 -> 0 <= p < 65536 -> p <> q ->
  trap_bit (port_update op q bm) p = trap_bit bm p.
Proof.
  intros Hfr Hq Hp Hne. unfold trap_bit, port_update, bitmap_update, bitmap_page.
  destruct (port_word_index q Hq) as [Hiq Hrq].
  destruct (port_word_index p Hp) as [Hip Hrp].
  rewrite !land_32768_zero by lia.
  destruct (Z.ltb_spec q 32768) as [Hql|Hqh];
    destruct (Z.ltb_spec p 32768) as [Hpl|Hph]; simpl; try reflexivity.
  all: destruct (decide (Z.to_nat (Z.shiftr (Z.land q 32767) 5)
                         = Z.to_nat (Z.shiftr (Z.land p 32767) 5))) as [He|Hd];
    [ rewrite He, list_lookup_alter_eq;
      match goal with |- context [?l !! ?i] => destruct (l !! i) as [w|] end;
      simpl; [|reflexivity];
      apply Hfr; [apply land_31_range|];
      rewrite port_bit_index, land_31 by lia;
      rewrite Hiq, Hip in He; apply Z2Nat.inj in He; try lia;
      Z.div_mod_to_equations; lia
    | rewrite list_lookup_alter_ne by exact Hd; reflexivity ].
Qed.

(** The effect of either loop on the trap bit of any port, for a range that
    stays inside the 16-bit port space: ports of the range get the forced
    value, all others keep theirs. *)
Lemma io_access_loop_trap_bit op v :
  bit_frame op -> bit_forced op v ->
  forall n sel address bm,
    wf_iobitmaps bm ->
    0 <= address -> address + Z.of_nat n <= 65536 ->
    (sel = true -> 32768 <= address) ->
    wf_iobitmaps (io_access_loop op n sel address bm) /\
    forall p, 0 <= p < 65536 ->
      trap_bit (io_access_loop op n sel address bm) p =
      if (address <=? p) && (p <? address + Z.of_nat n)
      then v else trap_bit bm p.
Proof.
  intros Hfr Hv. induction n as [|n IH]; intros sel address bm Hwf Ha Hn Hsel.
  - split; [exact Hwf|]. intros p Hp. simpl. solve_range.
  - cbn [io_access_loop].
    assert (Hsel' : (if Z.land address 32768 =? 0 then sel else true)
                    = negb (Z.land address 32768 =? 0)).
    { rewrite land_32768_zero by lia.
      destruct (Z.ltb_spec address 32768) as [Hl|Hh]; simpl; [|reflexivity].
      destruct sel; [specialize (Hsel eq_refl); lia|reflexivity]. }
    rewrite Hsel'. fold (port_update op address bm).
    assert (Hu : u32 (address + 1) = address + 1)
      by (unfold u32; apply Z.mod_small; lia).
    rewrite Hu.
    destruct (IH (negb (Z.land address 32768 =? 0)) (address + 1)
                (port_update op address bm)) as [Hwf' Hbits].
    + apply bitmap_update_wf, Hwf.
    + lia.
    + lia.
    + rewrite land_32768_zero by lia.
      destruct (Z.ltb_spec address 32768); simpl; [discriminate|lia].
    + split; [exact Hwf'|]. intros p Hp. rewrite Hbits by exact Hp.
      destruct (Z.eq_dec p address) as [->|Hne].
      * rewrite (trap_bit_port_update_same op v) by (auto; lia). solve_range.
      * rewrite trap_bit_port_update_other by (auto; lia). solve_range.
Qed.

Lemma deny_guest_io_access_trap_bit bm base len :
  wf_iobitmaps bm -> 0 <= base -> 0 <= len -> base + len <= 65536 ->
  wf_iobitmaps (deny_guest_io_access bm base len) /\
  forall p, 0 <= p < 65536 ->
    trap_bit (deny_guest_io_access bm base len) p =
    if (base <=? p) && (p <? base + len) then true else trap_bit bm p.
Proof.
  intros Hwf Hb Hl Hin. unfold deny_guest_io_access.
  destruct (io_access_loop_trap_bit set_bit32 true set_bit32_frame
              set_bit32_forced (Z.to_nat len) false base bm) as [Hwf' Hbits];
    try (exact Hwf || lia || discriminate).
  rewrite Z2Nat.id in Hbits by lia. auto.
Qed.

Lemma allow_guest_io_access_trap_bit bm base len :
  wf_iobitmaps bm -> 0 <= base -> 0 <= len -> base + len <= 65536 ->
  wf_iobitmaps (allow_guest_io_access bm base len) /\
  forall p, 0 <= p < 65536 ->
    trap_bit (allow_guest_io_access bm base len) p =
    if (base <=? p) && (p <? base + len) then false else trap_bit bm p.
Proof.
  intros Hwf Hb Hl Hin. unfold allow_guest_io_access.
  destruct (io_access_loop_trap_bit clear_bit32 false clear_bit32_frame
              clear_bit32_forced (Z.to_nat len) false base bm) as [Hwf' Hbits];
    try (exact Hwf || lia || discriminate).
  rewrite Z2Nat.id in Hbits by lia. auto.
Qed.

(** C5, amended. Allow followed by deny on one range inside the 16-bit port
    space leaves the trap bit of every port of the range set, and deny
    followed by allow leaves it clear, whatever the bit was before: the
    second operation wins. The trap bits of the ports outside the range are
    the original ones in both cases. *)
Theorem allow_deny_second_wins bm base len p :
  wf_iobitmaps bm -> 0 <= base -> 0 <= len -> base + len <= 65536 ->
  0 <= p < 65536 ->
  trap_bit (deny_guest_io_access (allow_guest_io_access bm base len) base len) p
    = (if (base <=? p) && (p <? base + len) then true else trap_bit bm p) /\
  trap_bit (allow_guest_io_access (deny_guest_io_access bm base len) base len) p
    = (if (base <=? p) && (p <? base + len) then false else trap_bit bm p).
Proof.
  intros Hwf Hb Hl Hin Hp.
  destruct (allow_guest_io_access_trap_bit bm base len) as [Hwa Ha]; auto.
  destruct (deny_guest_io_access_trap_bit bm base len) as [Hwd Hd]; auto.
  destruct (deny_guest_io_access_trap_bit
              (allow_guest_io_access bm base len) base len) as [_ Hda]; auto.
  destruct (allow_guest_io_access_trap_bit
              (deny_guest_io_access bm base len) base len) as [_ Had]; auto.
  rewrite Hda, Had, Ha, Hd by exact Hp.
  split; destruct ((base <=? p) && (p <? base + len)); reflexivity.
Qed.

Lemma allow_deny_second_wins_witness :
  trap_bit (deny_guest_io_access
              (allow_guest_io_access (iobitmaps_all 0) 96 4) 96 4) 97 = true /\
  trap_bit (allow_guest_io_access
              (deny_guest_io_access (iobitmaps_all 0) 96 4) 96 4) 97 = false.
Proof.
  apply (allow_deny_second_wins (iobitmaps_all 0) 96 4 97).
  - split; reflexivity.
  - lia.
  - lia.
  - lia.
  - lia.
Defined.

(** C5 as stated fails: on bitmaps that trap nothing, allow then deny of
    ports 0x60 to 0x63 leaves port 0x60 trapped; on bitmaps that trap
    everything, deny then allow leaves it untrapped. *)
Lemma allow_deny_no_round_trip :
  trap_bit (iobitmaps_all 0) 96 = false /\
  trap_bit (deny_guest_io_access
              (allow_guest_io_access (iobitmaps_all 0) 96 4) 96 4) 96 = true /\
  trap_bit (iobitmaps_all 4294967295) 96 = true /\
  trap_bit (allow_guest_io_access
              (deny_guest_io_access (iobitmaps_all 4294967295) 96 4) 96 4) 96
    = false.
Proof. repeat split; vm_compute; reflexivity. Qed.

(** *** The post step of a port access *)

Lemma pio_post_mask_ones size :
  1 <= size <= 4 -> pio_post_mask size = Z.ones (8 * size).
Proof.
  intros H.
  assert (Hs : size = 1 \/ size = 2 \/ size = 3 \/ size = 4) by lia.
  destruct Hs as [-> | [-> | [-> | ->]]]; reflexivity.
Qed.

Lemma pio_mask_ones size :
  1 <= size <= 4 -> pio_mask size = Z.ones (8 * size).
Proof.
  intros H.
  assert (Hs : size = 1 \/ size = 2 \/ size = 3 \/ size = 4) by lia.
  destruct Hs as [-> | [-> | [-> | ->]]]; reflexivity.
Qed.

Lemma testbit_u64_high x i :
  0 <= x < 18446744073709551616 -> 64 <= i -> Z.testbit x i = false.
Proof.
  intros Hx Hi. rewrite <- (Z.mod_small x (2 ^ 64)) by exact Hx.
  apply Z.mod_pow2_bits_high. lia.
Qed.

(** Bit by bit, [(rax & ~mask) | (value & mask)] for the mask of the low
    [n] bits, [n <= 64]. *)
Lemma merge_low_bits rax value n i :
  0 <= rax < 18446744073709551616 -> 0 <= n <= 64 -> 0 <= i ->
  Z.testbit (Z.lor (Z.land rax (not64 (Z.ones n))) (Z.land value (Z.ones n))) i
  = if i <? n then Z.testbit value i else Z.testbit rax i.
Proof.
  intros Hrax Hn Hi. unfold not64.
  change 18446744073709551615 with (Z.ones 64).
  rewrite Z.lor_spec, !Z.land_spec, Z.lxor_spec.
  rewrite !Z.testbit_ones_nonneg by lia.
  destruct (Z.ltb_spec i n) as [Hlt|Hge].
  - replace (i <? 64) with true by (symmetry; apply Z.ltb_lt; lia).
    simpl. rewrite andb_false_r, andb_true_r. reflexivity.
  - rewrite andb_false_r, orb_false_r.
    destruct (Z.ltb_spec i 64) as [Hl|Hh]; simpl.
    + apply andb_true_r.
    + rewrite andb_false_r. symmetry. apply testbit_u64_high; lia.
Qed.

Lemma cpu_reg_eqb_eq a b : cpu_reg_eqb a b = true <-> a = b.
Proof. split; [destruct a, b; simpl; congruence | intros ->; destruct b; reflexivity]. Qed.

Lemma emulate_pio_post_read_bits (v : vcpu) (io_req : io_request) i :
  ior_direction io_req = REQUEST_READ ->
  1 <= ior_size io_req <= 4 ->
  0 <= vcpu_get_gpreg v CPU_REG_RAX < 18446744073709551616 ->
  0 <= i ->
  Z.testbit (vcpu_get_gpreg (emulate_pio_post v io_req) CPU_REG_RAX) i
  = if i <? 8 * ior_size io_req
    then Z.testbit (pio_value io_req) i
    else Z.testbit (vcpu_get_gpreg v CPU_REG_RAX) i.
Proof.
  intros Hd Hsize Hrax Hi. unfold emulate_pio_post. rewrite Hd.
  rewrite pio_post_mask_ones by exact Hsize.
  unfold vcpu_get_gpreg at 1. simpl.
  apply merge_low_bits; [exact Hrax|lia|exact Hi].
Qed.

(** The post step leaves every register other than RAX alone. *)
Lemma emulate_pio_post_other_regs (v : vcpu) io_req r :
  r <> CPU_REG_RAX ->
  vcpu_get_gpreg (emulate_pio_post v io_req) r = vcpu_get_gpreg v r.
Proof.
  intros Hr. unfold emulate_pio_post.
  destruct (ior_direction io_req); [|reflexivity].
  unfold vcpu_get_gpreg, vcpu_set_gpreg. cbn [gpregs].
  destruct (cpu_reg_eqb CPU_REG_RAX r) eqn:E; [|reflexivity].
  apply cpu_reg_eqb_eq in E. congruence.
Qed.

(** The value of a port request is its low 32 bits. *)
Lemma pio_value_set_pio_value_u32 r x :
  pio_value (set_pio_value r x) = u32 x.
Proof.
  unfold pio_value, set_pio_value. cbn [ior_value]. unfold u32.
  rewrite Z.add_comm, Z_mod_plus_full. apply Z.mod_mod. lia.
Qed.

(** C9. The post step of a port access of size 1 to 4 changes guest
    registers only for a read, and then only RAX: its low [8 * size] bits
    become those of the value read and its other bits stay; for a write the
    virtual core is left as it was. *)
Theorem emulate_pio_post_rax_low_bits (v : vcpu) (io_req : io_request) :
  1 <= ior_size io_req <= 4 ->
  0 <= vcpu_get_gpreg v CPU_REG_RAX < 18446744073709551616 ->
  match ior_direction io_req with
  | REQUEST_READ =>
      (forall i, 0 <= i ->
         Z.testbit (vcpu_get_gpreg (emulate_pio_post v io_req) CPU_REG_RAX) i
         = if i <? 8 * ior_size io_req
           then Z.testbit (pio_value io_req) i
           else Z.testbit (vcpu_get_gpreg v CPU_REG_RAX) i) /\
      (forall r, r <> CPU_REG_RAX ->
         vcpu_get_gpreg (emulate_pio_post v io_req) r = vcpu_get_gpreg v r)
  | REQUEST_WRITE => emulate_pio_post v io_req = v
  end.
Proof.
  intros Hsize Hrax.
  destruct (ior_direction io_req) eqn:Hd; [|unfold emulate_pio_post; rewrite Hd; reflexivity].
  split.
  - intros i Hi. apply emulate_pio_post_read_bits; assumption.
  - intros r Hr. unfold emulate_pio_post. rewrite Hd.
    unfold vcpu_get_gpreg, vcpu_set_gpreg. cbn [gpregs].
    destruct (cpu_reg_eqb CPU_REG_RAX r) eqn:E; [|reflexivity].
    apply cpu_reg_eqb_eq in E. congruence.
Qed.

(** *** Dispatch *)

Section DispatchFacts.

Context {dev : Type}.
Implicit Types (h handler : vm_io_handler dev) (n node : mem_io_node dev).
Implicit Types (w : world dev) (m : vm dev).

Lemma handler_nowrap_bounds h :
  handler_nowrap h ->
  handler_base h = desc_addr h /\
  handler_end h = desc_addr h + desc_len h.
Proof.
  intros (Ha & Hl & Hs). unfold handler_end, handler_base, u16.
  rewrite (Z.mod_small (desc_addr h)) by lia.
  rewrite (Z.mod_small (desc_len h)) by lia.
  rewrite Z.mod_small by lia. auto.
Qed.

(** The three branches of one iteration of the port loop. *)
Lemma hv_emulate_pio_loop_skip h next port size mask io_req w :
  (port >=? handler_end h) || (port + size <=? handler_base h) = true ->
  hv_emulate_pio_loop (h :: next) port size mask io_req w
  = hv_emulate_pio_loop next port size mask io_req w.
Proof. intros H. cbn [hv_emulate_pio_loop]. rewrite H. reflexivity. Qed.

Lemma hv_emulate_pio_loop_span h next port size mask io_req w :
  (port >=? handler_end h) || (port + size <=? handler_base h) = false ->
  (port >=? handler_base h) && (port + size <=? handler_end h) = false ->
  hv_emulate_pio_loop (h :: next) port size mask io_req w
  = (- EIO, io_req,
     do_log LOG_FATAL "Err:IO, port 0x%04x, size=%hu spans devices"
       [ArgZ port; ArgZ size] w).
Proof.
  intros H1 H2. cbn [hv_emulate_pio_loop]. rewrite H1, H2. reflexivity.
Qed.

(** Under [handler_nowrap] the tests of the loop are the three cases of the
    specification. *)
Lemma pio_tests_nowrap h port size :
  handler_nowrap h ->
  ((port >=? handler_end h) || (port + size <=? handler_base h)
     = ranges_disjoint (desc_addr h) (desc_addr h + desc_len h)
         port (port + size)) /\
  ((port >=? handler_base h) && (port + size <=? handler_end h)
     = range_contains (desc_addr h) (desc_addr h + desc_len h)
         port (port + size)).
Proof.
  intros Hnw. destruct (handler_nowrap_bounds h Hnw) as [-> ->].
  unfold ranges_disjoint, range_contains. rewrite !Z.geb_leb.
  split; [apply orb_comm|reflexivity].
Qed.

(** One iteration of the port loop on a handler whose bounds fit in 16
    bits: disjoint, contained, or overlapping in part. *)
Lemma hv_emulate_pio_loop_trichotomy h next port size mask io_req w :
  handler_nowrap h ->
  let lo := desc_addr h in
  let hi := desc_addr h + desc_len h in
  hv_emulate_pio_loop (h :: next) port size mask io_req w
  = if ranges_disjoint lo hi port (port + size)
    then hv_emulate_pio_loop next port size mask io_req w
    else if range_contains lo hi port (port + size)
    then
      match ior_direction io_req with
      | REQUEST_WRITE =>
          let val := Z.land (pio_value io_req) mask in
          (0, io_req,
           do_log LOG_DBG "IO write on port %04x, data %08x"
             [ArgZ port; ArgZ val]
             (do_call (CallIoWrite h port size val)
                (set_devs (desc_io_write h (devs w) port size val) w)))
      | REQUEST_READ =>
          let r := desc_io_read h (devs w) port size in
          (0, set_pio_value io_req r.1,
           do_log LOG_DBG "IO read on port %04x, data %08x"
             [ArgZ port; ArgZ (pio_value (set_pio_value io_req r.1))]
             (do_call (CallIoRead h port size) (set_devs r.2 w)))
      end
    else (- EIO, io_req,
          do_log LOG_FATAL "Err:IO, port 0x%04x, size=%hu spans devices"
            [ArgZ port; ArgZ size] w).
Proof.
  intros Hnw lo hi. cbn [hv_emulate_pio_loop].
  destruct (pio_tests_nowrap h port size Hnw) as [-> ->]. subst lo hi.
  destruct (ranges_disjoint _ _ _ _); [reflexivity|].
  destruct (range_contains _ _ _ _); [|reflexivity].
  cbn [negb]. destruct (ior_direction io_req); [|reflexivity].
  destruct (desc_io_read h (devs w) port size). reflexivity.
Qed.

Lemma hv_emulate_pio_loop_disjoint_prefix before rest port size mask io_req w :
  Forall (fun h => handler_nowrap h /\
                   ranges_disjoint (desc_addr h) (desc_addr h + desc_len h)
                     port (port + size) = true) before ->
  hv_emulate_pio_loop (before ++ rest) port size mask io_req w
  = hv_emulate_pio_loop rest port size mask io_req w.
Proof.
  induction 1 as [|h before [Hnw Hdis] _ IH]; [reflexivity|].
  rewrite <- app_comm_cons, hv_emulate_pio_loop_skip; [exact IH|].
  destruct (pio_tests_nowrap h port size Hnw) as [-> _]. exact Hdis.
Qed.

Lemma hv_emulate_mmio_loop_disjoint_prefix
    (before rest : list (mem_io_node dev)) address size io_req w :
  0 <= address + size < 18446744073709551616 ->
  Forall (fun n => ranges_disjoint (range_start n) (range_end n)
                     address (address + size) = true) before ->
  hv_emulate_mmio_loop (before ++ rest) address size io_req w
  = hv_emulate_mmio_loop rest address size io_req w.
Proof.
  intros Hsum. induction 1 as [|n before Hdis _ IH]; [reflexivity|].
  rewrite <- app_comm_cons. cbn [hv_emulate_mmio_loop].
  unfold u64. rewrite Z.mod_small by exact Hsum.
  unfold ranges_disjoint in Hdis. rewrite Z.geb_leb, Hdis. exact IH.
Qed.

(** C3, amended. If the first registered range, in list order, that the
    request is not disjoint from overlaps it only in part, dispatch returns
    the spanning error and calls no callback: the request and the devices
    are as before and only the fatal message is added. For port handlers
    the ranges considered are those with both bounds representable in 16
    bits; for MMIO the request is one whose end does not wrap in 64 bits. *)
Theorem dispatch_spanning_at_first_overlap :
  (forall m io_req w (before after : list (vm_io_handler dev)) h,
     let port := u16 (ior_address io_req) in
     let size := u16 (ior_size io_req) in
     io_handler m = before ++ h :: after ->
     Forall (fun h' => handler_nowrap h' /\
               ranges_disjoint (desc_addr h') (desc_addr h' + desc_len h')
                 port (port + size) = true) before ->
     handler_nowrap h ->
     range_partial (desc_addr h) (desc_addr h + desc_len h)
       port (port + size) = true ->
     hv_emulate_pio m io_req w
     = (- EIO, io_req,
        do_log LOG_FATAL "Err:IO, port 0x%04x, size=%hu spans devices"
          [ArgZ port; ArgZ size] w)) /\
  (forall m io_req w (before after : list (mem_io_node dev)) n,
     let address := ior_address io_req in
     let size := ior_size io_req in
     0 <= address + size < 18446744073709551616 ->
     mmio_list m = before ++ n :: after ->
     Forall (fun n' => ranges_disjoint (range_start n') (range_end n')
               address (address + size) = true) before ->
     range_partial (range_start n) (range_end n)
       address (address + size) = true ->
     hv_emulate_mmio m io_req w
     = (- EIO, io_req,
        do_log LOG_FATAL "Err MMIO, address:0x%llx, size:%x"
          [ArgZ address; ArgZ size] w)).
Proof.
  split.
  - intros m io_req w before after h port size Hlist Hbefore Hnw Hpart.
    unfold hv_emulate_pio. rewrite Hlist. fold port size.
    rewrite hv_emulate_pio_loop_disjoint_prefix by exact Hbefore.
    unfold range_partial in Hpart. apply andb_true_iff in Hpart.
    destruct Hpart as [Hd Hc]. apply negb_true_iff in Hd, Hc.
    destruct (pio_tests_nowrap h port size Hnw) as [Hd' Hc'].
    apply hv_emulate_pio_loop_span; congruence.
  - intros m io_req w before after n address size Hsum Hlist Hbefore Hpart.
    unfold hv_emulate_mmio. rewrite Hlist. fold address size.
    rewrite hv_emulate_mmio_loop_disjoint_prefix by assumption.
    unfold range_partial in Hpart. apply andb_true_iff in Hpart.
    destruct Hpart as [Hd Hc]. apply negb_true_iff in Hd, Hc.
    unfold ranges_disjoint in Hd. unfold range_contains in Hc.
    cbn [hv_emulate_mmio_loop]. unfold u64.
    rewrite Z.mod_small by exact Hsum.
    rewrite !Z.geb_leb, Hd, Hc. reflexivity.
Qed.

(** C10. The upper bound of a handler is its base plus its length cut to
    16 bits. When the 16-bit base plus the 16-bit length exceeds 0xFFFF, the
    bound is that sum less 0x10000, and a request whose port is at least
    this bound and whose end is above the base is passed over as if
    disjoint: the scan goes on with the next handler. Every port from the
    base upwards is at least the bound, so the handler claims none of the
    ports at the top of the port space that it was registered for. *)
Theorem hv_emulate_pio_wrapped_end m h next io_req w :
  let port := u16 (ior_address io_req) in
  let size := u16 (ior_size io_req) in
  io_handler m = h :: next ->
  handler_base h + u16 (desc_len h) > 65535 ->
  handler_end h = handler_base h + u16 (desc_len h) - 65536 /\
  (port >= handler_end h -> port + size > handler_base h ->
   hv_emulate_pio m io_req w
   = hv_emulate_pio (set_io_handler m next) io_req w) /\
  (handler_base h <= port ->
   hv_emulate_pio m io_req w
   = hv_emulate_pio (set_io_handler m next) io_req w).
Proof.
  intros port size Hlist Hwrap.
  assert (Hb : 0 <= handler_base h < 65536)
    by (unfold handler_base, u16; apply Z.mod_pos_bound; lia).
  assert (Hl : 0 <= u16 (desc_len h) < 65536)
    by (unfold u16; apply Z.mod_pos_bound; lia).
  assert (Hend : handler_end h = handler_base h + u16 (desc_len h) - 65536).
  { unfold handler_end. unfold u16 at 1.
    Z.div_mod_to_equations. lia. }
  assert (Hskip : port >= handler_end h ->
                  hv_emulate_pio m io_req w
                  = hv_emulate_pio (set_io_handler m next) io_req w).
  { intros Hge. unfold hv_emulate_pio. rewrite Hlist. fold port size.
    cbn [io_handler set_io_handler].
    apply hv_emulate_pio_loop_skip. apply orb_true_iff. left.
    rewrite Z.geb_leb. apply Z.leb_le. lia. }
  split; [exact Hend|]. split.
  - intros Hge _. apply Hskip, Hge.
  - intros Hge. apply Hskip. lia.
Qed.

(** C1 on the handlers that reach the top of the port space. A handler
    registered for [base, base + len) with base + len above 0xFFFF never
    gets a request that its range contains: the scan treats the two as
    disjoint and goes on, so with no other handler the access ends with the
    not-found code, no callback made, request and world untouched. The
    three-way case analysis of the specification asks for the callback and
    the success code here. *)
Theorem hv_emulate_pio_top_ports_not_found m h next io_req w :
  let port := u16 (ior_address io_req) in
  let size := u16 (ior_size io_req) in
  io_handler m = h :: next ->
  0 <= desc_addr h <= 65535 -> 0 <= desc_len h <= 65535 ->
  desc_addr h + desc_len h > 65535 ->
  range_contains (desc_addr h) (desc_addr h + desc_len h)
    port (port + size) = true ->
  hv_emulate_pio m io_req w
  = hv_emulate_pio (set_io_handler m next) io_req w /\
  (next = [] -> hv_emulate_pio m io_req w = (- ENODEV, io_req, w)).
Proof.
  intros port size Hlist Ha Hl Hwrap Hin.
  assert (Hskip : hv_emulate_pio m io_req w
                  = hv_emulate_pio (set_io_handler m next) io_req w).
  { unfold hv_emulate_pio. rewrite Hlist. fold port size.
    cbn [io_handler set_io_handler]. apply hv_emulate_pio_loop_skip.
    apply andb_true_iff in Hin. destruct Hin as [Hlo _].
    apply Z.leb_le in Hlo. apply orb_true_iff. left.
    rewrite Z.geb_leb. apply Z.leb_le.
    unfold handler_end, handler_base, u16.
    rewrite (Z.mod_small (desc_addr h)), (Z.mod_small (desc_len h)) by lia.
    Z.div_mod_to_equations. lia. }
  split; [exact Hskip|].
  intros ->. rewrite Hskip. reflexivity.
Qed.

End DispatchFacts.

Lemma dispatch_spanning_at_first_overlap_witness :
  hv_emulate_pio
    (sample_vm 1 [sample_handler 112 16; sample_handler 96 4] [] [] [])
    (sample_request REQ_PORTIO REQUEST_READ 98 4 0) sample_world
  = (- EIO, sample_request REQ_PORTIO REQUEST_READ 98 4 0,
     do_log LOG_FATAL "Err:IO, port 0x%04x, size=%hu spans devices"
       [ArgZ 98; ArgZ 4] sample_world) /\
  hv_emulate_mmio
    (sample_vm 1 [] [sample_node 4096 8192] [] [])
    (sample_request REQ_MMIO REQUEST_READ 8190 4 0) sample_world
  = (- EIO, sample_request REQ_MMIO REQUEST_READ 8190 4 0,
     do_log LOG_FATAL "Err MMIO, address:0x%llx, size:%x"
       [ArgZ 8190; ArgZ 4] sample_world).
Proof.
  split.
  - apply (proj1 (@dispatch_spanning_at_first_overlap (list Z))
             (sample_vm 1 [sample_handler 112 16; sample_handler 96 4] [] [] [])
             (sample_request REQ_PORTIO REQUEST_READ 98 4 0) sample_world
             [sample_handler 112 16] [] (sample_handler 96 4)).
    + reflexivity.
    + repeat constructor; simpl; lia.
    + repeat split; simpl; lia.
    + reflexivity.
  - apply (proj2 (@dispatch_spanning_at_first_overlap (list Z))
             (sample_vm 1 [] [sample_node 4096 8192] [] [])
             (sample_request REQ_MMIO REQUEST_READ 8190 4 0) sample_world
             [] [] (sample_node 4096 8192)).
    + simpl; lia.
    + reflexivity.
    + constructor.
    + reflexivity.
Defined.

(** C3 as stated fails. With handlers for ports [0x60, 0x64) and
    [0x62, 0x70) registered in this list order, a read of 4 bytes at port
    0x60 overlaps the second range in part, yet dispatch returns 0 and
    calls the read callback of the first. The same holds for MMIO ranges
    [0x1000, 0x2000) and [0x1800, 0x3000) and 4 bytes at 0x17FE. *)
Lemma dispatch_spanning_not_universal :
  range_partial 98 112 96 100 = true /\
  hv_emulate_pio
    (sample_vm 1 [sample_handler 96 4; sample_handler 98 14] [] [] [])
    (sample_request REQ_PORTIO REQUEST_READ 96 4 0) sample_world
  = (0, sample_request REQ_PORTIO REQUEST_READ 96 4 171,
     {| devs := [];
        calls := [CallIoRead (sample_handler 96 4) 96 4];
        logs := [{| log_lvl := LOG_DBG;
                    log_fmt := "IO read on port %04x, data %08x";
                    log_args := [ArgZ 96; ArgZ 171] |}] |}) /\
  range_partial 6144 12288 6142 6146 = true /\
  hv_emulate_mmio
    (sample_vm 1 [] [sample_node 4096 8192; sample_node 6144 12288] [] [])
    (sample_request REQ_MMIO REQUEST_READ 6142 4 0) sample_world
  = (0, sample_request REQ_MMIO REQUEST_READ 6142 4 0,
     {| devs := [7];
        calls := [CallMmioReadWrite (sample_node 4096 8192)
                    (sample_request REQ_MMIO REQUEST_READ 6142 4 0)];
        logs := [] |}).
Proof. repeat split. Qed.

Lemma hv_emulate_pio_wrapped_end_witness :
  handler_end (sample_handler 65520 16) = 0 /\
  hv_emulate_pio (sample_vm 1 [sample_handler 65520 16] [] [] [])
    (sample_request REQ_PORTIO REQUEST_READ 65520 1 0) sample_world
  = hv_emulate_pio (sample_vm 1 [] [] [] [])
      (sample_request REQ_PORTIO REQUEST_READ 65520 1 0) sample_world.
Proof.
  pose proof (@hv_emulate_pio_wrapped_end (list Z)
                (sample_vm 1 [sample_handler 65520 16] [] [] [])
                (sample_handler 65520 16) []
                (sample_request REQ_PORTIO REQUEST_READ 65520 1 0)
                sample_world eq_refl) as H.
  simpl in H. destruct H as (Hend & _ & Hskip); [reflexivity|].
  split; [exact Hend|]. apply Hskip. vm_compute. discriminate.
Defined.

Lemma hv_emulate_pio_top_ports_not_found_witness :
  hv_emulate_pio (sample_vm 1 [sample_handler 65520 16] [] [] [])
    (sample_request REQ_PORTIO REQUEST_READ 65520 1 0) sample_world
  = (- ENODEV, sample_request REQ_PORTIO REQUEST_READ 65520 1 0, sample_world).
Proof.
  refine (proj2 (@hv_emulate_pio_top_ports_not_found (list Z)
                   (sample_vm 1 [sample_handler 65520 16] [] [] [])
                   (sample_handler 65520 16) []
                   (sample_request REQ_PORTIO REQUEST_READ 65520 1 0)
                   sample_world eq_refl _ _ _ _) eq_refl).
  - simpl. lia.
  - simpl. lia.
  - simpl. lia.
  - reflexivity.
Defined.

(** *** Completion of a request *)

Section CompletionFacts.

Context {dev : Type}.
Implicit Types (w : world dev) (m : vm dev).

Lemma req_state_eqb_eq a b : req_state_eqb a b = true <-> a = b.
Proof.
  split; [destruct a, b; simpl; congruence|intros ->; destruct b; reflexivity].
Qed.

Lemma is_zombie_eq s : is_zombie s = true <-> s = VCPU_ZOMBIE.
Proof. split; [destruct s; simpl; congruence|intros ->; reflexivity]. Qed.

(** The slot of the virtual core after [set_slot]. *)
Lemma set_slot_lookup m id s old :
  io_shared_page m !! Z.to_nat id = Some old ->
  io_shared_page (set_slot m id s) !! Z.to_nat id = Some s.
Proof.
  intros H. unfold set_slot, set_io_shared_page. cbn [io_shared_page].
  apply list_lookup_insert_eq. eapply lookup_lt_Some, H.
Qed.

(** The result of emulate_io_post in each of its branches, with [vhm_req]
    the slot of the virtual core in the shared page. *)
Lemma emulate_io_post_result (v : vcpu) m w (vhm_req : vhm_request) :
  io_shared_page m !! Z.to_nat (vcpu_id v) = Some vhm_req ->
  (vhm_valid vhm_req = 0 \/ vhm_processed vhm_req <> REQ_STATE_COMPLETE ->
   emulate_io_post v m w = Some (v, m, w)) /\
  (vhm_valid vhm_req <> 0 -> vhm_processed vhm_req = REQ_STATE_COMPLETE ->
   vcpu_state v = VCPU_ZOMBIE ->
   emulate_io_post v m w
   = Some (v, set_slot m (vcpu_id v) (complete_ioreq vhm_req), w) /\
   exists s, io_shared_page (set_slot m (vcpu_id v) (complete_ioreq vhm_req))
               !! Z.to_nat (vcpu_id v) = Some s /\
             vhm_valid s = 0 /\ vhm_processed s = REQ_STATE_FREE) /\
  (vhm_valid vhm_req <> 0 -> vhm_processed vhm_req = REQ_STATE_COMPLETE ->
   vcpu_state v <> VCPU_ZOMBIE ->
   emulate_io_post v m w
   = Some
       match ior_type (req v) with
       | REQ_MMIO =>
           (v, m,
            do_call (CallResumeVcpu (vcpu_id v))
              (do_call (CallRequestVcpuPreWork (vcpu_id v)
                          ACRN_VCPU_MMIO_COMPLETE) w))
       | REQ_PORTIO | REQ_PCICFG =>
           let io_req := set_pio_value (req v) (u32 (vhm_value vhm_req)) in
           (emulate_pio_post (set_req v io_req) io_req,
            set_slot m (vcpu_id v) (complete_ioreq vhm_req),
            do_call (CallResumeVcpu (vcpu_id v)) w)
       | REQ_WP =>
           (v, set_slot m (vcpu_id v) (complete_ioreq vhm_req),
            do_call (CallResumeVcpu (vcpu_id v)) w)
       end).
Proof.
  intros Hslot. unfold emulate_io_post. rewrite Hslot. cbn [mbind option_bind].
  split; [|split].
  - intros [Hv|Hp].
    + rewrite Hv. reflexivity.
    + destruct (req_state_eqb (vhm_processed vhm_req) REQ_STATE_COMPLETE) eqn:E.
      * apply req_state_eqb_eq in E. contradiction.
      * rewrite orb_true_r. reflexivity.
  - intros Hv Hp Hz.
    apply Z.eqb_neq in Hv. rewrite Hv, Hp, Hz. cbn. split; [reflexivity|].
    exists (complete_ioreq vhm_req). split; [|split; reflexivity].
    eapply set_slot_lookup, Hslot.
  - intros Hv Hp Hz.
    apply Z.eqb_neq in Hv. rewrite Hv, Hp. cbn [req_state_eqb negb orb].
    destruct (is_zombie (vcpu_state v)) eqn:E;
      [apply is_zombie_eq in E; contradiction|].
    destruct (ior_type (req v)) eqn:Et; try reflexivity.
    all: unfold dm_emulate_pio_post; rewrite Hslot; cbn [mbind option_bind];
      unfold emulate_pio_post; destruct (ior_direction _); reflexivity.
Qed.

(** C2, amended. With [vhm_req] the slot of the virtual core in the shared
    page: if the slot is not valid or its marker is not COMPLETE,
    emulate_io_post changes nothing and makes no call; if the virtual core
    is a zombie, the slot is consumed (valid cleared, marker FREE) and no
    call is made, so the core is not resumed. Otherwise the core is resumed,
    after a step that depends on the kind of the request. For MMIO the
    completion is only requested as pre-work of the core: the request, the
    registers and the slot stay as they are. For a port or PCI-config
    request the low 32 bits of the slot's value are copied into the
    request, the slot is consumed, every register other than RAX is kept,
    and RAX is kept for a write, while for a read of size 1 to 4 its low
    [8 * size] bits become those of the slot's value and its other bits
    stay. For any other kind the slot is consumed and nothing else
    changes. *)
Theorem emulate_io_post_by_kind (v : vcpu) m w (vhm_req : vhm_request) :
  io_shared_page m !! Z.to_nat (vcpu_id v) = Some vhm_req ->
  (vhm_valid vhm_req = 0 \/ vhm_processed vhm_req <> REQ_STATE_COMPLETE ->
   emulate_io_post v m w = Some (v, m, w)) /\
  (vhm_valid vhm_req <> 0 -> vhm_processed vhm_req = REQ_STATE_COMPLETE ->
   vcpu_state v = VCPU_ZOMBIE ->
   emulate_io_post v m w
   = Some (v, set_slot m (vcpu_id v) (complete_ioreq vhm_req), w) /\
   exists s, io_shared_page (set_slot m (vcpu_id v) (complete_ioreq vhm_req))
               !! Z.to_nat (vcpu_id v) = Some s /\
             vhm_valid s = 0 /\ vhm_processed s = REQ_STATE_FREE) /\
  (vhm_valid vhm_req <> 0 -> vhm_processed vhm_req = REQ_STATE_COMPLETE ->
   vcpu_state v <> VCPU_ZOMBIE ->
   exists (v' : vcpu) m' w',
     emulate_io_post v m w = Some (v', m', w') /\
     match ior_type (req v) with
     | REQ_MMIO =>
         v' = v /\ m' = m /\
         w' = do_call (CallResumeVcpu (vcpu_id v))
                (do_call (CallRequestVcpuPreWork (vcpu_id v)
                            ACRN_VCPU_MMIO_COMPLETE) w)
     | REQ_PORTIO | REQ_PCICFG =>
         let io_req := set_pio_value (req v) (u32 (vhm_value vhm_req)) in
         v' = emulate_pio_post (set_req v io_req) io_req /\
         m' = set_slot m (vcpu_id v) (complete_ioreq vhm_req) /\
         w' = do_call (CallResumeVcpu (vcpu_id v)) w /\
         req v' = io_req /\
         pio_value (req v') = u32 (vhm_value vhm_req) /\
         (exists s, io_shared_page m' !! Z.to_nat (vcpu_id v) = Some s /\
                    vhm_valid s = 0 /\ vhm_processed s = REQ_STATE_FREE) /\
         (forall r, r <> CPU_REG_RAX ->
            vcpu_get_gpreg v' r = vcpu_get_gpreg v r) /\
         match ior_direction (req v) with
         | REQUEST_READ =>
             1 <= ior_size (req v) <= 4 ->
             0 <= vcpu_get_gpreg v CPU_REG_RAX < 18446744073709551616 ->
             forall i, 0 <= i ->
               Z.testbit (vcpu_get_gpreg v' CPU_REG_RAX) i
               = if i <? 8 * ior_size (req v)
                 then Z.testbit (vhm_value vhm_req) i
                 else Z.testbit (vcpu_get_gpreg v CPU_REG_RAX) i
         | REQUEST_WRITE =>
             vcpu_get_gpreg v' CPU_REG_RAX = vcpu_get_gpreg v CPU_REG_RAX
         end
     | REQ_WP =>
         v' = v /\ m' = set_slot m (vcpu_id v) (complete_ioreq vhm_req) /\
         w' = do_call (CallResumeVcpu (vcpu_id v)) w
     end).
Proof.
  intros Hslot.
  destruct (emulate_io_post_result v m w vhm_req Hslot) as (H1 & H2 & H3).
  split; [exact H1|]. split; [exact H2|].
  intros Hv Hp Hz. rewrite (H3 Hv Hp Hz). clear H1 H2 H3.
  assert (Hpio : forall v' m' w',
            v' = emulate_pio_post
                   (set_req v (set_pio_value (req v) (u32 (vhm_value vhm_req))))
                   (set_pio_value (req v) (u32 (vhm_value vhm_req))) ->
            m' = set_slot m (vcpu_id v) (complete_ioreq vhm_req) ->
            w' = do_call (CallResumeVcpu (vcpu_id v)) w ->
            let io_req := set_pio_value (req v) (u32 (vhm_value vhm_req)) in
            v' = emulate_pio_post (set_req v io_req) io_req /\
            m' = set_slot m (vcpu_id v) (complete_ioreq vhm_req) /\
            w' = do_call (CallResumeVcpu (vcpu_id v)) w /\
            req v' = io_req /\
            pio_value (req v') = u32 (vhm_value vhm_req) /\
            (exists s, io_shared_page m' !! Z.to_nat (vcpu_id v) = Some s /\
                       vhm_valid s = 0 /\ vhm_processed s = REQ_STATE_FREE) /\
            (forall r, r <> CPU_REG_RAX ->
               vcpu_get_gpreg v' r = vcpu_get_gpreg v r) /\
            match ior_direction (req v) with
            | REQUEST_READ =>
                1 <= ior_size (req v) <= 4 ->
                0 <= vcpu_get_gpreg v CPU_REG_RAX < 18446744073709551616 ->
                forall i, 0 <= i ->
                  Z.testbit (vcpu_get_gpreg v' CPU_REG_RAX) i
                  = if i <? 8 * ior_size (req v)
                    then Z.testbit (vhm_value vhm_req) i
                    else Z.testbit (vcpu_get_gpreg v CPU_REG_RAX) i
            | REQUEST_WRITE =>
                vcpu_get_gpreg v' CPU_REG_RAX = vcpu_get_gpreg v CPU_REG_RAX
            end).
  { intros v' m' w' -> -> -> io_req.
    assert (Hreq : req (emulate_pio_post (set_req v io_req) io_req) = io_req)
      by (unfold emulate_pio_post; destruct (ior_direction io_req);
          reflexivity).
    fold io_req.
    split; [reflexivity|]. split; [reflexivity|]. split; [reflexivity|].
    split; [exact Hreq|]. split.
    { rewrite Hreq. subst io_req. rewrite pio_value_set_pio_value_u32.
      unfold u32. apply Z.mod_mod. lia. }
    split.
    { exists (complete_ioreq vhm_req). split; [|split; reflexivity].
      eapply set_slot_lookup, Hslot. }
    split.
    { intros r Hr. rewrite emulate_pio_post_other_regs by exact Hr.
      reflexivity. }
    destruct (ior_direction (req v)) eqn:Hd.
    - intros Hsize Hrax i Hi.
      rewrite emulate_pio_post_read_bits;
        [|exact Hd|exact Hsize|exact Hrax|exact Hi].
      change (ior_size io_req) with (ior_size (req v)).
      change (vcpu_get_gpreg (set_req v io_req) CPU_REG_RAX)
        with (vcpu_get_gpreg v CPU_REG_RAX).
      destruct (Z.ltb_spec i (8 * ior_size (req v))) as [Hlt|];
        [|reflexivity].
      subst io_req. rewrite pio_value_set_pio_value_u32.
      unfold u32. change 4294967296 with (2 ^ 32).
      rewrite Z.mod_mod by lia.
      apply Z.mod_pow2_bits_low. lia.
    - unfold emulate_pio_post. change (ior_direction io_req)
        with (ior_direction (req v)). rewrite Hd. reflexivity. }
  destruct (ior_type (req v)); eexists _, _, _; (split; [reflexivity|]).
  - apply Hpio; reflexivity.
  - repeat split.
  - apply Hpio; reflexivity.
  - repeat split.
Qed.

Lemma pio_value_set_pio_value r v :
  0 <= v < 4294967296 -> pio_value (set_pio_value r v) = v.
Proof.
  intros Hv. unfold pio_value, set_pio_value. cbn [ior_value].
  unfold u32. rewrite (Z.mod_small v) by exact Hv.
  rewrite Z.add_comm, Z_mod_plus_full. apply Z.mod_small, Hv.
Qed.

Lemma handoffs_do_call c w :
  is_handoff c = false -> handoffs (do_call c w) = handoffs w.
Proof.
  intros Hc. unfold handoffs, do_call. cbn [calls].
  rewrite List.filter_app. simpl. rewrite Hc. apply app_nil_r.
Qed.

Lemma handoffs_do_log l fmt args w : handoffs (do_log l fmt args w) = handoffs w.
Proof. reflexivity. Qed.

Lemma handoffs_set_devs d w : handoffs (set_devs d w) = handoffs w.
Proof. reflexivity. Qed.

(** A scan of the port handlers that ends with the not-found code has
    touched neither the request nor the world. *)
Lemma hv_emulate_pio_loop_not_found handlers port size mask io_req w io_req1 w1 :
  hv_emulate_pio_loop handlers port size mask io_req w = (- ENODEV, io_req1, w1) ->
  io_req1 = io_req /\ w1 = w.
Proof.
  induction handlers as [|h next IH]; cbn [hv_emulate_pio_loop].
  - intros [= <- <-]. auto.
  - destruct ((port >=? handler_end h) || (port + size <=? handler_base h));
      [exact IH|].
    destruct (negb ((port >=? handler_base h) && (port + size <=? handler_end h)));
      [intros [= ? ?]; discriminate|].
    destruct (ior_direction io_req).
    + destruct (desc_io_read h (devs w) port size). intros [= ? ?]; discriminate.
    + intros [= ? ?]; discriminate.
Qed.

Lemma hv_emulate_pio_loop_handoffs handlers port size mask io_req w :
  handoffs (hv_emulate_pio_loop handlers port size mask io_req w).2
  = handoffs w.
Proof.
  induction handlers as [|h next IH]; cbn [hv_emulate_pio_loop]; [reflexivity|].
  destruct ((port >=? handler_end h) || (port + size <=? handler_base h));
    [exact IH|].
  destruct (negb ((port >=? handler_base h) && (port + size <=? handler_end h)));
    [reflexivity|].
  destruct (ior_direction io_req).
  - destruct (desc_io_read h (devs w) port size). cbn [snd].
    rewrite handoffs_do_log, handoffs_do_call by reflexivity. reflexivity.
  - cbn [snd].
    rewrite handoffs_do_log, handoffs_do_call by reflexivity. reflexivity.
Qed.

Lemma hv_emulate_mmio_loop_handoffs (nodes : list (mem_io_node dev))
    address size io_req w :
  handoffs (hv_emulate_mmio_loop nodes address size io_req w).2 = handoffs w.
Proof.
  induction nodes as [|n next IH]; cbn [hv_emulate_mmio_loop]; [reflexivity|].
  destruct ((u64 (address + size) <=? range_start n) || (address >=? range_end n));
    [exact IH|].
  destruct (negb ((address >=? range_start n)
                  && (u64 (address + size) <=? range_end n)));
    [reflexivity|].
  destruct (read_write n (devs w) io_req (handler_private_data n)) as [[? ?] ?].
  cbn [snd]. rewrite handoffs_do_call by reflexivity. reflexivity.
Qed.

Lemma emulate_io_switch_handoffs m io_req w :
  handoffs (emulate_io_switch m io_req w).2 = handoffs w.
Proof.
  unfold emulate_io_switch, hv_emulate_pio, hv_emulate_mmio.
  destruct (ior_type io_req);
    auto using hv_emulate_pio_loop_handoffs, hv_emulate_mmio_loop_handoffs.
Qed.

(** C6. In partition mode, when the routing by kind ends with the not-found
    code, emulate_io returns 0 with the request marked COMPLETE and makes
    no call of its own, so nothing is handed to the device model; the value
    of a read becomes 0xFFFFFFFF and the value of a write is left as it is.
    For a port request the scan has changed neither request nor world. The
    post step of a port read of size 1 to 4 then sets the low [8 * size]
    bits of RAX to ones and keeps the others. *)
Theorem emulate_io_partition_not_found
    (insert : vcpu -> io_request -> vm dev -> dev -> Z * vm dev * dev)
    (v : vcpu) m io_req w io_req1 w1 :
  emulate_io_switch m io_req w = (- ENODEV, io_req1, w1) ->
  emulate_io insert true v m io_req w
    = (0, io_instr_dest_handler io_req1, m, w1) /\
  handoffs w1 = handoffs w /\
  ior_processed (io_instr_dest_handler io_req1) = REQ_STATE_COMPLETE /\
  match ior_direction io_req1 with
  | REQUEST_READ => pio_value (io_instr_dest_handler io_req1) = 4294967295
  | REQUEST_WRITE =>
      ior_value (io_instr_dest_handler io_req1) = ior_value io_req1
  end /\
  (ior_type io_req = REQ_PORTIO -> io_req1 = io_req /\ w1 = w) /\
  (forall vc : vcpu,
     ior_direction io_req1 = REQUEST_READ ->
     1 <= ior_size io_req1 <= 4 ->
     0 <= vcpu_get_gpreg vc CPU_REG_RAX < 18446744073709551616 ->
     forall i, 0 <= i ->
       Z.testbit (vcpu_get_gpreg
                    (emulate_pio_post vc (io_instr_dest_handler io_req1))
                    CPU_REG_RAX) i
       = if i <? 8 * ior_size io_req1 then true
         else Z.testbit (vcpu_get_gpreg vc CPU_REG_RAX) i).
Proof.
  intros Hsw.
  split; [|split; [|split; [|split; [|split]]]].
  - unfold emulate_io. rewrite Hsw. reflexivity.
  - pose proof (emulate_io_switch_handoffs m io_req w) as H.
    rewrite Hsw in H. exact H.
  - reflexivity.
  - unfold io_instr_dest_handler. destruct (ior_direction io_req1).
    + apply (pio_value_set_pio_value io_req1 4294967295). lia.
    + reflexivity.
  - intros Ht. unfold emulate_io_switch in Hsw. rewrite Ht in Hsw.
    eapply hv_emulate_pio_loop_not_found, Hsw.
  - intros vc Hd Hs Hrax i Hi.
    assert (Hdir : ior_direction (io_instr_dest_handler io_req1)
                   = REQUEST_READ)
      by (unfold io_instr_dest_handler; rewrite Hd; cbn; exact Hd).
    assert (Hsz : ior_size (io_instr_dest_handler io_req1) = ior_size io_req1)
      by (unfold io_instr_dest_handler; rewrite Hd; reflexivity).
    rewrite emulate_pio_post_read_bits by (rewrite ?Hsz; assumption).
    rewrite Hsz.
    destruct (Z.ltb_spec i (8 * ior_size io_req1)) as [Hlt|]; [|reflexivity].
    unfold io_instr_dest_handler. rewrite Hd.
    replace (pio_value _) with 4294967295.
    + apply testbit_ones32. lia.
    + symmetry. apply (pio_value_set_pio_value io_req1 4294967295). lia.
Qed.

End CompletionFacts.

(** *** Registration *)

Section RegistryFacts.

Context {dev : Type}.
Implicit Types (w : world dev) (m : vm dev).

(** What register_io_emulation_handler does when the allocation fails:
    the message is logged, and the NULL pointer goes on to
    register_io_handler, which stores through it as soon as the machine has
    a handler. *)
Lemma register_io_emulation_handler_no_memory m range
    (rd : dev -> Z -> Z -> Z * dev) (wr : dev -> Z -> Z -> Z -> dev) w :
  register_io_emulation_handler false m range (Some rd) (Some wr) w
  = (match io_handler m with
     | [] =>
         Done (set_io_handler
                 (if is_vm0 m
                  then set_iobitmap m
                         (deny_guest_io_access (iobitmap m)
                            (range_base range) (range_len range))
                  else m) [])
     | _ :: _ => NullDeref
     end,
     do_log LOG_ERR "Error: out of memory" [] w).
Proof.
  unfold register_io_emulation_handler, create_io_handler, register_io_handler.
  destruct (is_vm0 m); cbn [io_handler set_iobitmap];
    destruct (io_handler m); reflexivity.
Qed.

(** C4 where it fails. On a machine that already has a port handler, a
    registration whose node cannot be allocated logs the failure and then
    hands the NULL node to register_io_handler, which stores into its
    [next] field: the call does not come back with the list as it was. *)
Theorem register_io_emulation_handler_null_node m range
    (rd : dev -> Z -> Z -> Z * dev) (wr : dev -> Z -> Z -> Z -> dev) w
    (h : vm_io_handler dev) (l : list (vm_io_handler dev)) :
  io_handler m = h :: l ->
  register_io_emulation_handler false m range (Some rd) (Some wr) w
  = (NullDeref, do_log LOG_ERR "Error: out of memory" [] w).
Proof.
  intros Hl. rewrite register_io_emulation_handler_no_memory, Hl.
  reflexivity.
Qed.

Section WithListAdd.

Context (list_add : mem_io_node dev -> list (mem_io_node dev)
                    -> list (mem_io_node dev)).

(** The result of register_mmio_emulation_handler on either side of its
    first test, whatever list_add does with the node. *)
Lemma register_mmio_emulation_handler_result calloc_ok m
    (read_write_fn : option (dev -> io_request -> Z -> Z * io_request * dev))
    (start end_ private_data : Z) w :
  (first_vcpu_launched m ->
   register_mmio_emulation_handler list_add calloc_ok m read_write_fn
     start end_ private_data w
   = Done (- EINVAL, m,
           do_log LOG_ASSERT "register mmio handler after vm launched" [] w)) /\
  (first_vcpu_not_launched m ->
   register_mmio_emulation_handler list_add calloc_ok m read_write_fn
     start end_ private_data w
   = Done
       match read_write_fn with
       | Some rw =>
           if (start <? end_) && calloc_ok
           then (0,
                 set_mmio_list m
                   (list_add {| read_write := rw;
                                handler_private_data := private_data;
                                range_start := start; range_end := end_ |}
                      (mmio_list m)),
                 if is_vm0 m
                 then do_call (CallEptMrDel start (u64 (end_ - start))) w
                 else w)
           else (- EINVAL, m, w)
       | None => (- EINVAL, m, w)
       end).
Proof.
  unfold register_mmio_emulation_handler. split.
  - intros (Hc & v0 & Hv0 & Hl).
    replace (created_vcpus m >? 0) with true
      by (symmetry; apply Z.gtb_lt; lia).
    rewrite Hv0, Hl. reflexivity.
  - intros Hnl.
    assert (Hl0 : (if created_vcpus m >? 0
                   then match vcpu_array m !! 0%nat with
                        | Some v0 => Done (launched v0)
                        | None => NullDeref
                        end
                   else Done false) = Done false).
    { destruct Hnl as [Hc|(v0 & Hv0 & Hl)].
      - replace (created_vcpus m >? 0) with false; [reflexivity|].
        symmetry. rewrite Z.gtb_ltb. apply Z.ltb_ge. lia.
      - rewrite Hv0, Hl. destruct (created_vcpus m >? 0); reflexivity. }
    rewrite Hl0. destruct read_write_fn as [rw|]; [|reflexivity].
    rewrite Z.gtb_ltb.
    destruct (start <? end_); [|reflexivity].
    destruct calloc_ok; reflexivity.
Qed.

End WithListAdd.

(** C7, amended. register_mmio_emulation_handler fails with the
    invalid-argument code, leaving the machine as it is, when the machine
    has a virtual core and its first virtual core (index 0) has been
    launched; the other virtual cores are not looked at. When that is not
    so, it fails with the same code and no change when the callback is null
    or end <= start, or when the allocation fails; otherwise it appends the
    new node to the MMIO list, returns 0, and asks for the unmap of
    [start, end) exactly when the machine is the privileged one. *)
Theorem register_mmio_emulation_handler_appends calloc_ok m
    (read_write_fn : option (dev -> io_request -> Z -> Z * io_request * dev))
    (start end_ private_data : Z) w :
  (first_vcpu_launched m ->
   register_mmio_emulation_handler list_add_spec calloc_ok m read_write_fn
     start end_ private_data w
   = Done (- EINVAL, m,
           do_log LOG_ASSERT "register mmio handler after vm launched" [] w)) /\
  (first_vcpu_not_launched m ->
   register_mmio_emulation_handler list_add_spec calloc_ok m read_write_fn
     start end_ private_data w
   = Done
       match read_write_fn with
       | Some rw =>
           if (start <? end_) && calloc_ok
           then (0,
                 set_mmio_list m
                   (mmio_list m ++
                    [{| read_write := rw;
                        handler_private_data := private_data;
                        range_start := start; range_end := end_ |}]),
                 if is_vm0 m
                 then do_call (CallEptMrDel start (u64 (end_ - start))) w
                 else w)
           else (- EINVAL, m, w)
       | None => (- EINVAL, m, w)
       end).
Proof.
  exact (register_mmio_emulation_handler_result list_add_spec calloc_ok m
           read_write_fn start end_ private_data w).
Qed.

End RegistryFacts.

Lemma register_io_emulation_handler_null_node_witness :
  register_io_emulation_handler false
    (sample_vm 1 [sample_handler 96 4] [] [] [])
    {| range_base := 112; range_len := 4 |}
    (Some sample_io_read) (Some sample_io_write) sample_world
  = (NullDeref, do_log LOG_ERR "Error: out of memory" [] sample_world).
Proof.
  apply (@register_io_emulation_handler_null_node (list Z)
           (sample_vm 1 [sample_handler 96 4] [] [] [])
           {| range_base := 112; range_len := 4 |}
           sample_io_read sample_io_write sample_world
           (sample_handler 96 4) []).
  reflexivity.
Defined.

Lemma register_mmio_emulation_handler_appends_witness :
  let m := sample_vm 0 [] [sample_node 0 4096]
             [sample_vcpu 0 VCPU_INIT
                (sample_request REQ_MMIO REQUEST_READ 0 4 0)] [] in
  register_mmio_emulation_handler list_add_spec true m
    (Some sample_read_write) 4096 8192 7 sample_world
  = Done (0,
          set_mmio_list m [sample_node 0 4096; sample_node 4096 8192],
          do_call (CallEptMrDel 4096 4096) sample_world).
Proof.
  intros m.
  refine (proj2 (@register_mmio_emulation_handler_appends (list Z) true m
                   (Some sample_read_write) 4096 8192 7 sample_world) _).
  right. eexists. split; reflexivity.
Defined.

(** C7 as stated fails. A machine with two virtual cores, of which the
    second has been launched and the first has not, still gets its MMIO
    range registered: the call returns 0 and the node is in the list. *)
Lemma register_mmio_emulation_handler_second_vcpu_running :
  let v0 := sample_vcpu 0 VCPU_INIT (sample_request REQ_MMIO REQUEST_READ 0 4 0) in
  let v1 :=
    {| vcpu_id := 1; vcpu_state := VCPU_RUNNING; launched := true;
       exit_qualification := 0; cur_context := 0;
       req := sample_request REQ_MMIO REQUEST_READ 0 4 0;
       gpregs := sample_regs |} in
  let m := sample_vm 1 [] [] [v0; v1] [] in
  existsb launched (vcpu_array m) = true /\
  register_mmio_emulation_handler list_add_spec true m
    (Some sample_read_write) 4096 8192 7 sample_world
  = Done (0, set_mmio_list m [sample_node 4096 8192], sample_world).
Proof. split; reflexivity. Qed.

(** *** Claiming the remote call *)

Section NotifyFacts.

Context (INVALID_BIT_INDEX : Z).

Lemma claim_attempt_clear mask :
  Notify.claim_attempt INVALID_BIT_INDEX 0 mask
  = (false, Z.land mask INVALID_BIT_INDEX).
Proof. reflexivity. Qed.

Lemma claim_attempt_busy cell mask :
  cell <> 0 -> Notify.claim_attempt INVALID_BIT_INDEX cell mask = (true, cell).
Proof.
  intros Hc. unfold Notify.claim_attempt, Notify.atomic_cmpxchg64.
  apply Z.eqb_neq in Hc. rewrite Hc. reflexivity.
Qed.

(** C8, amended. The first loop of smp_call_function is left exactly at the
    first attempt that finds the pending-call mask all-clear, and the value
    its compare-and-swap stores there is [mask & INVALID_BIT_INDEX]: the
    caller's mask cut down to the bits of that constant, which is [mask]
    itself only when [mask] has no other bit set. *)
Theorem claim_loop_stores_masked (seen : list Z) (mask stored : Z) :
  Notify.claim_loop INVALID_BIT_INDEX seen mask = Some stored <->
  stored = Z.land mask INVALID_BIT_INDEX /\
  exists before later,
    seen = before ++ 0 :: later /\ Forall (fun cell => cell <> 0) before.
Proof.
  split.
  - induction seen as [|cell later IH]; [discriminate|].
    cbn [Notify.claim_loop].
    destruct (Z.eq_dec cell 0) as [->|Hne].
    + rewrite claim_attempt_clear. intros [= <-].
      split; [reflexivity|]. exists [], later. split; [reflexivity|constructor].
    + rewrite claim_attempt_busy by exact Hne. intros H.
      destruct (IH H) as (Hs & before & later' & -> & Hall).
      split; [exact Hs|]. exists (cell :: before), later'.
      split; [reflexivity|]. constructor; assumption.
  - intros (-> & before & later & -> & Hall).
    induction Hall as [|cell before Hne _ IH]; cbn [app Notify.claim_loop].
    + rewrite claim_attempt_clear. reflexivity.
    + rewrite claim_attempt_busy by exact Hne. exact IH.
Qed.

(** Whatever 16-bit value the constant has, the bit of core 16 is lost. *)
Lemma claim_loop_core_16 :
  0 <= INVALID_BIT_INDEX < 65536 ->
  Notify.claim_loop INVALID_BIT_INDEX [0] 65536 = Some 0.
Proof.
  intros HK. cbn [Notify.claim_loop]. rewrite claim_attempt_clear.
  f_equal. apply Z.bits_inj'. intros i Hi.
  rewrite Z.land_spec, Z.bits_0. change 65536 with (2 ^ 16).
  rewrite Z.pow2_bits_eqb by lia.
  destruct (Z.eqb_spec 16 i) as [<-|Hne]; [|reflexivity].
  rewrite <- (Z.mod_small INVALID_BIT_INDEX (2 ^ 16)) by exact HK.
  rewrite Z.mod_pow2_bits_high by lia. reflexivity.
Qed.

End NotifyFacts.

Lemma claim_loop_stores_masked_witness :
  Notify.claim_loop 65535 [5; 4; 0; 9] 3 = Some 3 /\
  exists before later,
    [2; 0] = before ++ 0 :: later /\ Forall (fun cell => cell <> 0) before.
Proof.
  split.
  - apply (proj2 (claim_loop_stores_masked 65535 [5; 4; 0; 9] 3 3)).
    split; [reflexivity|]. exists [5; 4], [9].
    split; [reflexivity|]. repeat constructor; discriminate.
  - apply (proj1 (claim_loop_stores_masked 65535 [2; 0] 3 3)). reflexivity.
Defined.

(** C8 as stated fails. With the 16-bit constant 0xFFFF, a call for core 16
    alone (mask 0x10000) finds the pending-call mask clear and stores 0,
    not the mask. *)
Lemma claim_loop_drops_high_bits :
  Notify.claim_loop 65535 [0] 65536 = Some 0 /\ 0 <> 65536.
Proof. split; [reflexivity|discriminate]. Qed.

(** *** Concrete runs *)

Lemma emulate_pio_post_rax_low_bits_witness :
  Z.testbit
    (vcpu_get_gpreg
       (emulate_pio_post
          (sample_vcpu 0 VCPU_RUNNING
             (sample_request REQ_PORTIO REQUEST_READ 96 1 171))
          (sample_request REQ_PORTIO REQUEST_READ 96 1 171))
       CPU_REG_RAX) 3
  = Z.testbit 171 3 /\
  vcpu_get_gpreg
    (emulate_pio_post
       (sample_vcpu 0 VCPU_RUNNING
          (sample_request REQ_PORTIO REQUEST_READ 96 1 171))
       (sample_request REQ_PORTIO REQUEST_READ 96 1 171))
    CPU_REG_RCX
  = 0.
Proof.
  pose proof (emulate_pio_post_rax_low_bits
                (sample_vcpu 0 VCPU_RUNNING
                   (sample_request REQ_PORTIO REQUEST_READ 96 1 171))
                (sample_request REQ_PORTIO REQUEST_READ 96 1 171)) as H.
  cbn [ior_direction ior_size sample_request] in H.
  destruct H as [Hbits Hregs].
  - lia.
  - vm_compute. split; [discriminate|reflexivity].
  - split.
    + apply (Hbits 3). lia.
    + apply (Hregs CPU_REG_RCX). discriminate.
Defined.

Lemma emulate_io_post_by_kind_witness :
  let v := sample_vcpu 0 VCPU_RUNNING
             (sample_request REQ_PORTIO REQUEST_READ 96 1 0) in
  let m := sample_vm 1 [] [] [] [sample_slot 171 1 REQ_STATE_COMPLETE] in
  exists (v' : vcpu) m' w',
    emulate_io_post v m sample_world = Some (v', m', w') /\
    pio_value (req v') = 171 /\
    Z.testbit (vcpu_get_gpreg v' CPU_REG_RAX) 0 = Z.testbit 171 0 /\
    Z.testbit (vcpu_get_gpreg v' CPU_REG_RAX) 8
    = Z.testbit (vcpu_get_gpreg v CPU_REG_RAX) 8 /\
    io_shared_page m' !! 0%nat = Some (sample_slot 171 0 REQ_STATE_FREE) /\
    calls w' = [CallResumeVcpu 0].
Proof.
  intros v m.
  destruct (emulate_io_post_by_kind v m sample_world
              (sample_slot 171 1 REQ_STATE_COMPLETE) eq_refl)
    as (_ & _ & Hlive).
  destruct Hlive as (v' & m' & w' & Hrun & Hkind).
  - simpl. lia.
  - reflexivity.
  - discriminate.
  - change (v' = emulate_pio_post
                   (set_req v (set_pio_value (req v) (u32 171)))
                   (set_pio_value (req v) (u32 171)) /\
            m' = set_slot m 0 (complete_ioreq
                                 (sample_slot 171 1 REQ_STATE_COMPLETE)) /\
            w' = do_call (CallResumeVcpu 0) sample_world /\
            req v' = set_pio_value (req v) (u32 171) /\
            pio_value (req v') = u32 171 /\
            (exists s, io_shared_page m' !! 0%nat = Some s /\
                       vhm_valid s = 0 /\ vhm_processed s = REQ_STATE_FREE) /\
            (forall r, r <> CPU_REG_RAX ->
               vcpu_get_gpreg v' r = vcpu_get_gpreg v r) /\
            (1 <= 1 <= 4 ->
             0 <= vcpu_get_gpreg v CPU_REG_RAX < 18446744073709551616 ->
             forall i, 0 <= i ->
               Z.testbit (vcpu_get_gpreg v' CPU_REG_RAX) i
               = if i <? 8 * 1 then Z.testbit 171 i
                 else Z.testbit (vcpu_get_gpreg v CPU_REG_RAX) i)) in Hkind.
    destruct Hkind as (_ & Hm & Hw & _ & Hval & _ & _ & Hbits).
    assert (Hsize : 1 <= 1 <= 4) by lia.
    assert (Hrax : 0 <= vcpu_get_gpreg v CPU_REG_RAX < 18446744073709551616)
      by (vm_compute; split; [discriminate|reflexivity]).
    exists v', m', w'. split; [exact Hrun|]. split; [exact Hval|].
    split; [apply (Hbits Hsize Hrax 0); lia|].
    split; [apply (Hbits Hsize Hrax 8); lia|].
    rewrite Hm, Hw. split; reflexivity.
Defined.

(** C2 as stated fails for MMIO. A running virtual core with an MMIO read
    whose slot is valid and COMPLETE: emulate_io_post asks for the
    completion as pre-work and resumes the core, but the value of the slot
    is not copied into the request, no register is changed and the slot is
    still valid and COMPLETE. The MMIO post-processing, dm_emulate_mmio_post,
    on the same state copies the value and consumes the slot. *)
Lemma emulate_io_post_mmio_not_run :
  let v := sample_vcpu 0 VCPU_RUNNING
             (sample_request REQ_MMIO REQUEST_READ 4096 4 0) in
  let slot := sample_slot 3735928559 1 REQ_STATE_COMPLETE in
  let m := sample_vm 1 [] [] [] [slot] in
  emulate_io_post v m sample_world
  = Some (v, m,
          {| devs := [];
             calls := [CallRequestVcpuPreWork 0 ACRN_VCPU_MMIO_COMPLETE;
                       CallResumeVcpu 0];
             logs := [] |}) /\
  ior_value (req v) = 0 /\
  io_shared_page m !! 0%nat = Some slot /\
  exists (v2 : vcpu) m2,
    dm_emulate_mmio_post sample_emulate_instruction v m sample_world
    = Some (v2, m2, sample_world) /\
    ior_value (req v2) = 3735928559 /\
    vcpu_get_gpreg v2 CPU_REG_RCX = 3735928559 /\
    vcpu_get_gpreg v CPU_REG_RCX = 0 /\
    io_shared_page m2 !! 0%nat
    = Some (sample_slot 3735928559 0 REQ_STATE_FREE).
Proof.
  intros v slot m. split; [reflexivity|]. split; [reflexivity|].
  split; [reflexivity|]. eexists _, _. split; [reflexivity|].
  repeat split.
Qed.

Lemma emulate_io_partition_not_found_witness :
  let io_req := sample_request REQ_PORTIO REQUEST_READ 1016 1 0 in
  let v := sample_vcpu 0 VCPU_RUNNING io_req in
  let m := sample_vm 1 [] [] [] [] in
  emulate_io sample_insert true v m io_req sample_world
  = (0, io_instr_dest_handler io_req, m, sample_world) /\
  pio_value (io_instr_dest_handler io_req) = 4294967295.
Proof.
  intros io_req v m.
  destruct (emulate_io_partition_not_found sample_insert v m io_req
              sample_world io_req sample_world eq_refl)
    as (Hres & _ & _ & Hval & _).
  split; [exact Hres|exact Hval].
Defined.

(** The scenarios of the specification. *)
Example port_0x60_read_dispatches :
  hv_emulate_pio (sample_vm 1 [sample_handler 96 4] [] [] [])
    (sample_request REQ_PORTIO REQUEST_READ 96 1 0) sample_world
  = (0, sample_request REQ_PORTIO REQUEST_READ 96 1 171,
     {| devs := [];
        calls := [CallIoRead (sample_handler 96 4) 96 1];
        logs := [{| log_lvl := LOG_DBG;
                    log_fmt := "IO read on port %04x, data %08x";
                    log_args := [ArgZ 96; ArgZ 171] |}] |}).
Proof. reflexivity. Qed.

Example port_0x60_write_masked :
  (hv_emulate_pio (sample_vm 1 [sample_handler 96 4] [] [] [])
     (sample_request REQ_PORTIO REQUEST_WRITE 96 1 4660) sample_world).2
  = {| devs := [52];
       calls := [CallIoWrite (sample_handler 96 4) 96 1 52];
       logs := [{| log_lvl := LOG_DBG;
                   log_fmt := "IO write on port %04x, data %08x";
                   log_args := [ArgZ 96; ArgZ 52] |}] |}.
Proof. reflexivity. Qed.

Example mmio_0x1800_dispatches :
  (hv_emulate_mmio (sample_vm 1 [] [sample_node 4096 8192] [] [])
     (sample_request REQ_MMIO REQUEST_READ 6144 4 0) sample_world).1.1 = 0.
Proof. reflexivity. Qed.

Example port_0x3f8_partition_read :
  let v :=
    {| vcpu_id := 0; vcpu_state := VCPU_RUNNING; launched := true;
       exit_qualification := 66584584 (* port 0x3F8, IN, one byte *);
       cur_context := 0;
       req := sample_request REQ_PORTIO REQUEST_WRITE 0 0 0;
       gpregs := sample_regs |} in
  let '(status, v', _, w') :=
    pio_instr_vmexit_handler sample_insert true v
      (sample_vm 1 [] [] [] []) sample_world in
  status = 0 /\
  vcpu_get_gpreg v' CPU_REG_RAX = 1234605616436508671 (* 0x11223344556677FF *) /\
  calls w' = [].
Proof. vm_compute. repeat split. Qed.

(** ** Further properties of the code *)

(** *** Port access bitmaps *)

(** X1. deny_guest_io_access on a range inside the 16-bit port space sets
    the trap bit of every port of the range and changes no other trap bit;
    the two pages keep their size. *)
Theorem deny_guest_io_access_sets_range bm base len :
  wf_iobitmaps bm -> 0 <= base -> 0 <= len -> base + len <= 65536 ->
  wf_iobitmaps (deny_guest_io_access bm base len) /\
  (forall p, base <= p < base + len ->
     trap_bit (deny_guest_io_access bm base len) p = true) /\
  (forall p, 0 <= p < 65536 -> ~ base <= p < base + len ->
     trap_bit (deny_guest_io_access bm base len) p = trap_bit bm p).
Proof.
  intros Hwf Hb Hl Hin.
  destruct (deny_guest_io_access_trap_bit bm base len Hwf Hb Hl Hin)
    as [Hwf' Hbits].
  split; [exact Hwf'|]. split; intros p Hp.
  - rewrite Hbits by lia. solve_range.
  - intros Hout. rewrite Hbits by lia. solve_range.
Qed.

Lemma deny_guest_io_access_sets_range_witness :
  trap_bit (deny_guest_io_access (iobitmaps_all 0) 32766 4) 32769 = true /\
  trap_bit (deny_guest_io_access (iobitmaps_all 0) 32766 4) 32770 = false.
Proof.
  destruct (deny_guest_io_access_sets_range (iobitmaps_all 0) 32766 4)
    as (_ & Hin & Hout).
  - split; reflexivity.
  - lia.
  - lia.
  - lia.
  - split.
    + apply Hin. lia.
    + rewrite Hout by lia. reflexivity.
Defined.

(** X2. allow_guest_io_access on a range inside the 16-bit port space
    clears the trap bit of every port of the range and changes no other
    trap bit; the two pages keep their size. *)
Theorem allow_guest_io_access_clears_range bm base len :
  wf_iobitmaps bm -> 0 <= base -> 0 <= len -> base + len <= 65536 ->
  wf_iobitmaps (allow_guest_io_access bm base len) /\
  (forall p, base <= p < base + len ->
     trap_bit (allow_guest_io_access bm base len) p = false) /\
  (forall p, 0 <= p < 65536 -> ~ base <= p < base + len ->
     trap_bit (allow_guest_io_access bm base len) p = trap_bit bm p).
Proof.
  intros Hwf Hb Hl Hin.
  destruct (allow_guest_io_access_trap_bit bm base len Hwf Hb Hl Hin)
    as [Hwf' Hbits].
  split; [exact Hwf'|]. split; intros p Hp.
  - rewrite Hbits by lia. solve_range.
  - intros Hout. rewrite Hbits by lia. solve_range.
Qed.

Lemma allow_guest_io_access_clears_range_witness :
  trap_bit (allow_guest_io_access (iobitmaps_all 4294967295) 32766 4) 32769
    = false /\
  trap_bit (allow_guest_io_access (iobitmaps_all 4294967295) 32766 4) 32770
    = true.
Proof.
  destruct (allow_guest_io_access_clears_range (iobitmaps_all 4294967295)
              32766 4) as (_ & Hin & Hout).
  - split; reflexivity.
  - lia.
  - lia.
  - lia.
  - split.
    + apply Hin. lia.
    + rewrite Hout by lia. reflexivity.
Defined.

(** X3. Both operations are idempotent on the trap bits: a second deny (or
    allow) of the same range changes no trap bit. *)
Theorem io_access_idempotent bm base len p :
  wf_iobitmaps bm -> 0 <= base -> 0 <= len -> base + len <= 65536 ->
  0 <= p < 65536 ->
  trap_bit (deny_guest_io_access (deny_guest_io_access bm base len) base len) p
    = trap_bit (deny_guest_io_access bm base len) p /\
  trap_bit (allow_guest_io_access (allow_guest_io_access bm base len) base len) p
    = trap_bit (allow_guest_io_access bm base len) p.
Proof.
  intros Hwf Hb Hl Hin Hp.
  destruct (deny_guest_io_access_trap_bit bm base len) as [Hwd Hd]; auto.
  destruct (allow_guest_io_access_trap_bit bm base len) as [Hwa Ha]; auto.
  destruct (deny_guest_io_access_trap_bit
              (deny_guest_io_access bm base len) base len) as [_ Hdd]; auto.
  destruct (allow_guest_io_access_trap_bit
              (allow_guest_io_access bm base len) base len) as [_ Haa]; auto.
  rewrite Hdd, Haa, Hd, Ha by exact Hp.
  split; destruct ((base <=? p) && (p <? base + len)); reflexivity.
Qed.

Lemma io_access_idempotent_witness :
  trap_bit (deny_guest_io_access
              (deny_guest_io_access (iobitmaps_all 0) 96 4) 96 4) 97
    = trap_bit (deny_guest_io_access (iobitmaps_all 0) 96 4) 97 /\
  trap_bit (allow_guest_io_access
              (allow_guest_io_access (iobitmaps_all 0) 96 4) 96 4) 97
    = trap_bit (allow_guest_io_access (iobitmaps_all 0) 96 4) 97.
Proof.
  apply (io_access_idempotent (iobitmaps_all 0) 96 4 97);
    [split; reflexivity|lia..].
Defined.



Section BitmapSetup.

Context {dev : Type}.

(** X5. setup_io_bitmap gives the service machine bitmaps that trap no port
    and every other machine bitmaps that trap every port. *)
Theorem setup_io_bitmap_default (m : vm dev) p :
  0 <= p < 65536 ->
  wf_iobitmaps (iobitmap (setup_io_bitmap m)) /\
  trap_bit (iobitmap (setup_io_bitmap m)) p = negb (is_vm0 m).
Proof.
  intros Hp. unfold setup_io_bitmap. cbn [iobitmap set_iobitmap].
  destruct (port_word_index p Hp) as [Hidx Hrange].
  assert (Hlt : (Z.to_nat (Z.shiftr (Z.land p 32767) 5) < IOBITMAP_WORDS)%nat)
    by (unfold IOBITMAP_WORDS; rewrite Hidx; lia).
  assert (Hall : forall x, wf_iobitmaps (iobitmaps_all x) /\
            trap_bit (iobitmaps_all x) p = Z.testbit x (Z.land p 31)).
  { intros x. split.
    - split; apply length_replicate.
    - unfold trap_bit, bitmap_page, iobitmaps_all.
      destruct (negb (Z.land p 32768 =? 0)); cbn [iobitmap0 iobitmap1];
        rewrite lookup_replicate_2 by exact Hlt; reflexivity. }
  destruct (is_vm0 m); cbn [negb].
  - destruct (Hall 0) as [Hwf ->]. split; [exact Hwf|apply Z.bits_0].
  - destruct (Hall 4294967295) as [Hwf ->]. split; [exact Hwf|].
    apply testbit_ones32, land_31_range.
Qed.

End BitmapSetup.

Lemma setup_io_bitmap_default_witness :
  trap_bit (iobitmap (setup_io_bitmap (sample_vm 0 [] [] [] []))) 1016 = false /\
  trap_bit (iobitmap (setup_io_bitmap (sample_vm 3 [] [] [] []))) 1016 = true.
Proof.
  split.
  - apply (proj2 (setup_io_bitmap_default (sample_vm 0 [] [] [] []) 1016
                    ltac:(lia))).
  - apply (proj2 (setup_io_bitmap_default (sample_vm 3 [] [] [] []) 1016
                    ltac:(lia))).
Defined.

(** Once [b] points to the second page, an iteration for [address] is the
    update of the port [0x8000 + (address & 0x7fff)], whatever bit 15 of
    [address] is. *)
Lemma bitmap_update_high_page op address bm :
  0 <= address ->
  bitmap_update true (Z.shiftr (Z.land address 32767) 5)
    (op (Z.land address 32767)) bm
  = port_update op (32768 + address mod 32768) bm.
Proof.
  intros Ha. unfold port_update.
  assert (Hq : 32768 <= 32768 + address mod 32768 < 65536)
    by (Z.div_mod_to_equations; lia).
  rewrite land_32768_zero by lia.
  replace (32768 + address mod 32768 <? 32768) with false
    by (symmetry; apply Z.ltb_ge; lia).
  rewrite !land_32767 by lia.
  replace ((32768 + address mod 32768) mod 32768) with (address mod 32768)
    by (Z.div_mod_to_equations; lia).
  reflexivity.
Qed.

Lemma io_access_loop_high_page op v :
  bit_frame op -> bit_forced op v ->
  forall n address bm,
    wf_iobitmaps bm ->
    0 <= address -> address + Z.of_nat n < 4294967296 ->
    wf_iobitmaps (io_access_loop op n true address bm) /\
    forall p, 0 <= p < 65536 ->
      trap_bit (io_access_loop op n true address bm) p =
      if (32768 <=? p) && ((p - address) mod 32768 <? Z.of_nat n)
      then v else trap_bit bm p.
Proof.
  intros Hfr Hv. induction n as [|n IH]; intros address bm Hwf Ha Hn.
  - split; [exact Hwf|]. intros p Hp. simpl.
    assert (0 <= (p - address) mod 32768) by (apply Z.mod_pos_bound; lia).
    solve_range.
  - cbn [io_access_loop].
    replace (if Z.land address 32768 =? 0 then true else true) with true
      by (destruct (Z.land address 32768 =? 0); reflexivity).
    rewrite bitmap_update_high_page by exact Ha.
    assert (Hu : u32 (address + 1) = address + 1)
      by (unfold u32; apply Z.mod_small; lia).
    rewrite Hu.
    set (q := 32768 + address mod 32768).
    assert (Hq : 32768 <= q < 65536)
      by (subst q; Z.div_mod_to_equations; lia).
    destruct (IH (address + 1) (port_update op q bm)) as [Hwf' Hbits].
    + apply bitmap_update_wf, Hwf.
    + lia.
    + lia.
    + split; [exact Hwf'|]. intros p Hp. rewrite Hbits by exact Hp.
      destruct (Z.eq_dec p q) as [->|Hne].
      * rewrite (trap_bit_port_update_same op v) by (auto; lia).
        replace ((q - address) mod 32768) with 0
          by (subst q; Z.div_mod_to_equations; lia).
        solve_range.
      * rewrite trap_bit_port_update_other by (auto; lia).
        destruct (Z.leb_spec 32768 p) as [Hhi|Hlo]; [|reflexivity].
        cbn [andb].
        assert (Hm : (p - (address + 1)) mod 32768
                     = (p - address) mod 32768 - 1)
          by (subst q; Z.div_mod_to_equations; lia).
        rewrite Hm. solve_range.
Qed.

Lemma io_access_loop_enter_high_page op n address bm :
  32768 <= address < 65536 ->
  io_access_loop op n false address bm = io_access_loop op n true address bm.
Proof.
  intros Ha. destruct n as [|n]; [reflexivity|]. cbn [io_access_loop].
  rewrite land_32768_zero by lia.
  replace (address <? 32768) with false by (symmetry; apply Z.ltb_ge; lia).
  reflexivity.
Qed.

(** X6. A range that starts in the upper half of the port space never
    leaves the second page: deny and allow touch exactly the ports
    [0x8000 + ((base + i) & 0x7fff)] for [i < len]. A range running past
    port 0xFFFF therefore goes on at port 0x8000, and no port below 0x8000
    is touched, however long the range. *)
Theorem io_access_upper_half_stays bm base len p :
  wf_iobitmaps bm -> 32768 <= base < 65536 ->
  0 <= len -> base + len < 4294967296 ->
  0 <= p < 65536 ->
  trap_bit (deny_guest_io_access bm base len) p
    = (if (32768 <=? p) && ((p - base) mod 32768 <? len)
       then true else trap_bit bm p) /\
  trap_bit (allow_guest_io_access bm base len) p
    = (if (32768 <=? p) && ((p - base) mod 32768 <? len)
       then false else trap_bit bm p).
Proof.
  intros Hwf Hb Hl Hin Hp. unfold deny_guest_io_access, allow_guest_io_access.
  rewrite !io_access_loop_enter_high_page by exact Hb.
  destruct (io_access_loop_high_page set_bit32 true set_bit32_frame
              set_bit32_forced (Z.to_nat len) base bm) as [_ Hd];
    try (exact Hwf || lia).
  destruct (io_access_loop_high_page clear_bit32 false clear_bit32_frame
              clear_bit32_forced (Z.to_nat len) base bm) as [_ Ha];
    try (exact Hwf || lia).
  rewrite Z2Nat.id in Hd, Ha by lia. auto.
Qed.

Lemma io_access_upper_half_stays_witness :
  trap_bit (deny_guest_io_access (iobitmaps_all 0) 65535 2) 32768 = true /\
  trap_bit (deny_guest_io_access (iobitmaps_all 0) 65535 2) 0 = false.
Proof.
  split.
  - apply (proj1 (io_access_upper_half_stays (iobitmaps_all 0) 65535 2 32768
                    ltac:(split; reflexivity) ltac:(lia) ltac:(lia)
                    ltac:(lia) ltac:(lia))).
  - apply (proj1 (io_access_upper_half_stays (iobitmaps_all 0) 65535 2 0
                    ltac:(split; reflexivity) ltac:(lia) ltac:(lia)
                    ltac:(lia) ltac:(lia))).
Defined.

(** *** Dispatch to the registered handlers *)

Section DispatchMore.

Context {dev : Type}.
Implicit Types (h handler : vm_io_handler dev) (n node : mem_io_node dev).
Implicit Types (w : world dev) (m : vm dev).

Lemma hv_emulate_pio_loop_outcome (handlers : list (vm_io_handler dev))
    port size mask io_req w :
  exists status io_req' w',
    hv_emulate_pio_loop handlers port size mask io_req w
    = (status, io_req', w') /\
    ((status = 0 /\
      exists h, h ∈ handlers /\
        match ior_direction io_req with
        | REQUEST_WRITE =>
            let val := Z.land (pio_value io_req) mask in
            io_req' = io_req /\
            devs w' = desc_io_write h (devs w) port size val /\
            calls w' = calls w ++ [CallIoWrite h port size val]
        | REQUEST_READ =>
            let r := desc_io_read h (devs w) port size in
            io_req' = set_pio_value io_req r.1 /\
            devs w' = r.2 /\
            calls w' = calls w ++ [CallIoRead h port size]
        end) \/
     (status = - EIO /\ io_req' = io_req /\
      devs w' = devs w /\ calls w' = calls w) \/
     (status = - ENODEV /\ io_req' = io_req /\ w' = w)).
Proof.
  induction handlers as [|h next IH]; cbn [hv_emulate_pio_loop].
  - eexists _, _, _. split; [reflexivity|]. right. right. auto.
  - destruct ((port >=? handler_end h) || (port + size <=? handler_base h)).
    + destruct IH as (st & r & w' & Heq & Hcases).
      exists st, r, w'. split; [exact Heq|].
      destruct Hcases as [(Hst & h' & Hin & Hd)|Hrest]; [|auto].
      left. split; [exact Hst|]. exists h'. split; [|exact Hd].
      apply elem_of_cons. auto.
    + destruct (negb ((port >=? handler_base h)
                      && (port + size <=? handler_end h))).
      * eexists _, _, _. split; [reflexivity|]. right. left. auto.
      * destruct (ior_direction io_req) eqn:Hdir.
        -- destruct (desc_io_read h (devs w) port size) as [val d] eqn:Hr.
           eexists _, _, _. split; [reflexivity|]. left.
           split; [reflexivity|]. exists h.
           split; [apply elem_of_cons; auto|].
           rewrite Hr. cbn. auto.
        -- eexists _, _, _. split; [reflexivity|]. left.
           split; [reflexivity|]. exists h.
           split; [apply elem_of_cons; auto|]. cbn. auto.
Qed.

(** X7. Every run of hv_emulate_pio on a request of size 1 to 4 ends in
    one of three ways. With status 0, exactly one callback of one registered
    handler has been called: the write callback with the low [8 * size]
    bits of the request's value, the request left as it was, or the read
    callback, whose result becomes the low 32 bits of the request's value.
    With -EIO nothing but the log has changed. With -ENODEV nothing at all
    has changed. No other status is returned and never more than one
    callback is called. *)
Theorem hv_emulate_pio_outcome m io_req w :
  let port := u16 (ior_address io_req) in
  let size := u16 (ior_size io_req) in
  1 <= size <= 4 ->
  exists status io_req' w',
    hv_emulate_pio m io_req w = (status, io_req', w') /\
    ((status = 0 /\
      exists h, h ∈ io_handler m /\
        match ior_direction io_req with
        | REQUEST_WRITE =>
            let val := pio_value io_req mod 2 ^ (8 * size) in
            io_req' = io_req /\
            devs w' = desc_io_write h (devs w) port size val /\
            calls w' = calls w ++ [CallIoWrite h port size val]
        | REQUEST_READ =>
            let r := desc_io_read h (devs w) port size in
            io_req' = set_pio_value io_req r.1 /\
            devs w' = r.2 /\
            calls w' = calls w ++ [CallIoRead h port size]
        end) \/
     (status = - EIO /\ io_req' = io_req /\
      devs w' = devs w /\ calls w' = calls w) \/
     (status = - ENODEV /\ io_req' = io_req /\ w' = w)).
Proof.
  intros port size Hsize.
  rewrite <- (Z.land_ones (pio_value io_req) (8 * size)) by lia.
  rewrite <- (pio_mask_ones size Hsize).
  apply hv_emulate_pio_loop_outcome.
Qed.

Lemma contained_not_disjoint lo hi a b :
  a < b -> range_contains lo hi a b = true -> ranges_disjoint lo hi a b = false.
Proof.
  unfold range_contains, ranges_disjoint. intros Hab Hc.
  apply andb_true_iff in Hc. destruct Hc as [H1 H2].
  apply Z.leb_le in H1, H2. apply orb_false_iff.
  split; apply Z.leb_gt; lia.
Qed.

(** X8. The first handler in list order that is not disjoint from the
    request, if it contains the request, is the one that serves it, and the
    only one called, whatever handlers come after it: a write hands it the
    low [8 * size] bits of the value, a read stores what it returns. (Sizes
    1 to 4; handlers with both bounds representable in 16 bits.) *)
Theorem hv_emulate_pio_first_containing m io_req w
    (before after : list (vm_io_handler dev)) h :
  let port := u16 (ior_address io_req) in
  let size := u16 (ior_size io_req) in
  1 <= size <= 4 ->
  io_handler m = before ++ h :: after ->
  Forall (fun h' => handler_nowrap h' /\
            ranges_disjoint (desc_addr h') (desc_addr h' + desc_len h')
              port (port + size) = true) before ->
  handler_nowrap h ->
  range_contains (desc_addr h) (desc_addr h + desc_len h)
    port (port + size) = true ->
  hv_emulate_pio m io_req w
  = match ior_direction io_req with
    | REQUEST_WRITE =>
        let val := pio_value io_req mod 2 ^ (8 * size) in
        (0, io_req,
         do_log LOG_DBG "IO write on port %04x, data %08x"
           [ArgZ port; ArgZ val]
           (do_call (CallIoWrite h port size val)
              (set_devs (desc_io_write h (devs w) port size val) w)))
    | REQUEST_READ =>
        let r := desc_io_read h (devs w) port size in
        (0, set_pio_value io_req r.1,
         do_log LOG_DBG "IO read on port %04x, data %08x"
           [ArgZ port; ArgZ (pio_value (set_pio_value io_req r.1))]
           (do_call (CallIoRead h port size) (set_devs r.2 w)))
    end.
Proof.
  intros port size Hsize Hlist Hbefore Hnw Hin.
  unfold hv_emulate_pio. rewrite Hlist. fold port size.
  rewrite hv_emulate_pio_loop_disjoint_prefix by exact Hbefore.
  rewrite hv_emulate_pio_loop_trichotomy by exact Hnw. cbv zeta.
  assert (Hlt : port < port + size) by lia.
  rewrite (contained_not_disjoint _ _ _ _ Hlt Hin), Hin.
  rewrite pio_mask_ones by exact Hsize.
  rewrite Z.land_ones by lia. reflexivity.
Qed.

(** X9. The first MMIO node in list order that is not disjoint from the
    request, if it contains the request, is the one whose callback is
    called, once: the status and the request it gives back are returned as
    they are. (Requests of at least one byte whose end does not wrap in 64
    bits.) *)
Theorem hv_emulate_mmio_first_containing m io_req w
    (before after : list (mem_io_node dev)) n :
  let address := ior_address io_req in
  let size := ior_size io_req in
  1 <= size -> 0 <= address + size < 18446744073709551616 ->
  mmio_list m = before ++ n :: after ->
  Forall (fun n' => ranges_disjoint (range_start n') (range_end n')
            address (address + size) = true) before ->
  range_contains (range_start n) (range_end n)
    address (address + size) = true ->
  hv_emulate_mmio m io_req w
  = let r := read_write n (devs w) io_req (handler_private_data n) in
    (r.1.1, r.1.2,
     do_call (CallMmioReadWrite n io_req) (set_devs r.2 w)).
Proof.
  intros address size Hsize Hsum Hlist Hbefore Hin.
  unfold hv_emulate_mmio. rewrite Hlist. fold address size.
  rewrite hv_emulate_mmio_loop_disjoint_prefix by assumption.
  cbn [hv_emulate_mmio_loop]. unfold u64. rewrite Z.mod_small by exact Hsum.
  assert (Hlt : address < address + size) by lia.
  pose proof (contained_not_disjoint _ _ _ _ Hlt Hin) as Hnd.
  unfold ranges_disjoint in Hnd. unfold range_contains in Hin.
  rewrite !Z.geb_leb, Hnd, Hin. cbn [negb].
  destruct (read_write n (devs w) io_req (handler_private_data n))
    as [[st r] d]. reflexivity.
Qed.

End DispatchMore.

Lemma hv_emulate_pio_outcome_witness :
  let m := sample_vm 1 [sample_handler 112 16; sample_handler 96 4] [] [] [] in
  let io_req := sample_request REQ_PORTIO REQUEST_WRITE 98 2 305419896 in
  exists status io_req' w',
    hv_emulate_pio m io_req sample_world = (status, io_req', w') /\
    (status = 0 \/ status = - EIO \/ status = - ENODEV).
Proof.
  intros m io_req.
  destruct (hv_emulate_pio_outcome m io_req sample_world)
    as (status & io_req' & w' & Hrun & Hcases).
  - change (1 <= 2 <= 4). lia.
  - exists status, io_req', w'. split; [exact Hrun|].
    destruct Hcases as [[Hst _]|[[Hst _]|[Hst _]]]; auto.
Defined.

Lemma hv_emulate_pio_first_containing_witness :
  hv_emulate_pio
    (sample_vm 1 [sample_handler 112 16; sample_handler 96 4;
                  sample_handler 96 32] [] [] [])
    (sample_request REQ_PORTIO REQUEST_WRITE 98 2 305419896) sample_world
  = (0, sample_request REQ_PORTIO REQUEST_WRITE 98 2 305419896,
     do_log LOG_DBG "IO write on port %04x, data %08x"
       [ArgZ 98; ArgZ 22136]
       (do_call (CallIoWrite (sample_handler 96 4) 98 2 22136)
          (set_devs [22136] sample_world))).
Proof.
  refine (@hv_emulate_pio_first_containing (list Z)
            (sample_vm 1 [sample_handler 112 16; sample_handler 96 4;
                          sample_handler 96 32] [] [] [])
            (sample_request REQ_PORTIO REQUEST_WRITE 98 2 305419896)
            sample_world [sample_handler 112 16] [sample_handler 96 32]
            (sample_handler 96 4) _ eq_refl _ _ eq_refl).
  - change (1 <= 2 <= 4). lia.
  - repeat constructor; simpl; lia.
  - repeat split; simpl; lia.
Defined.

Lemma hv_emulate_mmio_first_containing_witness :
  hv_emulate_mmio
    (sample_vm 1 [] [sample_node 0 4096; sample_node 4096 8192] [] [])
    (sample_request REQ_MMIO REQUEST_READ 6144 4 0) sample_world
  = (0, sample_request REQ_MMIO REQUEST_READ 6144 4 0,
     do_call (CallMmioReadWrite (sample_node 4096 8192)
                (sample_request REQ_MMIO REQUEST_READ 6144 4 0))
       (set_devs [7] sample_world)).
Proof.
  refine (@hv_emulate_mmio_first_containing (list Z)
            (sample_vm 1 [] [sample_node 0 4096; sample_node 4096 8192] [] [])
            (sample_request REQ_MMIO REQUEST_READ 6144 4 0) sample_world
            [sample_node 0 4096] [] (sample_node 4096 8192)
            _ _ eq_refl _ eq_refl).
  - change (1 <= 4). lia.
  - change (0 <= 6144 + 4 < 18446744073709551616). lia.
  - repeat constructor.
Defined.

(** *** From the VM exit to the handler and back *)

Section FlowMore.

Context {dev : Type}.
Implicit Types (h : vm_io_handler dev) (w : world dev) (m : vm dev).

Context (insert : vcpu -> io_request -> vm dev -> dev -> Z * vm dev * dev).

Lemma handoffs_do_call_handoff id io_req w :
  handoffs (do_call (CallInsertRequestWait id io_req) w)
  = handoffs w ++ [CallInsertRequestWait id io_req].
Proof.
  unfold handoffs, do_call. cbn [calls]. rewrite List.filter_app. reflexivity.
Qed.

(** X10. emulate_io hands a request to the device model exactly when the
    build is not the partition one and the routing by kind ends with the
    not-found code, and then once, with the request as routing left it. In
    the partition build it never returns the not-found code and leaves the
    machine as it is; in the other build a not-found request comes back as
    IOREQ_PENDING when the hand-off succeeds and with the status of the
    hand-off when it fails. *)
Theorem emulate_io_handoff (partition : bool) (v : vcpu) m io_req w :
  let sw := emulate_io_switch m io_req w in
  let res := emulate_io insert partition v m io_req w in
  handoffs res.2
    = handoffs w ++
      (if negb partition && (sw.1.1 =? - ENODEV)
       then [CallInsertRequestWait (vcpu_id v) sw.1.2] else []) /\
  (partition = true -> res.1.1.1 <> - ENODEV /\ res.1.2 = m) /\
  (partition = false -> sw.1.1 = - ENODEV ->
   let st := (insert v sw.1.2 m (devs sw.2)).1.1 in
   res.1.1.1 = if st =? 0 then IOREQ_PENDING else st).
Proof.
  intros sw res. subst res sw. unfold emulate_io.
  pose proof (emulate_io_switch_handoffs m io_req w) as Hsw.
  destruct (emulate_io_switch m io_req w) as [[status io_req1] w1].
  cbn [fst snd] in *.
  destruct (status =? - ENODEV) eqn:Hst.
  - destruct partition.
    + cbn [fst snd negb andb]. rewrite app_nil_r.
      split; [exact Hsw|]. split; [|discriminate].
      intros _. split; [discriminate|reflexivity].
    + cbn [negb andb].
      destruct (insert v io_req1 m
                  (devs (do_call (CallInsertRequestWait (vcpu_id v) io_req1) w1)))
        as [[st m'] d] eqn:Hins.
      cbn [devs do_call] in Hins.
      split; [|split; [discriminate|]].
      * destruct (negb (st =? 0)); cbn [fst snd];
          rewrite ?handoffs_do_log, handoffs_set_devs,
            handoffs_do_call_handoff, Hsw; reflexivity.
      * intros _ _. rewrite Hins. cbn [fst snd].
        destruct (st =? 0); reflexivity.
  - cbn [fst snd]. rewrite andb_false_r, app_nil_r.
    split; [exact Hsw|]. split.
    + intros _. split; [|reflexivity]. apply Z.eqb_neq. exact Hst.
    + intros _ Heq. rewrite Heq in Hst. discriminate.
Qed.

(** The port routing keeps the access of a request. *)
Lemma hv_emulate_pio_same_access m io_req w :
  same_access io_req (hv_emulate_pio m io_req w).1.2.
Proof.
  destruct (hv_emulate_pio_loop_outcome (io_handler m)
              (u16 (ior_address io_req)) (u16 (ior_size io_req))
              (pio_mask (u16 (ior_size io_req))) io_req w)
    as (st & r & w' & Heq & Hcases).
  unfold hv_emulate_pio. rewrite Heq. cbn [fst snd].
  destruct Hcases as [(_ & h & _ & Hd)|[(_ & -> & _)|(_ & -> & _)]];
    try (repeat split; reflexivity).
  destruct (ior_direction io_req) eqn:Hdir.
  - destruct Hd as (-> & _). repeat split.
  - destruct Hd as (-> & _). repeat split.
Qed.

Lemma emulate_io_portio_same_access (partition : bool) (v : vcpu) m io_req w :
  ior_type io_req = REQ_PORTIO ->
  same_access io_req (emulate_io insert partition v m io_req w).1.1.2.
Proof.
  intros Ht. pose proof (hv_emulate_pio_same_access m io_req w) as Hsa.
  unfold emulate_io, emulate_io_switch. rewrite Ht.
  destruct (hv_emulate_pio m io_req w) as [[st r] w1]. cbn [fst snd] in Hsa.
  destruct (st =? - ENODEV); [|exact Hsa].
  destruct partition.
  - cbn [fst snd]. destruct Hsa as (H1 & H2 & H3 & H4).
    unfold io_instr_dest_handler.
    destruct (ior_direction r) eqn:Hd; repeat split; cbn; congruence.
  - destruct (insert v r m _) as [[st' m'] d].
    destruct (negb (st' =? 0)); exact Hsa.
Qed.

Lemma pio_instr_vmexit_handler_unfold (partition : bool) (v : vcpu) m w :
  pio_instr_vmexit_handler insert partition v m w
  = let io_req := exit_request v in
    let w := do_log LOG_TRACE "TRACE_VMEXIT_IO_INSTRUCTION"
               [ArgZ (u32 (ior_address io_req));
                ArgZ match ior_direction io_req with
                     | REQUEST_READ => 0 | REQUEST_WRITE => 1 end;
                ArgZ (u32 (ior_size io_req)); ArgZ (u32 (cur_context v))] w in
    let '(status, io_req, m, w) :=
      emulate_io insert partition (set_req v io_req) m io_req w in
    let v := set_req v io_req in
    if status =? 0
    then (status, emulate_pio_post v io_req, m, w)
    else if status =? IOREQ_PENDING
    then (0, v, m, w)
    else (status, v, m, w).
Proof.
  unfold pio_instr_vmexit_handler, exit_request, exit_is_in, exit_port,
    exit_size.
  destruct (VM_EXIT_IO_INSTRUCTION_ACCESS_DIRECTION (exit_qualification v) =? 0);
    reflexivity.
Qed.

Lemma exit_request_access (v : vcpu) :
  ior_type (exit_request v) = REQ_PORTIO /\
  ior_direction (exit_request v)
    = (if exit_is_in v then REQUEST_READ else REQUEST_WRITE) /\
  ior_address (exit_request v) = exit_port v /\
  ior_size (exit_request v) = exit_size v.
Proof. unfold exit_request. destruct (exit_is_in v); repeat split. Qed.

Lemma exit_port_range (v : vcpu) : 0 <= exit_port v < 65536.
Proof.
  unfold exit_port, VM_EXIT_IO_INSTRUCTION_PORT_NUMBER.
  change 65535 with (Z.ones 16). rewrite Z.land_ones by lia.
  apply Z.mod_pos_bound. lia.
Qed.

Lemma exit_size_range (v : vcpu) : 1 <= exit_size v <= 8.
Proof.
  unfold exit_size, VM_EXIT_IO_INSTRUCTION_SIZE.
  change 7 with (Z.ones 3). rewrite Z.land_ones by lia.
  pose proof (Z.mod_pos_bound (exit_qualification v) (2 ^ 3) ltac:(lia)).
  change (2 ^ 3) with 8 in *. lia.
Qed.

(** X11. Whatever the machine and the build, pio_instr_vmexit_handler
    never returns IOREQ_PENDING (a request handed to the device model is
    reported as 0), leaves in [vcpu->req] a port request with the port
    (below 0x10000) and the size (1 to 8) of the exit qualification, keeps
    every register other than RAX, and for an OUT keeps RAX as well. *)
Theorem pio_instr_vmexit_handler_frame (partition : bool) (v : vcpu) m w :
  let res := pio_instr_vmexit_handler insert partition v m w in
  let v' := res.1.1.2 in
  res.1.1.1 <> IOREQ_PENDING /\
  (ior_type (req v') = REQ_PORTIO /\
   ior_address (req v') = exit_port v /\ 0 <= exit_port v < 65536 /\
   ior_size (req v') = exit_size v /\ 1 <= exit_size v <= 8) /\
  (forall r, r <> CPU_REG_RAX -> vcpu_get_gpreg v' r = vcpu_get_gpreg v r) /\
  (exit_is_in v = false ->
   vcpu_get_gpreg v' CPU_REG_RAX = vcpu_get_gpreg v CPU_REG_RAX).
Proof.
  intros res v'. subst v' res. rewrite pio_instr_vmexit_handler_unfold.
  cbv zeta.
  destruct (exit_request_access v) as (Ht & Hd & Ha & Hs).
  pose proof (emulate_io_portio_same_access partition
                (set_req v (exit_request v)) m (exit_request v)
                (do_log LOG_TRACE "TRACE_VMEXIT_IO_INSTRUCTION"
                   [ArgZ (u32 (ior_address (exit_request v)));
                    ArgZ match ior_direction (exit_request v) with
                         | REQUEST_READ => 0 | REQUEST_WRITE => 1 end;
                    ArgZ (u32 (ior_size (exit_request v)));
                    ArgZ (u32 (cur_context v))] w) Ht) as Hsa.
  destruct (emulate_io insert partition _ m (exit_request v) _)
    as [[[st r] m'] w']. cbn [fst snd] in Hsa.
  destruct Hsa as (Ht' & Hd' & Ha' & Hs').
  assert (Hreq : forall x : vcpu, req x = r ->
            ior_type (req x) = REQ_PORTIO /\
            ior_address (req x) = exit_port v /\ 0 <= exit_port v < 65536 /\
            ior_size (req x) = exit_size v /\ 1 <= exit_size v <= 8).
  { intros x ->. pose proof (exit_port_range v). pose proof (exit_size_range v).
    repeat split; try congruence; lia. }
  destruct (Z.eqb_spec st 0) as [->|Hne0]; cbn [fst snd].
  - split; [discriminate|]. split; [|split].
    + apply Hreq. unfold emulate_pio_post.
      destruct (ior_direction r); reflexivity.
    + intros x Hx. rewrite emulate_pio_post_other_regs by exact Hx.
      reflexivity.
    + intros Hout. unfold emulate_pio_post.
      rewrite Hd', Hd, Hout. reflexivity.
  - destruct (Z.eqb_spec st IOREQ_PENDING) as [->|Hne1]; cbn [fst snd].
    + split; [discriminate|]. split; [apply Hreq; reflexivity|].
      split; reflexivity.
    + split; [exact Hne1|]. split; [apply Hreq; reflexivity|].
      split; reflexivity.
Qed.

Lemma u16_exit_port (v : vcpu) : u16 (exit_port v) = exit_port v.
Proof. apply Z.mod_small, exit_port_range. Qed.

Lemma u16_exit_size (v : vcpu) : u16 (exit_size v) = exit_size v.
Proof. apply Z.mod_small. pose proof (exit_size_range v). lia. Qed.

Lemma mod_u32_low x k :
  1 <= k <= 4 -> u32 x mod 2 ^ (8 * k) = x mod 2 ^ (8 * k).
Proof.
  intros Hk. unfold u32.
  assert (Hs : k = 1 \/ k = 2 \/ k = 3 \/ k = 4) by lia.
  destruct Hs as [-> | [-> | [-> | ->]]]; cbn; Z.div_mod_to_equations; lia.
Qed.

(** emulate_io on a port request whose first non-disjoint handler contains
    it: the status is 0 and there is no hand-off, in either build. *)
Lemma emulate_io_portio_served (partition : bool) (v0 : vcpu) m io_req w
    (before after : list (vm_io_handler dev)) h :
  let port := u16 (ior_address io_req) in
  let size := u16 (ior_size io_req) in
  ior_type io_req = REQ_PORTIO ->
  1 <= size <= 4 ->
  io_handler m = before ++ h :: after ->
  Forall (fun h' => handler_nowrap h' /\
            ranges_disjoint (desc_addr h') (desc_addr h' + desc_len h')
              port (port + size) = true) before ->
  handler_nowrap h ->
  range_contains (desc_addr h) (desc_addr h + desc_len h)
    port (port + size) = true ->
  emulate_io insert partition v0 m io_req w
  = match ior_direction io_req with
    | REQUEST_WRITE =>
        let val := pio_value io_req mod 2 ^ (8 * size) in
        (0, io_req, m,
         do_log LOG_DBG "IO write on port %04x, data %08x"
           [ArgZ port; ArgZ val]
           (do_call (CallIoWrite h port size val)
              (set_devs (desc_io_write h (devs w) port size val) w)))
    | REQUEST_READ =>
        let r := desc_io_read h (devs w) port size in
        (0, set_pio_value io_req r.1, m,
         do_log LOG_DBG "IO read on port %04x, data %08x"
           [ArgZ port; ArgZ (pio_value (set_pio_value io_req r.1))]
           (do_call (CallIoRead h port size) (set_devs r.2 w)))
    end.
Proof.
  intros port size Ht Hsize Hlist Hbefore Hnw Hin.
  unfold emulate_io, emulate_io_switch, hv_emulate_pio.
  rewrite Ht, Hlist. fold port size.
  rewrite hv_emulate_pio_loop_disjoint_prefix by exact Hbefore.
  rewrite hv_emulate_pio_loop_trichotomy by exact Hnw. cbv zeta.
  assert (Hlt : port < port + size) by lia.
  rewrite (contained_not_disjoint _ _ _ _ Hlt Hin), Hin.
  rewrite pio_mask_ones by exact Hsize.
  rewrite Z.land_ones by lia.
  destruct (ior_direction io_req); reflexivity.
Qed.

(** X12. An OUT to a port served by a registered handler calls the write
    callback of the first handler that contains the access, once, with the
    low [8 * size] bits of RAX as the value, returns 0 and changes no
    register, in either build. (Sizes 1 to 4; the handler that serves the
    access and the handlers before it have both bounds representable in 16
    bits, base + len <= 0xFFFF, and those before it are disjoint from the
    access.) *)
Theorem pio_out_reaches_write_callback (partition : bool) (v : vcpu) m w
    (before after : list (vm_io_handler dev)) h :
  let port := exit_port v in
  let size := exit_size v in
  let val := vcpu_get_gpreg v CPU_REG_RAX mod 2 ^ (8 * size) in
  exit_is_in v = false -> size <= 4 ->
  io_handler m = before ++ h :: after ->
  Forall (fun h' => handler_nowrap h' /\
            ranges_disjoint (desc_addr h') (desc_addr h' + desc_len h')
              port (port + size) = true) before ->
  handler_nowrap h ->
  range_contains (desc_addr h) (desc_addr h + desc_len h)
    port (port + size) = true ->
  exists w',
    pio_instr_vmexit_handler insert partition v m w
    = (0, set_req v (exit_request v), m, w') /\
    calls w' = calls w ++ [CallIoWrite h port size val] /\
    devs w' = desc_io_write h (devs w) port size val.
Proof.
  intros port size val Hout Hsize Hlist Hbefore Hnw Hin.
  destruct (exit_request_access v) as (Ht & Hd & Ha & Hs).
  pose proof (exit_size_range v) as Hsr. fold size in Hsr.
  rewrite pio_instr_vmexit_handler_unfold. cbv zeta.
  rewrite (emulate_io_portio_served partition _ m (exit_request v) _
             before after h);
    rewrite ?Ha, ?Hs, ?u16_exit_port, ?u16_exit_size;
    try assumption; try (fold size; lia).
  rewrite Hd, Hout. cbv zeta. cbn [Z.eqb].
  assert (Hval : pio_value (exit_request v) mod 2 ^ (8 * exit_size v) = val).
  { unfold exit_request. rewrite Hout.
    rewrite pio_value_set_pio_value
      by (unfold u32; apply Z.mod_pos_bound; lia).
    apply mod_u32_low. fold size. lia. }
  rewrite Hval. eexists. split; [|split].
  - unfold emulate_pio_post. rewrite Hd, Hout. reflexivity.
  - reflexivity.
  - reflexivity.
Qed.

(** X13. An IN from a port served by a registered handler calls the read
    callback of the first handler that contains the access, once, returns
    0, and puts the low [8 * size] bits of what the callback returned into
    the low bits of RAX; the other bits of RAX and the other registers are
    kept, in either build. (Sizes 1 to 4; the handler that serves the
    access and the handlers before it have both bounds representable in 16
    bits, base + len <= 0xFFFF, and those before it are disjoint from the
    access.) *)
Theorem pio_in_reads_callback_value (partition : bool) (v : vcpu) m w
    (before after : list (vm_io_handler dev)) h :
  let port := exit_port v in
  let size := exit_size v in
  let r := desc_io_read h (devs w) port size in
  exit_is_in v = true -> size <= 4 ->
  0 <= vcpu_get_gpreg v CPU_REG_RAX < 18446744073709551616 ->
  io_handler m = before ++ h :: after ->
  Forall (fun h' => handler_nowrap h' /\
            ranges_disjoint (desc_addr h') (desc_addr h' + desc_len h')
              port (port + size) = true) before ->
  handler_nowrap h ->
  range_contains (desc_addr h) (desc_addr h + desc_len h)
    port (port + size) = true ->
  exists v' w',
    pio_instr_vmexit_handler insert partition v m w = (0, v', m, w') /\
    calls w' = calls w ++ [CallIoRead h port size] /\
    devs w' = r.2 /\
    (forall i, 0 <= i ->
       Z.testbit (vcpu_get_gpreg v' CPU_REG_RAX) i
       = if i <? 8 * size then Z.testbit r.1 i
         else Z.testbit (vcpu_get_gpreg v CPU_REG_RAX) i) /\
    (forall x, x <> CPU_REG_RAX -> vcpu_get_gpreg v' x = vcpu_get_gpreg v x).
Proof.
  intros port size r Hin_ Hsize Hrax Hlist Hbefore Hnw Hin.
  destruct (exit_request_access v) as (Ht & Hd & Ha & Hs).
  pose proof (exit_size_range v) as Hsr. fold size in Hsr.
  rewrite pio_instr_vmexit_handler_unfold. cbv zeta.
  rewrite (emulate_io_portio_served partition _ m (exit_request v) _
             before after h);
    rewrite ?Ha, ?Hs, ?u16_exit_port, ?u16_exit_size;
    try assumption; try (fold size; lia).
  rewrite Hd, Hin_. cbv zeta. cbn [Z.eqb]. fold port size r.
  eexists _, _. split; [reflexivity|].
  split; [reflexivity|]. split; [reflexivity|]. split.
  - intros i Hi.
    rewrite emulate_pio_post_read_bits;
      cbn [ior_direction ior_size set_pio_value req set_req vcpu_get_gpreg
           gpregs]; rewrite ?Hd, ?Hin_, ?Hs; try (fold size; lia);
      try reflexivity; try exact Hrax; try exact Hi.
    fold size. destruct (Z.ltb_spec i (8 * size)) as [Hlt|]; [|reflexivity].
    rewrite pio_value_set_pio_value_u32.
    unfold u32. change 4294967296 with (2 ^ 32).
    apply Z.mod_pow2_bits_low. lia.
  - intros x Hx. rewrite emulate_pio_post_other_regs by exact Hx. reflexivity.
Qed.

(** The scan passes over every handler whose range the access is disjoint
    from, whether or not the end of the range fits in 16 bits. *)
Lemma hv_emulate_pio_loop_all_disjoint (handlers : list (vm_io_handler dev))
    port size mask io_req w :
  0 <= port < 65536 ->
  Forall (fun h' => handler_in_port_space h' /\
            ranges_disjoint (desc_addr h') (desc_addr h' + desc_len h')
              port (port + size) = true) handlers ->
  hv_emulate_pio_loop handlers port size mask io_req w
  = (- ENODEV, io_req, w).
Proof.
  intros Hport. induction 1 as [|h next [[Ha Hl] Hdis] _ IH]; [reflexivity|].
  rewrite hv_emulate_pio_loop_skip; [exact IH|].
  assert (Hbase : handler_base h = desc_addr h)
    by (apply Z.mod_small; exact Ha).
  unfold ranges_disjoint in Hdis. apply orb_true_iff in Hdis.
  apply orb_true_iff. destruct Hdis as [Hlow|Hhigh].
  - right. rewrite Hbase. exact Hlow.
  - left. apply Z.leb_le in Hhigh. rewrite Z.geb_leb. apply Z.leb_le.
    unfold handler_end. rewrite Hbase. unfold u16.
    rewrite (Z.mod_small (desc_len h)) by lia.
    rewrite Z.mod_small by lia. exact Hhigh.
Qed.

(** X14. In the partition build, an IN from a port that every registered
    handler is disjoint from calls nothing, returns 0 and reads all ones:
    the low [8 * size] bits of RAX are set and its other bits, like the
    other registers, are kept. (Sizes 1 to 4; handlers whose base is a
    16-bit port number, their ranges [base, base + len) reaching beyond
    0xFFFF or not.) *)
Theorem pio_in_partition_unclaimed_port (v : vcpu) m w :
  let port := exit_port v in
  let size := exit_size v in
  exit_is_in v = true -> size <= 4 ->
  0 <= vcpu_get_gpreg v CPU_REG_RAX < 18446744073709551616 ->
  Forall (fun h' => handler_in_port_space h' /\
            ranges_disjoint (desc_addr h') (desc_addr h' + desc_len h')
              port (port + size) = true) (io_handler m) ->
  exists v' w',
    pio_instr_vmexit_handler insert true v m w = (0, v', m, w') /\
    calls w' = calls w /\ devs w' = devs w /\
    (forall i, 0 <= i ->
       Z.testbit (vcpu_get_gpreg v' CPU_REG_RAX) i
       = if i <? 8 * size then true
         else Z.testbit (vcpu_get_gpreg v CPU_REG_RAX) i) /\
    (forall x, x <> CPU_REG_RAX -> vcpu_get_gpreg v' x = vcpu_get_gpreg v x).
Proof.
  intros port size Hin_ Hsize Hrax Hall.
  destruct (exit_request_access v) as (Ht & Hd & Ha & Hs).
  pose proof (exit_size_range v) as Hsr. fold size in Hsr.
  rewrite pio_instr_vmexit_handler_unfold. cbv zeta.
  unfold emulate_io, emulate_io_switch, hv_emulate_pio.
  rewrite Ht, Ha, Hs, u16_exit_port, u16_exit_size. fold port size.
  rewrite hv_emulate_pio_loop_all_disjoint
    by (try exact Hall; apply exit_port_range).
  cbn [Z.eqb Z.opp ENODEV Pos.eqb].
  eexists _, _. split; [reflexivity|].
  split; [reflexivity|]. split; [reflexivity|].
  assert (Hdir : ior_direction (io_instr_dest_handler (exit_request v))
                 = REQUEST_READ)
    by (unfold io_instr_dest_handler; rewrite Hd, Hin_; cbn;
        rewrite Hd, Hin_; reflexivity).
  assert (Hsz : ior_size (io_instr_dest_handler (exit_request v)) = size)
    by (unfold io_instr_dest_handler; rewrite Hd, Hin_; exact Hs).
  split.
  - intros i Hi.
    rewrite emulate_pio_post_read_bits;
      rewrite ?Hsz; try assumption; try lia.
    destruct (Z.ltb_spec i (8 * size)) as [Hlt|]; [|reflexivity].
    unfold io_instr_dest_handler. rewrite Hd, Hin_.
    replace (pio_value _) with 4294967295.
    + apply testbit_ones32. lia.
    + symmetry. apply (pio_value_set_pio_value _ 4294967295). lia.
  - intros x Hx. rewrite emulate_pio_post_other_regs by exact Hx. reflexivity.
Qed.

End FlowMore.

(** *** Completion, continued *)

Section CompletionMore.

Context {dev : Type}.
Implicit Types (w : world dev) (m : vm dev).

Lemma set_slot_frame m id s :
  length (io_shared_page (set_slot m id s)) = length (io_shared_page m) /\
  (forall j, j <> Z.to_nat id ->
     io_shared_page (set_slot m id s) !! j = io_shared_page m !! j) /\
  io_handler (set_slot m id s) = io_handler m /\
  mmio_list (set_slot m id s) = mmio_list m /\
  iobitmap (set_slot m id s) = iobitmap m.
Proof.
  unfold set_slot, set_io_shared_page.
  cbn [io_shared_page io_handler mmio_list iobitmap].
  split; [apply length_insert|]. split; [|auto].
  intros j Hj. apply list_lookup_insert_ne. congruence.
Qed.

(** X15. emulate_io_post writes no slot of the shared page other than the
    one of its virtual core: the page keeps its length and every other
    slot, and the handler lists and the port bitmaps of the machine are
    untouched. *)
Theorem emulate_io_post_other_slots (v v' : vcpu) m m' w w' :
  emulate_io_post v m w = Some (v', m', w') ->
  length (io_shared_page m') = length (io_shared_page m) /\
  (forall j, j <> Z.to_nat (vcpu_id v) ->
     io_shared_page m' !! j = io_shared_page m !! j) /\
  io_handler m' = io_handler m /\
  mmio_list m' = mmio_list m /\
  iobitmap m' = iobitmap m.
Proof.
  unfold emulate_io_post.
  destruct (io_shared_page m !! Z.to_nat (vcpu_id v)) as [vhm_req|] eqn:Hslot;
    [|discriminate].
  cbn [mbind option_bind].
  destruct ((vhm_valid vhm_req =? 0)
            || negb (req_state_eqb (vhm_processed vhm_req) REQ_STATE_COMPLETE)).
  { intros [= <- <- <-]. auto. }
  destruct (is_zombie (vcpu_state v)).
  { intros [= <- <- <-]. apply set_slot_frame. }
  destruct (ior_type (req v)).
  - unfold dm_emulate_pio_post. rewrite Hslot. cbn [mbind option_bind].
    intros [= <- <- <-]. apply set_slot_frame.
  - cbn. intros [= <- <- <-]. auto.
  - unfold dm_emulate_pio_post. rewrite Hslot. cbn [mbind option_bind].
    intros [= <- <- <-]. apply set_slot_frame.
  - cbn. intros [= <- <- <-]. apply set_slot_frame.
Qed.

Lemma emulate_io_post_consumed (v2 : vcpu) m w2 s :
  io_shared_page m !! Z.to_nat (vcpu_id v2) = Some (complete_ioreq s) ->
  emulate_io_post v2 m w2 = Some (v2, m, w2).
Proof.
  intros H. unfold emulate_io_post. rewrite H. reflexivity.
Qed.

Lemma emulate_pio_post_vcpu_id (v : vcpu) io_req :
  vcpu_id (emulate_pio_post v io_req) = vcpu_id v.
Proof. unfold emulate_pio_post. destruct (ior_direction io_req); reflexivity. Qed.

(** X16. A completed request is post-processed once. After a call of
    emulate_io_post that found the slot valid and COMPLETE, for a zombie
    core or a request that is not MMIO, a second call changes nothing and
    calls nothing: the core is not resumed twice. An MMIO request of a live
    core is different: emulate_io_post leaves its slot as it is, and a
    second call asks for the pre-work and resumes the core again. *)
Theorem emulate_io_post_twice (v v' : vcpu) m m' w w' (vhm_req : vhm_request) :
  io_shared_page m !! Z.to_nat (vcpu_id v) = Some vhm_req ->
  vhm_valid vhm_req <> 0 -> vhm_processed vhm_req = REQ_STATE_COMPLETE ->
  emulate_io_post v m w = Some (v', m', w') ->
  if is_zombie (vcpu_state v)
     || negb match ior_type (req v) with REQ_MMIO => true | _ => false end
  then emulate_io_post v' m' w' = Some (v', m', w')
  else
    m' = m /\
    emulate_io_post v' m' w'
    = Some (v', m',
            do_call (CallResumeVcpu (vcpu_id v))
              (do_call (CallRequestVcpuPreWork (vcpu_id v)
                          ACRN_VCPU_MMIO_COMPLETE) w')).
Proof.
  intros Hslot Hv Hp. unfold emulate_io_post at 1. rewrite Hslot.
  cbn [mbind option_bind]. apply Z.eqb_neq in Hv. rewrite Hv, Hp.
  cbn [req_state_eqb negb orb].
  destruct (is_zombie (vcpu_state v)) eqn:Hz.
  { intros [= <- <- <-]. cbn [orb].
    eapply emulate_io_post_consumed, set_slot_lookup, Hslot. }
  cbn [orb].
  destruct (ior_type (req v)) eqn:Ht; cbn [negb].
  - unfold dm_emulate_pio_post. rewrite Hslot. cbn [mbind option_bind].
    intros [= <- <- <-]. eapply emulate_io_post_consumed.
    rewrite emulate_pio_post_vcpu_id. cbn [vcpu_id set_req].
    eapply set_slot_lookup, Hslot.
  - cbn. intros [= <- <- <-]. split; [reflexivity|].
    unfold emulate_io_post. rewrite Hslot. cbn [mbind option_bind].
    rewrite Hv, Hp, Hz, Ht. reflexivity.
  - unfold dm_emulate_pio_post. rewrite Hslot. cbn [mbind option_bind].
    intros [= <- <- <-]. eapply emulate_io_post_consumed.
    rewrite emulate_pio_post_vcpu_id. cbn [vcpu_id set_req].
    eapply set_slot_lookup, Hslot.
  - cbn. intros [= <- <- <-].
    eapply emulate_io_post_consumed, set_slot_lookup, Hslot.
Qed.

Context (emulate_instruction : vcpu -> dev -> vcpu * dev).

(** X17. dm_emulate_mmio_post copies all 8 bytes of the slot's value into
    the request, consumes the slot, and runs the instruction emulator only
    for a read: for a write the registers and the outside state are as
    before. From then on emulate_io_post does nothing for that virtual
    core. *)
Theorem dm_emulate_mmio_post_consumes (v : vcpu) m w (vhm_req : vhm_request) :
  io_shared_page m !! Z.to_nat (vcpu_id v) = Some vhm_req ->
  let io_req := set_mmio_value (req v) (vhm_value vhm_req) in
  let m' := set_slot m (vcpu_id v) (complete_ioreq vhm_req) in
  dm_emulate_mmio_post emulate_instruction v m w
  = Some
      match ior_direction (req v) with
      | REQUEST_READ =>
          let r := emulate_instruction (set_req v io_req) (devs w) in
          (r.1, m', set_devs r.2 w)
      | REQUEST_WRITE => (set_req v io_req, m', w)
      end /\
  (exists s, io_shared_page m' !! Z.to_nat (vcpu_id v) = Some s /\
             vhm_valid s = 0 /\ vhm_processed s = REQ_STATE_FREE) /\
  (forall (v2 : vcpu) w2, vcpu_id v2 = vcpu_id v ->
     emulate_io_post v2 m' w2 = Some (v2, m', w2)).
Proof.
  intros Hslot io_req m'. split; [|split].
  - unfold dm_emulate_mmio_post, emulate_mmio_post. rewrite Hslot.
    cbn [mbind option_bind req set_req ior_direction set_mmio_value].
    destruct (ior_direction (req v)); [|reflexivity].
    destruct (emulate_instruction _ (devs w)). reflexivity.
  - exists (complete_ioreq vhm_req). split; [|split; reflexivity].
    eapply set_slot_lookup, Hslot.
  - intros v2 w2 Hid. eapply emulate_io_post_consumed. rewrite Hid.
    eapply set_slot_lookup, Hslot.
Qed.

End CompletionMore.

(** *** Registration and dispatch together *)

Section RegistryMore.

Context {dev : Type}.
Implicit Types (w : world dev) (m : vm dev).

Lemma register_io_handler_some m (h : vm_io_handler dev) :
  register_io_handler m (Some h) = Done (set_io_handler m (h :: io_handler m)).
Proof. unfold register_io_handler. destruct (io_handler m); reflexivity. Qed.


(** X19. The handler registered last is searched first: after a
    registration of a range with both bounds representable in 16 bits, an
    access of size 1 to 4 that the range contains is served by the new
    callbacks, whatever handlers the machine had before, also ones that
    cover the same ports. *)
Theorem register_io_emulation_handler_then_dispatch m m' range
    (rd : dev -> Z -> Z -> Z * dev) (wr : dev -> Z -> Z -> Z -> dev)
    w w' io_req w2 :
  let port := u16 (ior_address io_req) in
  let size := u16 (ior_size io_req) in
  let h := {| desc_addr := range_base range; desc_len := range_len range;
              desc_io_read := rd; desc_io_write := wr |} in
  register_io_emulation_handler true m range (Some rd) (Some wr) w
    = (Done m', w') ->
  0 <= range_base range -> 0 <= range_len range ->
  range_base range + range_len range <= 65535 ->
  1 <= size <= 4 ->
  range_contains (range_base range) (range_base range + range_len range)
    port (port + size) = true ->
  hv_emulate_pio m' io_req w2
  = match ior_direction io_req with
    | REQUEST_WRITE =>
        let val := pio_value io_req mod 2 ^ (8 * size) in
        (0, io_req,
         do_log LOG_DBG "IO write on port %04x, data %08x"
           [ArgZ port; ArgZ val]
           (do_call (CallIoWrite h port size val)
              (set_devs (wr (devs w2) port size val) w2)))
    | REQUEST_READ =>
        let r := rd (devs w2) port size in
        (0, set_pio_value io_req r.1,
         do_log LOG_DBG "IO read on port %04x, data %08x"
           [ArgZ port; ArgZ (pio_value (set_pio_value io_req r.1))]
           (do_call (CallIoRead h port size) (set_devs r.2 w2)))
    end.
Proof.
  intros port size h Hreg Hb Hl Hfit Hsize Hin.
  assert (Hlist : io_handler m' = h :: io_handler m).
  { revert Hreg. unfold register_io_emulation_handler, create_io_handler.
    rewrite register_io_handler_some. intros [= <- _].
    destruct (is_vm0 m); reflexivity. }
  assert (Hnw : handler_nowrap h) by (repeat split; cbn; lia).
  unfold hv_emulate_pio. rewrite Hlist. fold port size.
  rewrite hv_emulate_pio_loop_trichotomy by exact Hnw. cbv zeta.
  cbn [desc_addr desc_len desc_io_read desc_io_write h].
  assert (Hlt : port < port + size) by lia.
  rewrite (contained_not_disjoint _ _ _ _ Hlt Hin), Hin.
  rewrite pio_mask_ones by exact Hsize.
  rewrite Z.land_ones by lia. reflexivity.
Qed.

Lemma unregister_mmio_loop_no_match (l : list (mem_io_node dev)) start end_ :
  Forall (fun n => same_range start end_ n = false) l ->
  unregister_mmio_loop l start end_ = l.
Proof.
  induction 1 as [|n l Hn _ IH]; [reflexivity|].
  cbn [unregister_mmio_loop]. unfold same_range in Hn. rewrite Hn, IH.
  reflexivity.
Qed.

Lemma unregister_mmio_loop_first_match
    (before after : list (mem_io_node dev)) n start end_ :
  Forall (fun n' => same_range start end_ n' = false) before ->
  same_range start end_ n = true ->
  unregister_mmio_loop (before ++ n :: after) start end_ = before ++ after.
Proof.
  intros Hbefore Hn. induction Hbefore as [|n' l Hn' _ IH].
  - cbn [app unregister_mmio_loop]. unfold same_range in Hn. rewrite Hn.
    reflexivity.
  - cbn [app unregister_mmio_loop]. unfold same_range in Hn'.
    rewrite Hn', IH. reflexivity.
Qed.

(** X20. unregister_mmio_emulation_handler removes the first node, in list
    order, whose range is exactly [start, end), and only that one: the
    nodes before and after it stay, in their order, also a later node with
    the same range. With no such node the list is left as it is. Nothing
    else of the machine changes. *)
Theorem unregister_mmio_emulation_handler_first_match m start end_ :
  (Forall (fun n => same_range start end_ n = false) (mmio_list m) ->
   mmio_list (unregister_mmio_emulation_handler m start end_)
   = mmio_list m) /\
  (forall before after n,
     mmio_list m = before ++ n :: after ->
     Forall (fun n' => same_range start end_ n' = false) before ->
     same_range start end_ n = true ->
     mmio_list (unregister_mmio_emulation_handler m start end_)
     = before ++ after) /\
  io_handler (unregister_mmio_emulation_handler m start end_) = io_handler m /\
  iobitmap (unregister_mmio_emulation_handler m start end_) = iobitmap m /\
  io_shared_page (unregister_mmio_emulation_handler m start end_)
  = io_shared_page m.
Proof.
  unfold unregister_mmio_emulation_handler.
  cbn [mmio_list io_handler iobitmap io_shared_page set_mmio_list].
  split; [apply unregister_mmio_loop_no_match|].
  split; [|auto].
  intros before after n -> Hbefore Hn.
  apply unregister_mmio_loop_first_match; assumption.
Qed.

Section WithListAddMore.

Context (list_add : mem_io_node dev -> list (mem_io_node dev)
                    -> list (mem_io_node dev)).

Lemma register_mmio_emulation_handler_done calloc_ok m rw start end_ priv
    w m1 w1 :
  register_mmio_emulation_handler list_add calloc_ok m rw start end_ priv w
    = Done (0, m1, w1) ->
  exists f,
    rw = Some f /\ start < end_ /\
    mmio_list m1
    = list_add {| read_write := f; handler_private_data := priv;
                  range_start := start; range_end := end_ |} (mmio_list m) /\
    io_handler m1 = io_handler m /\ iobitmap m1 = iobitmap m /\
    io_shared_page m1 = io_shared_page m.
Proof.
  unfold register_mmio_emulation_handler.
  destruct (if created_vcpus m >? 0 then _ else _) as [[|]|];
    try discriminate.
  destruct rw as [f|]; [|discriminate].
  destruct (Z.gtb_spec end_ start) as [Hlt|]; [|discriminate].
  destruct calloc_ok; [|discriminate].
  intros [= <- _]. exists f.
  cbn [mmio_list io_handler iobitmap io_shared_page set_mmio_list].
  repeat split; try reflexivity. lia.
Qed.

(** X21. Registering an MMIO range and unregistering it again gives back
    the list of nodes the machine had, provided no node with exactly that
    range was registered before (and list_add only inserts the new node). *)
Theorem register_unregister_mmio calloc_ok m rw start end_ priv w m1 w1 :
  list_add_inserts list_add ->
  Forall (fun n => same_range start end_ n = false) (mmio_list m) ->
  register_mmio_emulation_handler list_add calloc_ok m rw start end_ priv w
    = Done (0, m1, w1) ->
  mmio_list (unregister_mmio_emulation_handler m1 start end_) = mmio_list m.
Proof.
  intros Hins Hfresh Hreg.
  destruct (register_mmio_emulation_handler_done _ _ _ _ _ _ _ _ _ Hreg)
    as (f & _ & _ & Hlist & _).
  destruct (Hins {| read_write := f; handler_private_data := priv;
                    range_start := start; range_end := end_ |} (mmio_list m))
    as (before & after & Hl & Hadd).
  unfold unregister_mmio_emulation_handler. cbn [mmio_list set_mmio_list].
  rewrite Hlist, Hadd, Hl. rewrite Hl in Hfresh.
  apply Forall_app in Hfresh. destruct Hfresh as [Hbefore _].
  apply unregister_mmio_loop_first_match; [exact Hbefore|].
  unfold same_range. cbn [range_start range_end]. rewrite !Z.eqb_refl.
  reflexivity.
Qed.

(** X22. After a successful registration of the MMIO range [start, end), a
    request of at least one byte inside the range that is disjoint from
    every range registered before reaches the new callback, once, with the
    private data given at registration, and its status and request are
    what dispatch returns (list_add only inserting the new node; the end of
    the request not wrapping in 64 bits). *)
Theorem register_mmio_then_dispatch calloc_ok m f start end_ priv w m1 w1
    io_req w2 :
  let address := ior_address io_req in
  let size := ior_size io_req in
  list_add_inserts list_add ->
  register_mmio_emulation_handler list_add calloc_ok m (Some f)
    start end_ priv w = Done (0, m1, w1) ->
  1 <= size -> 0 <= address + size < 18446744073709551616 ->
  Forall (fun n => ranges_disjoint (range_start n) (range_end n)
            address (address + size) = true) (mmio_list m) ->
  range_contains start end_ address (address + size) = true ->
  hv_emulate_mmio m1 io_req w2
  = let node := {| read_write := f; handler_private_data := priv;
                   range_start := start; range_end := end_ |} in
    let r := f (devs w2) io_req priv in
    (r.1.1, r.1.2, do_call (CallMmioReadWrite node io_req) (set_devs r.2 w2)).
Proof.
  intros address size Hins Hreg Hsize Hsum Hdis Hin.
  destruct (register_mmio_emulation_handler_done _ _ _ _ _ _ _ _ _ Hreg)
    as (f' & [= <-] & _ & Hlist & _).
  destruct (Hins {| read_write := f; handler_private_data := priv;
                    range_start := start; range_end := end_ |} (mmio_list m))
    as (before & after & Hl & Hadd).
  rewrite Hl in Hdis. apply Forall_app in Hdis. destruct Hdis as [Hbefore _].
  unfold hv_emulate_mmio. rewrite Hlist, Hadd. fold address size.
  rewrite hv_emulate_mmio_loop_disjoint_prefix by assumption.
  cbn [hv_emulate_mmio_loop range_start range_end read_write
       handler_private_data].
  unfold u64. rewrite Z.mod_small by exact Hsum.
  assert (Hlt : address < address + size) by lia.
  pose proof (contained_not_disjoint _ _ _ _ Hlt Hin) as Hnd.
  unfold ranges_disjoint in Hnd. unfold range_contains in Hin.
  rewrite !Z.geb_leb, Hnd, Hin. cbn [negb].
  destruct (f (devs w2) io_req priv) as [[st r] d]. reflexivity.
Qed.

End WithListAddMore.

End RegistryMore.

(** *** The remote call *)

Lemma clearbit_u64 mask j :
  0 <= mask < 18446744073709551616 ->
  0 <= Z.clearbit mask j < 18446744073709551616.
Proof.
  intros Hm.
  assert (H : Z.clearbit mask j = Z.clearbit mask j mod 2 ^ 64).
  { apply Z.bits_inj'. intros i Hi.
    destruct (Z.lt_ge_cases i 64) as [Hlt|Hge].
    - rewrite Z.mod_pow2_bits_low by lia. reflexivity.
    - rewrite Z.mod_pow2_bits_high by lia.
      rewrite Z.clearbit_eqb, (testbit_u64_high mask i) by lia. reflexivity. }
  rewrite H. apply Z.mod_pos_bound. lia.
Qed.

Lemma filter_length_le_sub (f g : nat -> bool) (l : list nat) :
  (forall y, g y = true -> f y = true) ->
  (length (List.filter g l) <= length (List.filter f l))%nat.
Proof.
  intros Hsub. induction l as [|y l IH]; simpl; [lia|].
  destruct (g y) eqn:Hg.
  - rewrite (Hsub y Hg). simpl. lia.
  - destruct (f y); simpl; lia.
Qed.

Lemma filter_length_lt_sub (f g : nat -> bool) (l : list nat) x :
  In x l -> f x = true -> g x = false ->
  (forall y, g y = true -> f y = true) ->
  (length (List.filter g l) < length (List.filter f l))%nat.
Proof.
  intros Hin Hf Hg Hsub. induction l as [|y l IH]; [destruct Hin|].
  simpl. destruct Hin as [->|Hin].
  - rewrite Hf, Hg. simpl.
    pose proof (filter_length_le_sub f g l Hsub). lia.
  - specialize (IH Hin). destruct (g y) eqn:Hgy.
    + rewrite (Hsub y Hgy). simpl. lia.
    + destruct (f y); simpl; lia.
Qed.

Lemma pending_count_clearbit mask j :
  0 <= j < 64 -> Z.testbit mask j = true ->
  (SmpCall.pending_count (Z.clearbit mask j) < SmpCall.pending_count mask)%nat.
Proof.
  intros Hj Hbit. unfold SmpCall.pending_count.
  apply (filter_length_lt_sub _ _ _ (Z.to_nat j)).
  - apply in_seq. lia.
  - rewrite Z2Nat.id by lia. exact Hbit.
  - rewrite Z2Nat.id by lia. apply Z.clearbit_eq.
  - intros y Hy. rewrite Z.clearbit_eqb in Hy.
    apply andb_true_iff in Hy. tauto.
Qed.

Lemma pending_count_bound mask : (SmpCall.pending_count mask <= 64)%nat.
Proof.
  unfold SmpCall.pending_count.
  etransitivity; [apply List.filter_length_le|]. rewrite length_seq. lia.
Qed.

Section SmpCallFacts.

Context (INVALID_BIT_INDEX : Z) (ffs64 : Z -> Z).
Context (Hffs : SmpCall.ffs64_contract INVALID_BIT_INDEX ffs64).

Lemma target_loop_spec f d :
  forall fuel mask st,
    0 <= mask < 18446744073709551616 ->
    (SmpCall.pending_count mask <= fuel)%nat ->
    exists st',
      SmpCall.target_loop INVALID_BIT_INDEX ffs64 fuel mask f d st = Some st' /\
      targets_done mask f d st st'.
Proof.
  destruct Hffs as (Hzero & HK & Hbit).
  induction fuel as [|fuel IH]; intros mask st Hm Hcount.
  - (* no fuel: the mask has no bit set, so it is 0 *)
    destruct (Z.eq_dec mask 0) as [->|Hne].
    + cbn [SmpCall.target_loop]. rewrite Hzero.
      unfold u16. rewrite Z.mod_small by lia. rewrite Z.eqb_refl.
      exists st. split; [reflexivity|].
      repeat split; try reflexivity.
      * intros i. rewrite Z.bits_0. cbn. apply eq_sym, andb_true_r.
      * intros c. rewrite Z.bits_0. reflexivity.
      * auto.
      * intros [H|[H _]]; [exact H|]. rewrite Z.bits_0 in H. discriminate.
    + destruct (Hbit mask ltac:(lia)) as [Hj Hset].
      pose proof (pending_count_clearbit mask (ffs64 mask) Hj Hset). lia.
  - destruct (Z.eq_dec mask 0) as [->|Hne].
    + cbn [SmpCall.target_loop]. rewrite Hzero.
      unfold u16. rewrite Z.mod_small by lia. rewrite Z.eqb_refl.
      exists st. split; [reflexivity|].
      repeat split; try reflexivity.
      * intros i. rewrite Z.bits_0. cbn. apply eq_sym, andb_true_r.
      * intros c. rewrite Z.bits_0. reflexivity.
      * auto.
      * intros [H|[H _]]; [exact H|]. rewrite Z.bits_0 in H. discriminate.
    + destruct (Hbit mask ltac:(lia)) as [Hj Hset].
      set (j := ffs64 mask) in *.
      pose proof (pending_count_clearbit mask j Hj Hset) as Hdec.
      cbn [SmpCall.target_loop]. fold j.
      unfold u16. rewrite (Z.mod_small j) by lia.
      replace (j =? INVALID_BIT_INDEX) with false
        by (symmetry; apply Z.eqb_neq; lia).
      unfold SmpCall.bitmap_test, SmpCall.bitmap_clear_nolock.
      destruct (Z.testbit (SmpCall.pcpu_active_bitmap st) j) eqn:Hact.
      * destruct (IH (Z.clearbit mask j)
                    (SmpCall.set_smp_call_info st j
                       {| SmpCall.func := f; SmpCall.data := d |}))
          as (st' & Hrun & Hmask & Hinfo & Herr & Ha & Hi & Hp);
          [apply clearbit_u64, Hm|lia|].
        exists st'. split; [exact Hrun|].
        cbn [SmpCall.smp_call_mask SmpCall.smp_call_info
             SmpCall.pcpu_active_bitmap SmpCall.not_active SmpCall.invoked
             SmpCall.ipis SmpCall.set_smp_call_info] in *.
        repeat split; try assumption.
        -- intros i. rewrite Hmask, Z.clearbit_eqb.
           destruct (Z.eqb_spec j i) as [<-|Hji].
           ++ rewrite Hset, Hact. reflexivity.
           ++ rewrite andb_true_r. reflexivity.
        -- intros c. rewrite Hinfo, Z.clearbit_eqb.
           rewrite (Z.eqb_sym c j).
           destruct (Z.eqb_spec j c) as [<-|Hjc].
           ++ rewrite Hset, Hact. reflexivity.
           ++ rewrite andb_true_r. reflexivity.
        -- intros Hin. apply Herr in Hin. destruct Hin as [H|[H1 H2]]; [auto|].
           rewrite Z.clearbit_eqb in H1. apply andb_true_iff in H1. tauto.
        -- intros [H|[H1 H2]]; apply Herr; [auto|]. right.
           split; [|exact H2]. rewrite Z.clearbit_eqb, H1.
           destruct (Z.eqb_spec j c) as [<-|]; [congruence|reflexivity].
      * destruct (IH (Z.clearbit mask j)
                    (SmpCall.set_smp_call_mask (SmpCall.do_pr_err st j)
                       (Z.clearbit (SmpCall.smp_call_mask st) j)))
          as (st' & Hrun & Hmask & Hinfo & Herr & Ha & Hi & Hp);
          [apply clearbit_u64, Hm|lia|].
        exists st'. split; [exact Hrun|].
        cbn [SmpCall.smp_call_mask SmpCall.smp_call_info
             SmpCall.pcpu_active_bitmap SmpCall.not_active SmpCall.invoked
             SmpCall.ipis SmpCall.set_smp_call_mask SmpCall.do_pr_err] in *.
        repeat split; try assumption.
        -- intros i. rewrite Hmask, !Z.clearbit_eqb.
           destruct (Z.eqb_spec j i) as [<-|Hji].
           ++ rewrite Hset, Hact. cbn. rewrite !andb_false_r. reflexivity.
           ++ rewrite !andb_true_r. reflexivity.
        -- intros c. rewrite Hinfo, Z.clearbit_eqb.
           destruct (Z.eqb_spec j c) as [<-|Hjc].
           ++ rewrite Hset, Hact. reflexivity.
           ++ rewrite andb_true_r. reflexivity.
        -- intros Hin. apply Herr in Hin. destruct Hin as [H|[H1 H2]].
           ++ apply in_app_iff in H. destruct H as [H|[<-|[]]]; auto.
           ++ rewrite Z.clearbit_eqb in H1. apply andb_true_iff in H1. tauto.
        -- intros [H|[H1 H2]]; apply Herr.
           ++ left. apply in_app_iff. auto.
           ++ destruct (Z.eq_dec j c) as [<-|Hjc].
              ** left. apply in_app_iff. right. left. reflexivity.
              ** right. split; [|exact H2]. rewrite Z.clearbit_eqb, H1.
                 apply Z.eqb_neq in Hjc. rewrite Hjc. reflexivity.
Qed.

End SmpCallFacts.

Lemma kick_notification_effect c st :
  let r := SmpCall.kick_notification c st in
  r.1 = 0 /\
  (forall i, Z.testbit (SmpCall.smp_call_mask r.2) i
             = Z.testbit (SmpCall.smp_call_mask st) i && negb (c =? i)) /\
  SmpCall.invoked r.2
  = SmpCall.invoked st ++
    (if Z.testbit (SmpCall.smp_call_mask st) c
        && negb (SmpCall.func (SmpCall.smp_call_info st c) =? 0)
     then [(c, SmpCall.func (SmpCall.smp_call_info st c),
            SmpCall.data (SmpCall.smp_call_info st c))]
     else []) /\
  SmpCall.smp_call_info r.2 = SmpCall.smp_call_info st /\
  SmpCall.pcpu_active_bitmap r.2 = SmpCall.pcpu_active_bitmap st /\
  SmpCall.not_active r.2 = SmpCall.not_active st /\
  SmpCall.ipis r.2 = SmpCall.ipis st /\
  SmpCall.kick_notification c r.2 = (0, r.2).
Proof.
  intros r. subst r. unfold SmpCall.kick_notification, SmpCall.bitmap_test,
    SmpCall.bitmap_clear_nolock.
  destruct (Z.testbit (SmpCall.smp_call_mask st) c) eqn:Hbit; cbn [fst snd].
  - destruct (negb (SmpCall.func (SmpCall.smp_call_info st c) =? 0));
      cbn [SmpCall.smp_call_mask SmpCall.invoked SmpCall.smp_call_info
           SmpCall.pcpu_active_bitmap SmpCall.not_active SmpCall.ipis
           SmpCall.set_smp_call_mask SmpCall.do_invoke andb];
      rewrite ?Z.clearbit_eq, ?app_nil_r;
      (repeat split; try reflexivity; intros i; apply Z.clearbit_eqb).
  - rewrite Hbit, app_nil_r. repeat split; try reflexivity.
    intros i. destruct (Z.eqb_spec c i) as [<-|_].
    + rewrite Hbit. reflexivity.
    + symmetry. apply andb_true_r.
Qed.

(** X23. kick_notification on a core always returns 0 and touches the
    pending mask only at the bit of that core, which it clears; it calls
    the function stored for the core, with the stored argument, exactly
    when that bit was set and the function pointer is not NULL, and changes
    no call slot. Run again on the same core it does nothing. (Cores 0 to
    63, the ones a 64-bit mask can name.) *)
Theorem kick_notification_own_bit c st :
  0 <= c < 64 ->
  let r := SmpCall.kick_notification c st in
  r.1 = 0 /\
  (forall i, Z.testbit (SmpCall.smp_call_mask r.2) i
             = Z.testbit (SmpCall.smp_call_mask st) i && negb (c =? i)) /\
  SmpCall.invoked r.2
  = SmpCall.invoked st ++
    (if Z.testbit (SmpCall.smp_call_mask st) c
        && negb (SmpCall.func (SmpCall.smp_call_info st c) =? 0)
     then [(c, SmpCall.func (SmpCall.smp_call_info st c),
            SmpCall.data (SmpCall.smp_call_info st c))]
     else []) /\
  SmpCall.smp_call_info r.2 = SmpCall.smp_call_info st /\
  SmpCall.pcpu_active_bitmap r.2 = SmpCall.pcpu_active_bitmap st /\
  SmpCall.not_active r.2 = SmpCall.not_active st /\
  SmpCall.ipis r.2 = SmpCall.ipis st /\
  SmpCall.kick_notification c r.2 = (0, r.2).
Proof. intros _ r. subst r. apply kick_notification_effect. Qed.

Section SmpCallMore.

Context (INVALID_BIT_INDEX : Z) (ffs64 : Z -> Z).
Context (Hffs : SmpCall.ffs64_contract INVALID_BIT_INDEX ffs64).

(** X24. The loop of smp_call_function over the targets ends within 64
    iterations for every 64-bit mask. It loads the call slot of every core
    of the mask that is active with the function and the argument and
    leaves the other slots alone; it clears from the pending mask the bit of
    every core of the mask that is not active, reports that core, and
    touches no other bit; it calls and sends nothing. (For any [ffs64] that
    returns the index of a set bit, and the constant on an empty mask.) *)
Theorem target_loop_loads_active_targets mask f d st :
  0 <= mask < 18446744073709551616 ->
  exists st',
    SmpCall.target_loop INVALID_BIT_INDEX ffs64 64 mask f d st = Some st' /\
    targets_done mask f d st st'.
Proof.
  intros Hm. apply (target_loop_spec _ _ Hffs); [exact Hm|].
  apply pending_count_bound.
Qed.

Lemma claim_loop_first_clear (before later : list Z) mask :
  Forall (fun cell => cell <> 0) before ->
  Notify.claim_loop INVALID_BIT_INDEX (before ++ 0 :: later) mask
  = Some (Z.land mask INVALID_BIT_INDEX).
Proof.
  induction 1 as [|cell before Hne _ IH]; cbn [app Notify.claim_loop].
  - rewrite claim_attempt_clear. reflexivity.
  - rewrite claim_attempt_busy by exact Hne. exact IH.
Qed.

Lemma kicks_fold f d :
  forall (kicks : list Z) st,
    List.NoDup kicks ->
    (forall c, In c kicks ->
       Z.testbit (SmpCall.smp_call_mask st) c = true /\
       SmpCall.smp_call_info st c = {| SmpCall.func := f; SmpCall.data := d |}) ->
    let st' := fold_left (fun st c => (SmpCall.kick_notification c st).2)
                 kicks st in
    (forall i, Z.testbit (SmpCall.smp_call_mask st') i = true <->
               Z.testbit (SmpCall.smp_call_mask st) i = true /\ ~ In i kicks) /\
    SmpCall.invoked st'
    = SmpCall.invoked st ++
      (if f =? 0 then [] else List.map (fun c => (c, f, d)) kicks) /\
    SmpCall.ipis st' = SmpCall.ipis st /\
    SmpCall.not_active st' = SmpCall.not_active st.
Proof.
  induction kicks as [|a kicks IH]; intros st Hnd Hall; cbn [fold_left].
  - cbv zeta. split; [|split; [|split]]; try reflexivity.
    + intros i. cbn [In]. tauto.
    + destruct (f =? 0); cbn; rewrite app_nil_r; reflexivity.
  - inversion Hnd as [|? ? Hnotin Hnd']; subst.
    destruct (kick_notification_effect a st)
      as (_ & Hbits & Hinv & Hinfo & _ & Herr & Hipi & _).
    destruct (Hall a (or_introl eq_refl)) as [Ha Hia].
    rewrite Ha, Hia in Hinv. cbn [SmpCall.func SmpCall.data andb] in Hinv.
    destruct (IH (SmpCall.kick_notification a st).2 Hnd')
      as (Hbits' & Hinv' & Hipi' & Herr').
    { intros c Hc. rewrite Hbits, Hinfo.
      destruct (Hall c (or_intror Hc)) as [Hc1 Hc2].
      split; [|exact Hc2]. rewrite Hc1.
      destruct (Z.eqb_spec a c) as [->|]; [contradiction|reflexivity]. }
    cbv zeta in Hbits', Hinv', Hipi', Herr'. cbv zeta.
    split; [|split; [|split]].
    + intros i. rewrite Hbits', Hbits. cbn [In]. split.
      * intros [H Hni]. apply andb_true_iff in H. destruct H as [H1 H2].
        split; [exact H1|]. intros [<-|Hin]; [|contradiction].
        rewrite Z.eqb_refl in H2. discriminate.
      * intros [Hi Hni]. split.
        -- rewrite Hi. destruct (Z.eqb_spec a i) as [->|]; [|reflexivity].
           exfalso. apply Hni. left. reflexivity.
        -- intros Hin. apply Hni. right. exact Hin.
    + rewrite Hinv', Hinv. destruct (f =? 0); cbn [negb List.map];
        rewrite <- app_assoc; reflexivity.
    + congruence.
    + congruence.
Qed.

Lemma smp_call_function_within_completes (fuel : nat)
    (before later kicks : list Z) mask f d st :
  (SmpCall.pending_count mask <= fuel)%nat ->
  0 <= mask < 18446744073709551616 ->
  Forall (fun cell => cell <> 0) before ->
  List.NoDup kicks ->
  (forall c, In c kicks <->
     Z.testbit mask c && Z.testbit INVALID_BIT_INDEX c
     && Z.testbit (SmpCall.pcpu_active_bitmap st) c = true) ->
  exists st',
    SmpCall.smp_call_function_within INVALID_BIT_INDEX ffs64 fuel
      (before ++ 0 :: later) kicks mask f d st = Some st' /\
    SmpCall.smp_call_mask st' = 0 /\
    SmpCall.invoked st'
    = SmpCall.invoked st ++
      (if f =? 0 then [] else List.map (fun c => (c, f, d)) kicks) /\
    (exists dest,
       SmpCall.ipis st' = SmpCall.ipis st ++ [dest] /\
       forall i, Z.testbit dest i
                 = Z.testbit mask i && Z.testbit INVALID_BIT_INDEX i
                   && Z.testbit (SmpCall.pcpu_active_bitmap st) i) /\
    (forall c, In c (SmpCall.not_active st') <->
       In c (SmpCall.not_active st) \/
       (Z.testbit mask c = true /\
        Z.testbit (SmpCall.pcpu_active_bitmap st) c = false)).
Proof.
  intros Hfuel Hm Hbefore Hnd Hkicks.
  unfold SmpCall.smp_call_function_within.
  rewrite claim_loop_first_clear by exact Hbefore. cbn [mbind option_bind].
  destruct (target_loop_spec _ _ Hffs f d fuel mask
              (SmpCall.set_smp_call_mask st (Z.land mask INVALID_BIT_INDEX))
              Hm Hfuel)
    as (st1 & Hrun & Hmask & Hinfo & Herr & Hact & Hinv & Hipi).
  rewrite Hrun. cbn [mbind option_bind].
  cbn [SmpCall.smp_call_mask SmpCall.smp_call_info SmpCall.pcpu_active_bitmap
       SmpCall.not_active SmpCall.invoked SmpCall.ipis
       SmpCall.set_smp_call_mask] in Hmask, Hinfo, Herr, Hact, Hinv, Hipi.
  assert (Hdest : forall i,
            Z.testbit (SmpCall.smp_call_mask st1) i
            = Z.testbit mask i && Z.testbit INVALID_BIT_INDEX i
              && Z.testbit (SmpCall.pcpu_active_bitmap st) i).
  { intros i. rewrite Hmask, Z.land_spec.
    destruct (Z.testbit mask i), (Z.testbit INVALID_BIT_INDEX i),
      (Z.testbit (SmpCall.pcpu_active_bitmap st) i); reflexivity. }
  set (st2 := SmpCall.do_send_ipi st1 (SmpCall.smp_call_mask st1)).
  destruct (kicks_fold f d kicks st2 Hnd) as (Hbits & Hinv' & Hipi' & Herr').
  { intros c Hc. apply Hkicks in Hc. subst st2.
    cbn [SmpCall.smp_call_mask SmpCall.smp_call_info SmpCall.do_send_ipi].
    rewrite Hdest, Hinfo. split; [exact Hc|].
    apply andb_true_iff in Hc. destruct Hc as [Hc Hc3].
    apply andb_true_iff in Hc. destruct Hc as [Hc1 _].
    rewrite Hc1, Hc3. reflexivity. }
  cbv zeta in Hbits, Hinv', Hipi', Herr'.
  set (st3 := fold_left _ kicks st2) in *.
  assert (Hzero : SmpCall.smp_call_mask st3 = 0).
  { apply Z.bits_inj'. intros i _. rewrite Z.bits_0.
    destruct (Z.testbit (SmpCall.smp_call_mask st3) i) eqn:E; [|reflexivity].
    apply Hbits in E. destruct E as [E Hni]. exfalso. apply Hni, Hkicks.
    subst st2. cbn [SmpCall.smp_call_mask SmpCall.do_send_ipi] in E.
    rewrite <- Hdest. exact E. }
  rewrite Hzero. cbn [Z.eqb]. exists st3.
  subst st2. cbn [SmpCall.invoked SmpCall.ipis SmpCall.not_active
                  SmpCall.do_send_ipi] in Hinv', Hipi', Herr'.
  repeat split.
  - exact Hzero.
  - rewrite Hinv', Hinv. reflexivity.
  - exists (SmpCall.smp_call_mask st1). split; [|exact Hdest].
    rewrite Hipi', Hipi. reflexivity.
  - rewrite Herr'. apply Herr.
  - rewrite Herr'. apply Herr.
Qed.

(** X25. A remote call runs to its end when the targeted cores take the
    notification interrupt one after the other. If the pending mask is
    found clear at some attempt and every core that is in [mask], in the
    constant and active takes the interrupt once, smp_call_function
    returns with the pending mask clear, after one interrupt sent to exactly
    those cores and after the function was called once on each of them
    with the argument (not at all for a NULL function). The cores of the
    mask that are not active are reported and not waited for. *)
Theorem smp_call_function_completes (before later kicks : list Z)
    mask f d st :
  0 <= mask < 18446744073709551616 ->
  Forall (fun cell => cell <> 0) before ->
  List.NoDup kicks ->
  (forall c, In c kicks <->
     Z.testbit mask c && Z.testbit INVALID_BIT_INDEX c
     && Z.testbit (SmpCall.pcpu_active_bitmap st) c = true) ->
  exists st',
    SmpCall.smp_call_function INVALID_BIT_INDEX ffs64
      (before ++ 0 :: later) kicks mask f d st = Some st' /\
    SmpCall.smp_call_mask st' = 0 /\
    SmpCall.invoked st'
    = SmpCall.invoked st ++
      (if f =? 0 then [] else List.map (fun c => (c, f, d)) kicks) /\
    (exists dest,
       SmpCall.ipis st' = SmpCall.ipis st ++ [dest] /\
       forall i, Z.testbit dest i
                 = Z.testbit mask i && Z.testbit INVALID_BIT_INDEX i
                   && Z.testbit (SmpCall.pcpu_active_bitmap st) i) /\
    (forall c, In c (SmpCall.not_active st') <->
       In c (SmpCall.not_active st) \/
       (Z.testbit mask c = true /\
        Z.testbit (SmpCall.pcpu_active_bitmap st) c = false)).
Proof.
  intros Hm Hbefore Hnd Hkicks. unfold SmpCall.smp_call_function.
  apply smp_call_function_within_completes; try assumption.
  apply pending_count_bound.
Qed.

End SmpCallMore.

(** *** The notification interrupt *)

Section IrqFacts.

Context (IRQ_INVALID NOTIFY_IRQ : Z).

(** X26. The notification interrupt is registered at most once. Starting
    unregistered, a request whose request_irq succeeds returns 0 and
    records the interrupt; any further request returns -EBUSY without
    calling request_irq and keeps the recorded interrupt; cleanup frees
    exactly that interrupt and goes back to unregistered, a second cleanup
    frees nothing, and a request after cleanup calls request_irq again. A
    request whose request_irq fails leaves the state unregistered, and
    setup_notification does nothing on a core other than core 0. *)
Theorem notification_irq_lifecycle (retval retval2 cpu : Z)
    (s : SmpCall.irq_state) :
  SmpCall.notification_irq s = IRQ_INVALID ->
  0 <= retval < 4294967296 -> retval <> IRQ_INVALID ->
  let request := SmpCall.request_notification_irq IRQ_INVALID NOTIFY_IRQ in
  let cleanup := SmpCall.cleanup_notification IRQ_INVALID in
  let r1 := request retval s in
  let r2 := request retval2 r1.2 in
  let s3 := cleanup r1.2 in
  (r1.1 = 0 /\ SmpCall.notification_irq r1.2 = retval /\
   SmpCall.irq_requests r1.2 = SmpCall.irq_requests s ++ [NOTIFY_IRQ]) /\
  (r2.1 = - SmpCall.EBUSY /\ SmpCall.notification_irq r2.2 = retval /\
   SmpCall.irq_requests r2.2 = SmpCall.irq_requests r1.2) /\
  (SmpCall.notification_irq s3 = IRQ_INVALID /\
   SmpCall.irq_frees s3 = SmpCall.irq_frees s ++ [retval] /\
   SmpCall.irq_frees (cleanup s3) = SmpCall.irq_frees s3 /\
   SmpCall.irq_requests (request retval2 s3).2
   = SmpCall.irq_requests s3 ++ [NOTIFY_IRQ]) /\
  (retval2 < 0 ->
   (request retval2 s).1 = - ENODEV /\
   SmpCall.notification_irq (request retval2 s).2 = IRQ_INVALID) /\
  (u16 cpu <> 0 ->
   SmpCall.setup_notification IRQ_INVALID NOTIFY_IRQ cpu retval s = s).
Proof.
  intros Hs Hr Hne request cleanup r1 r2 s3.
  assert (Hr1 : r1 = (0, SmpCall.set_notification_irq retval
                           {| SmpCall.notification_irq := SmpCall.notification_irq s;
                              SmpCall.irq_requests :=
                                SmpCall.irq_requests s ++ [NOTIFY_IRQ];
                              SmpCall.irq_frees := SmpCall.irq_frees s;
                              SmpCall.irq_logs := SmpCall.irq_logs s |})).
  { subst r1 request. unfold SmpCall.request_notification_irq.
    rewrite Hs, Z.eqb_refl. cbn [negb].
    replace (retval <? 0) with false by (symmetry; apply Z.ltb_ge; lia).
    unfold u32. rewrite Z.mod_small by lia. reflexivity. }
  assert (Hreg : (retval =? IRQ_INVALID) = false) by (apply Z.eqb_neq, Hne).
  split; [|split; [|split; [|split]]].
  - rewrite Hr1. repeat split.
  - subst r2 request. rewrite Hr1. cbn [snd].
    unfold SmpCall.request_notification_irq at 1 2 3.
    cbn [SmpCall.notification_irq SmpCall.set_notification_irq].
    rewrite Hreg. repeat split.
  - subst s3 cleanup request. rewrite Hr1. cbn [snd].
    unfold SmpCall.cleanup_notification, SmpCall.request_notification_irq,
      SmpCall.set_notification_irq.
    cbn [SmpCall.notification_irq SmpCall.irq_frees SmpCall.irq_requests
         SmpCall.irq_logs].
    rewrite Hreg. cbn [negb SmpCall.notification_irq SmpCall.irq_frees
                       SmpCall.irq_requests SmpCall.irq_logs].
    rewrite !Z.eqb_refl.
    cbn [negb SmpCall.notification_irq SmpCall.irq_frees
         SmpCall.irq_requests SmpCall.irq_logs].
    repeat split. destruct (retval2 <? 0); reflexivity.
  - intros Hneg. subst request. unfold SmpCall.request_notification_irq.
    rewrite Hs, Z.eqb_refl. cbn [negb].
    replace (retval2 <? 0) with true by (symmetry; apply Z.ltb_lt; lia).
    split; [reflexivity|]. cbn. first [reflexivity|exact Hs].
  - intros Hcpu. unfold SmpCall.setup_notification.
    assert (0 <= u16 cpu) by (unfold u16; apply Z.mod_pos_bound; lia).
    replace (u16 cpu >? 0) with true
      by (symmetry; apply Z.gtb_lt; lia).
    reflexivity.
Qed.

End IrqFacts.

Lemma lowest_bit_spec p :
  0 <= SmpCall.lowest_bit p /\
  Z.testbit (Zpos p) (SmpCall.lowest_bit p) = true /\
  2 ^ SmpCall.lowest_bit p <= Zpos p.
Proof.
  induction p as [p _|p IH|]; cbn [SmpCall.lowest_bit].
  - split; [lia|]. split; [reflexivity|]. change (2 ^ 0) with 1. lia.
  - destruct IH as (H0 & Hbit & Hle). split; [lia|]. split.
    + replace (1 + SmpCall.lowest_bit p) with (Z.succ (SmpCall.lowest_bit p))
        by lia.
      change (Zpos p~0) with (2 * Zpos p).
      rewrite Z.testbit_even_succ by exact H0. exact Hbit.
    + rewrite Z.pow_add_r by lia. change (2 ^ 1) with 2. lia.
  - split; [lia|]. split; [reflexivity|]. change (2 ^ 0) with 1. lia.
Qed.

Lemma ffs64_lowest_contract :
  SmpCall.ffs64_contract 65535 SmpCall.ffs64_lowest.
Proof.
  split; [reflexivity|]. split; [lia|].
  intros mask Hm. destruct mask as [|p|p]; try lia.
  cbn [SmpCall.ffs64_lowest].
  destruct (lowest_bit_spec p) as (H0 & Hbit & Hle).
  split; [|exact Hbit]. split; [exact H0|].
  destruct (Z.lt_ge_cases (SmpCall.lowest_bit p) 64) as [|Hge]; [assumption|].
  pose proof (Z.pow_le_mono_r 2 64 (SmpCall.lowest_bit p) ltac:(lia) Hge).
  change (2 ^ 64) with 18446744073709551616 in *. lia.
Qed.

(** *** Concrete runs, continued *)

Lemma emulate_io_handoff_witness :
  handoffs
    (emulate_io sample_insert false
       (sample_vcpu 0 VCPU_RUNNING
          (sample_request REQ_PORTIO REQUEST_READ 1016 1 0))
       (sample_vm 1 [] [] [] [])
       (sample_request REQ_PORTIO REQUEST_READ 1016 1 0) sample_world).2
  = [CallInsertRequestWait 0 (sample_request REQ_PORTIO REQUEST_READ 1016 1 0)].
Proof.
  exact (proj1 (emulate_io_handoff sample_insert false
                  (sample_vcpu 0 VCPU_RUNNING
                     (sample_request REQ_PORTIO REQUEST_READ 1016 1 0))
                  (sample_vm 1 [] [] [] [])
                  (sample_request REQ_PORTIO REQUEST_READ 1016 1 0)
                  sample_world)).
Defined.

Lemma pio_instr_vmexit_handler_frame_witness :
  vcpu_get_gpreg
    (pio_instr_vmexit_handler sample_insert false
       (sample_exit_vcpu 6291456) (sample_vm 1 [sample_handler 96 4] [] [] [])
       sample_world).1.1.2 CPU_REG_RAX
  = vcpu_get_gpreg (sample_exit_vcpu 6291456) CPU_REG_RAX.
Proof.
  destruct (pio_instr_vmexit_handler_frame sample_insert false
              (sample_exit_vcpu 6291456)
              (sample_vm 1 [sample_handler 96 4] [] [] []) sample_world)
    as (_ & _ & _ & Hout).
  apply Hout. reflexivity.
Defined.

Lemma pio_out_reaches_write_callback_witness :
  exists w',
    pio_instr_vmexit_handler sample_insert false
      (sample_exit_vcpu 6291457) (sample_vm 1 [sample_handler 96 4] [] [] [])
      sample_world
    = (0, set_req (sample_exit_vcpu 6291457)
            (exit_request (sample_exit_vcpu 6291457)),
       sample_vm 1 [sample_handler 96 4] [] [] [], w') /\
    calls w' = [CallIoWrite (sample_handler 96 4) 96 2 30600] /\
    devs w' = [30600].
Proof.
  refine (@pio_out_reaches_write_callback (list Z) sample_insert false
            (sample_exit_vcpu 6291457)
            (sample_vm 1 [sample_handler 96 4] [] [] []) sample_world
            [] [] (sample_handler 96 4) eq_refl _ eq_refl _ _ eq_refl).
  - change (2 <= 4). lia.
  - constructor.
  - repeat split; simpl; lia.
Defined.

Lemma pio_in_reads_callback_value_witness :
  exists v' w',
    pio_instr_vmexit_handler sample_insert false
      (sample_exit_vcpu 6291464) (sample_vm 1 [sample_handler 96 4] [] [] [])
      sample_world
    = (0, v', sample_vm 1 [sample_handler 96 4] [] [] [], w') /\
    calls w' = [CallIoRead (sample_handler 96 4) 96 1] /\
    Z.testbit (vcpu_get_gpreg v' CPU_REG_RAX) 0 = Z.testbit 171 0.
Proof.
  destruct (@pio_in_reads_callback_value (list Z) sample_insert false
              (sample_exit_vcpu 6291464)
              (sample_vm 1 [sample_handler 96 4] [] [] []) sample_world
              [] [] (sample_handler 96 4) eq_refl)
    as (v' & w' & Hrun & Hcalls & _ & Hbits & _).
  - change (1 <= 4). lia.
  - vm_compute. split; [discriminate|reflexivity].
  - reflexivity.
  - constructor.
  - repeat split; simpl; lia.
  - reflexivity.
  - exists v', w'. split; [exact Hrun|]. split; [exact Hcalls|].
    apply (Hbits 0). lia.
Defined.

Lemma pio_in_partition_unclaimed_port_witness :
  let m := sample_vm 1 [sample_handler 96 4; sample_handler 65280 256]
             [] [] [] in
  exists v' w',
    pio_instr_vmexit_handler sample_insert true
      (sample_exit_vcpu 66584584) m sample_world
    = (0, v', m, w') /\
    calls w' = [] /\
    Z.testbit (vcpu_get_gpreg v' CPU_REG_RAX) 4 = true.
Proof.
  intros m.
  destruct (@pio_in_partition_unclaimed_port (list Z) sample_insert
              (sample_exit_vcpu 66584584) m sample_world eq_refl)
    as (v' & w' & Hrun & Hcalls & _ & Hbits & _).
  - change (1 <= 4). lia.
  - vm_compute. split; [discriminate|reflexivity].
  - repeat constructor; simpl; lia.
  - exists v', w'. split; [exact Hrun|]. split; [exact Hcalls|].
    apply (Hbits 4). lia.
Defined.

Lemma emulate_io_post_other_slots_witness :
  io_shared_page
    (set_slot
       (sample_vm 1 [] [] []
          [sample_slot 171 1 REQ_STATE_COMPLETE;
           sample_slot 5 1 REQ_STATE_PENDING])
       0 (complete_ioreq (sample_slot 171 1 REQ_STATE_COMPLETE))) !! 1%nat
  = Some (sample_slot 5 1 REQ_STATE_PENDING).
Proof.
  refine (proj1 (proj2 (@emulate_io_post_other_slots (list Z)
            (sample_vcpu 0 VCPU_ZOMBIE
               (sample_request REQ_PORTIO REQUEST_READ 96 1 0))
            (sample_vcpu 0 VCPU_ZOMBIE
               (sample_request REQ_PORTIO REQUEST_READ 96 1 0))
            (sample_vm 1 [] [] []
               [sample_slot 171 1 REQ_STATE_COMPLETE;
                sample_slot 5 1 REQ_STATE_PENDING])
            _ sample_world sample_world eq_refl)) 1%nat _).
  discriminate.
Defined.

Lemma emulate_io_post_twice_witness :
  let v := sample_vcpu 0 VCPU_RUNNING
             (sample_request REQ_WP REQUEST_WRITE 4096 4 0) in
  let m := sample_vm 1 [] [] [] [sample_slot 0 1 REQ_STATE_COMPLETE] in
  let m' := set_slot m 0 (complete_ioreq (sample_slot 0 1 REQ_STATE_COMPLETE)) in
  let w' := do_call (CallResumeVcpu 0) sample_world in
  emulate_io_post v m' w' = Some (v, m', w').
Proof.
  intros v m m' w'.
  refine (@emulate_io_post_twice (list Z) v v m m' sample_world w'
            (sample_slot 0 1 REQ_STATE_COMPLETE) eq_refl _ eq_refl eq_refl).
  simpl. lia.
Defined.

Lemma dm_emulate_mmio_post_consumes_witness :
  let v := sample_vcpu 0 VCPU_RUNNING
             (sample_request REQ_MMIO REQUEST_READ 4096 4 0) in
  let m := sample_vm 1 [] [] [] [sample_slot 3735928559 1 REQ_STATE_COMPLETE] in
  exists v' m',
    dm_emulate_mmio_post sample_emulate_instruction v m sample_world
    = Some (v', m', sample_world) /\
    vcpu_get_gpreg v' CPU_REG_RCX = 3735928559.
Proof.
  intros v m.
  destruct (@dm_emulate_mmio_post_consumes (list Z) sample_emulate_instruction
              v m sample_world (sample_slot 3735928559 1 REQ_STATE_COMPLETE)
              eq_refl) as (Hrun & _ & _).
  eexists _, _. split; [exact Hrun|]. reflexivity.
Defined.


Lemma register_io_emulation_handler_then_dispatch_witness :
  (hv_emulate_pio
     (set_io_handler (sample_vm 1 [sample_handler 96 32] [] [] [])
        [sample_handler 96 4; sample_handler 96 32])
     (sample_request REQ_PORTIO REQUEST_READ 97 1 0) sample_world).1.1 = 0.
Proof.
  rewrite (@register_io_emulation_handler_then_dispatch (list Z)
             (sample_vm 1 [sample_handler 96 32] [] [] [])
             (set_io_handler (sample_vm 1 [sample_handler 96 32] [] [] [])
                [sample_handler 96 4; sample_handler 96 32])
             {| range_base := 96; range_len := 4 |}
             sample_io_read sample_io_write sample_world sample_world
             (sample_request REQ_PORTIO REQUEST_READ 97 1 0) sample_world
             eq_refl).
  - reflexivity.
  - simpl. lia.
  - simpl. lia.
  - simpl. lia.
  - change (1 <= 1 <= 4). lia.
  - reflexivity.
Defined.

Lemma unregister_mmio_emulation_handler_first_match_witness :
  mmio_list
    (unregister_mmio_emulation_handler
       (sample_vm 1 []
          [sample_node 0 4096; sample_node 4096 8192; sample_node 4096 8192]
          [] [])
       4096 8192)
  = [sample_node 0 4096; sample_node 4096 8192].
Proof.
  refine (proj1 (proj2 (@unregister_mmio_emulation_handler_first_match (list Z)
            (sample_vm 1 []
               [sample_node 0 4096; sample_node 4096 8192;
                sample_node 4096 8192] [] [])
            4096 8192))
            [sample_node 0 4096] [sample_node 4096 8192]
            (sample_node 4096 8192) eq_refl _ eq_refl).
  repeat constructor.
Defined.

Lemma list_add_spec_inserts : list_add_inserts (@list_add_spec (list Z)).
Proof.
  intros node l. exists l, []. split; [symmetry; apply app_nil_r|reflexivity].
Qed.

Lemma register_unregister_mmio_witness :
  mmio_list
    (unregister_mmio_emulation_handler
       (set_mmio_list (sample_vm 1 [] [sample_node 0 4096] [] [])
          [sample_node 0 4096; sample_node 4096 8192])
       4096 8192)
  = [sample_node 0 4096].
Proof.
  refine (@register_unregister_mmio (list Z) list_add_spec true
            (sample_vm 1 [] [sample_node 0 4096] [] [])
            (Some sample_read_write) 4096 8192 7 sample_world
            (set_mmio_list (sample_vm 1 [] [sample_node 0 4096] [] [])
               [sample_node 0 4096; sample_node 4096 8192])
            sample_world list_add_spec_inserts _ eq_refl).
  repeat constructor.
Defined.

Lemma register_mmio_then_dispatch_witness :
  (hv_emulate_mmio
     (set_mmio_list (sample_vm 1 [] [sample_node 0 4096] [] [])
        [sample_node 0 4096; sample_node 4096 8192])
     (sample_request REQ_MMIO REQUEST_READ 6144 4 0) sample_world).1.1 = 0.
Proof.
  rewrite (@register_mmio_then_dispatch (list Z) list_add_spec true
             (sample_vm 1 [] [sample_node 0 4096] [] [])
             sample_read_write 4096 8192 7 sample_world
             (set_mmio_list (sample_vm 1 [] [sample_node 0 4096] [] [])
                [sample_node 0 4096; sample_node 4096 8192])
             sample_world
             (sample_request REQ_MMIO REQUEST_READ 6144 4 0) sample_world
             list_add_spec_inserts eq_refl).
  - reflexivity.
  - change (1 <= 4). lia.
  - change (0 <= 6144 + 4 < 18446744073709551616). lia.
  - repeat constructor.
  - reflexivity.
Defined.

Lemma kick_notification_own_bit_witness :
  let st :=
    SmpCall.set_smp_call_info
      (SmpCall.set_smp_call_mask (sample_smp_state 7) 6) 2
      {| SmpCall.func := 4096; SmpCall.data := 9 |} in
  SmpCall.invoked (SmpCall.kick_notification 2 st).2 = [(2, 4096, 9)] /\
  SmpCall.kick_notification 2 (SmpCall.kick_notification 2 st).2
  = (0, (SmpCall.kick_notification 2 st).2).
Proof.
  intros st.
  destruct (kick_notification_own_bit 2 st ltac:(lia))
    as (_ & _ & Hinv & _ & _ & _ & _ & Hagain).
  split; [exact Hinv|exact Hagain].
Defined.

Lemma target_loop_loads_active_targets_witness :
  exists st',
    SmpCall.target_loop 65535 SmpCall.ffs64_lowest 64 6 4096 9
      (SmpCall.set_smp_call_mask (sample_smp_state 2) 6) = Some st' /\
    SmpCall.smp_call_info st' 1
    = {| SmpCall.func := 4096; SmpCall.data := 9 |}.
Proof.
  destruct (target_loop_loads_active_targets 65535 SmpCall.ffs64_lowest
              ffs64_lowest_contract 6 4096 9
              (SmpCall.set_smp_call_mask (sample_smp_state 2) 6))
    as (st' & Hrun & _ & Hinfo & _).
  - lia.
  - exists st'. split; [exact Hrun|]. rewrite Hinfo. reflexivity.
Defined.

Lemma smp_call_function_completes_witness :
  exists st',
    SmpCall.smp_call_function 65535 SmpCall.ffs64_lowest
      [5; 0] [2; 1] 6 4096 9 (sample_smp_state 7) = Some st' /\
    SmpCall.smp_call_mask st' = 0 /\
    SmpCall.invoked st' = [(2, 4096, 9); (1, 4096, 9)].
Proof.
  destruct (smp_call_function_completes 65535 SmpCall.ffs64_lowest
              ffs64_lowest_contract [5] [] [2; 1] 6 4096 9
              (sample_smp_state 7))
    as (st' & Hrun & Hzero & Hinv & _).
  - lia.
  - repeat constructor. discriminate.
  - repeat constructor; cbn [In]; intuition discriminate.
  - intros c. cbn [In]. split.
    + intros [<-|[<-|[]]]; reflexivity.
    + intros H.
      destruct (Z.eq_dec c 1) as [->|H1]; [auto|].
      destruct (Z.eq_dec c 2) as [->|H2]; [auto|].
      exfalso. apply andb_true_iff in H. destruct H as [H Ha].
      apply andb_true_iff in H. destruct H as [Hm _].
      change 6 with (Z.lor (2 ^ 1) (2 ^ 2)) in Hm.
      destruct (Z.lt_ge_cases c 0) as [Hneg|Hpos].
      * rewrite Z.testbit_neg_r in Hm by exact Hneg. discriminate.
      * rewrite Z.lor_spec, !Z.pow2_bits_eqb in Hm by lia.
        apply orb_true_iff in Hm.
        destruct Hm as [Hm|Hm]; apply Z.eqb_eq in Hm; congruence.
  - exists st'. split; [exact Hrun|]. split; [exact Hzero|exact Hinv].
Defined.

Lemma notification_irq_lifecycle_witness :
  (SmpCall.request_notification_irq 4294967295 257 40
     (SmpCall.request_notification_irq 4294967295 257 40
        (sample_irq_state 4294967295)).2).1 = - SmpCall.EBUSY.
Proof.
  destruct (notification_irq_lifecycle 4294967295 257 40 40 0
              (sample_irq_state 4294967295) eq_refl)
    as (_ & (Hbusy & _) & _).
  - lia.
  - discriminate.
  - exact Hbusy.
Defined.
